(** * Clay chart extensions: pie-chart texture cache, colour helpers and
      bar-chart config buffer

    A shallow embedding of the header-only chart extensions
    ([clay_extensions_piechart.h] in its custom-element and its layout-only
    variant, [clay_extensions_barchart.h] in its macro and its plain variant)
    together with the properties their design description states.

    Conventions of the embedding.
    - A C [float] is an IEEE-754 binary32 value ([spec_float] at precision 24,
      maximal exponent 128), every operation rounded to nearest-even once
      (FLT_EVAL_METHOD 0).  NaN payloads are not tracked.
    - [uint32_t] values are [Z] with the wrap-around written out.
    - Pointers into caller-owned arrays are addresses into an explicit
      memory; address 0 is NULL.
    - A function returns [None] where the C program has no defined behaviour
      (out-of-bounds read, float-to-integer conversion out of range, reading
      a union member that was not the one written).
    - Function-local statics are threaded through as explicit state.
    - Calls into the rendering backend, the layout engine and [stderr] are
      recorded as a trace of events.

    Layout of the file: the embedding of the code (modules [F32], [F64],
    [Pie], [PieCustom], [PieLayout], [Bar], and further on [BarRender],
    [MainLoop], [DemoData], [DemoLayout], [DemoCustom]); the vocabulary of
    the statements; sample inputs; then the lemmas and theorems, by
    subject. *)

From Stdlib Require Import ZArith Bool Lia.
From Stdlib Require Import Floats.SpecFloat.
From stdpp Require Import base option list gmap strings.

Local Open Scope Z_scope.

(* ===================================================================== *)
(** * Machine arithmetic                                                  *)
(* ===================================================================== *)

Definition wrap32 (z : Z) : Z := z mod 2 ^ 32.
Definition wrap16 (z : Z) : Z := z mod 2 ^ 16.

(** [for (uint32_t i = start; ...; i++) body], run [count] times. *)
Fixpoint for_up {S : Type} (count : nat) (i : Z)
    (body : Z → S → option S) (s : S) : option S :=
  match count with
  | O => Some s
  | S k => s' ← body i s; for_up k (i + 1) body s'
  end.

(** IEEE-754 binary32, the C type [float]. *)
Module F32.
Definition prec : Z := 24.
Definition emax : Z := 128.

Definition float : Type := spec_float.

Definition zero : float := S754_zero false.
Definition of_Z (n : Z) : float := binary_normalize prec emax n 0 false.
Definition one : float := of_Z 1.

Definition add : float → float → float := SFadd prec emax.
Definition sub : float → float → float := SFsub prec emax.
Definition mul : float → float → float := SFmul prec emax.
Definition div : float → float → float := SFdiv prec emax.
Definition eqb : float → float → bool := SFeqb.
Definition ltb : float → float → bool := SFltb.
Definition leb : float → float → bool := SFleb.

(** [m * 2^e] rounded to binary32; used to write literals such as
    [0.5f = lit 1 (-1)]. *)
Definition lit (m e : Z) : float := binary_normalize prec emax m e false.

(** The object representation, [*(uint32_t* )&x]. *)
Definition sign_bit (s : bool) : Z := if s then 2 ^ 31 else 0.
Definition bits (x : float) : Z :=
  match x with
  | S754_zero s => sign_bit s
  | S754_infinity s => sign_bit s + 255 * 2 ^ 23
  | S754_nan => 255 * 2 ^ 23 + 2 ^ 22
  | S754_finite s m e =>
      if Z.pos (digits2_pos m) =? prec
      then sign_bit s + (e + 150) * 2 ^ 23 + (Z.pos m - 2 ^ 23)
      else sign_bit s + Z.pos m
  end.

(** Conversion to a C integer type with range [lo, hi]: truncation towards
    zero, undefined when the truncated value is out of range. *)
Definition trunc (x : float) : option Z :=
  match x with
  | S754_zero _ => Some 0
  | S754_finite s m e => Some (cond_Zopp s (Z.shiftl (Z.pos m) e))
  | _ => None
  end.
Definition to_integer (lo hi : Z) (x : float) : option Z :=
  n ← trunc x; if (lo <=? n) && (n <=? hi) then Some n else None.
Definition to_int : float → option Z := to_integer (- 2 ^ 31) (2 ^ 31 - 1).
Definition to_uchar : float → option Z := to_integer 0 255.
End F32.

Abbreviation float := F32.float.

(* Arithmetic on floats is computed with [vm_compute], never unfolded by
   [simpl]. *)
Arguments F32.of_Z : simpl never.
Arguments F32.lit : simpl never.
Arguments F32.add : simpl never.
Arguments F32.sub : simpl never.
Arguments F32.mul : simpl never.
Arguments F32.div : simpl never.
Arguments F32.eqb : simpl never.
Arguments F32.ltb : simpl never.
Arguments F32.leb : simpl never.

(** IEEE-754 binary64, the C type [double]; only what
    [Clay_PieChart__DegreesToRadians] needs. *)
Module F64.
Definition prec : Z := 53.
Definition emax : Z := 1024.

Definition of_float (x : float) : spec_float :=
  match x with
  | S754_finite s m e => binary_round prec emax s m e
  | _ => x
  end.
Definition to_float (x : spec_float) : float :=
  match x with
  | S754_finite s m e => binary_round F32.prec F32.emax s m e
  | _ => x
  end.
Definition mul : spec_float → spec_float → spec_float := SFmul prec emax.
Definition div : spec_float → spec_float → spec_float := SFdiv prec emax.

(** [#define M_PI 3.14159265358979323846] as a double. *)
Definition M_PI : spec_float := S754_finite false 7074237752028440 (-51).
End F64.

(* ===================================================================== *)
(** * Types of the layout engine and of the rendering backend             *)
(* ===================================================================== *)

(** Modelled from the spec: clay.h, which declares [Clay_Color], is not
    among the sources; the colour the layout engine takes in its per-node
    configuration has four float channels r, g, b, a, by convention from 0
    to 255. *)
Record Clay_Color := mkColor {
  r : float; g : float; b : float; a : float
}.

(** Modelled from the spec: [Clay_BoundingBox] of clay.h, the bounding box
    that comes with every drawable command: position and extent as floats. *)
Record Clay_BoundingBox := mkBox {
  x : float; y : float; width : float; height : float
}.

Definition rgba (cr cg cb ca : Z) : Clay_Color :=
  mkColor (F32.of_Z cr) (F32.of_Z cg) (F32.of_Z cb) (F32.of_Z ca).

(** raylib's [Color]: four [unsigned char] channels. *)
Record Color := mkRayColor {
  ray_r : Z; ray_g : Z; ray_b : Z; ray_a : Z
}.

(** The compound literal [(Color){ c.r, c.g, c.b, c.a }]: each float channel
    converted to [unsigned char]. *)
Definition to_raylib_color (c : Clay_Color) : option Color :=
  cr ← F32.to_uchar (r c);
  cg ← F32.to_uchar (g c);
  cb ← F32.to_uchar (b c);
  ca ← F32.to_uchar (a c);
  Some (mkRayColor cr cg cb ca).

(** Modelled from the spec: the offscreen target of the rendering backend
    (raylib's [RenderTexture2D] with its colour [Texture2D]), reduced to the
    members the extension reads: the target's id and the texture's size. *)
Record Texture2D := mkTexture {
  tex_width : Z; tex_height : Z
}.
Record RenderTexture2D := mkRenderTexture {
  rt_id : Z; rt_texture : Texture2D
}.
Definition zero_texture : RenderTexture2D :=
  mkRenderTexture 0 (mkTexture 0 0).

Record Vector2 := mkVec { vx : float; vy : float }.

(** What the extension draws inside a texture or a frame. *)
Inductive DrawCmd :=
  | DrawRing (center : Vector2) (innerRadius outerRadius : float)
      (startAngle endAngle : float) (segments : Z) (c : Color)
  | DrawCircleSector (center : Vector2) (radius : float)
      (startAngle endAngle : float) (segments : Z) (c : Color)
  | DrawLineEx (startPos endPos : Vector2) (thick : float) (c : Color).

(** Text handed to [CLAY_TEXT]: a caller's label, or the percentage that
    [snprintf] formats with [(%.1f%%)]. *)
Inductive TextSource :=
  | TextLabel (s : string)
  | TextPercent (percentage : float).

(** Elements declared to the layout engine with the [CLAY] macros. *)
Inductive LayoutDecl :=
  | OpenChart (id : string) (fixedSize : option (float * float))
      (leftToRight : bool) (background : Clay_Color)
  | CustomElement (id : string) (side : float)
  | PieArea (side : float)
  | OpenLegend (background : Clay_Color)
  | OpenLegendItem (index : Z)
  | ColorBox (background : Clay_Color)
  | Text (t : TextSource) (fontSize fontId : Z) (textColor : Clay_Color)
  | CloseElement.

(** Lines written to [stderr]. *)
Inductive LogLine :=
  | LogNoData (count : Z) (data : Z)
  | LogElementNotFound (id : Z)
  | LogFirstIds
  | LogId (i : Z) (id : Z).

Inductive Event :=
  | EvUnloadRenderTexture (t : RenderTexture2D)
  | EvLoadRenderTexture (w h : Z) (result : RenderTexture2D)
  | EvBeginTextureMode (t : RenderTexture2D)
  | EvClearBackground (c : Color)
  | EvEndTextureMode
  | EvDraw (d : DrawCmd)
  | EvLayout (d : LayoutDecl)
  | EvStderr (l : LogLine).

(** Functions of libm and of the layout engine that the extension calls and
    whose results it only passes on. *)
Class Externals := {
  cosf : float → float;
  sinf : float → float;
  Clay_GetElementId : string → Z
}.

(* ===================================================================== *)
(** * Pie chart: types and helpers shared by both variants of the header *)
(* ===================================================================== *)

Module Pie.

Record Clay_PieChart_DataPoint := mkDataPoint {
  value : float;
  label : string;
  color : Clay_Color;
  exploded : bool
}.

Definition CLAY_PIECHART_COLOR_MODE_PER_SEGMENT : Z := 0.
Definition CLAY_PIECHART_COLOR_MODE_PALETTE : Z := 1.
Definition CLAY_PIECHART_COLOR_MODE_GRADIENT : Z := 2.
Definition CLAY_PIECHART_COLOR_MODE_RANDOM : Z := 3.

(** The anonymous union [colorConfig]; the constructor is the member that
    was written last. *)
Inductive ColorConfig :=
  | Palette (colors : Z) (count : Z)
  | Gradient (start end_ : Clay_Color)
  | Random (seed : Z).

Record Clay_PieChart_Config := mkConfig {
  data : Z;
  dataCount : Z;
  radius : float;
  donutHoleRadius : float;
  explodeDistance : float;
  showLabels : bool;
  showValues : bool;
  showPercentages : bool;
  showLegend : bool;
  showSectorLines : bool;
  backgroundColor : Clay_Color;
  labelTextColor : Clay_Color;
  sectorLineColor : Clay_Color;
  labelFontSize : Z;
  labelFontId : Z;
  startAngle : float;
  colorMode : Z;
  colorConfig : ColorConfig
}.

(** Caller-owned arrays the config points into. *)
Record Memory := mkMemory {
  data_arrays : gmap Z (list Clay_PieChart_DataPoint);
  color_arrays : gmap Z (list Clay_Color)
}.

Definition read_data (m : Memory) (p i : Z) : option Clay_PieChart_DataPoint :=
  if p =? 0 then None
  else arr ← data_arrays m !! p; arr !! Z.to_nat i.

Definition read_color (m : Memory) (p i : Z) : option Clay_Color :=
  if p =? 0 then None
  else arr ← color_arrays m !! p; arr !! Z.to_nat i.

(** One round of the accumulator: [hash ^= v; hash *= 16777619u]. *)
Definition fnv_fold (hash v : Z) : Z := wrap32 (Z.lxor hash v * 16777619).

Definition Clay_PieChart__HashConfig (m : Memory)
    (config : Clay_PieChart_Config) : option Z :=
  hash ← for_up (Z.to_nat (dataCount config)) 0
    (λ i hash,
       d ← read_data m (data config) i;
       let valueInt := F32.bits (value d) in
       let hash := fnv_fold hash valueInt in
       Some (fnv_fold hash (if exploded d then 1 else 0)))
    2166136261;
  let hash := fnv_fold hash (F32.bits (radius config)) in
  let hash := fnv_fold hash (F32.bits (donutHoleRadius config)) in
  let hash := fnv_fold hash (wrap32 (colorMode config)) in
  let hash := fnv_fold hash (if showSectorLines config then 1 else 0) in
  Some hash.

Definition Clay_PieChart__CalculateTotalValue (m : Memory)
    (config : Clay_PieChart_Config) : option float :=
  for_up (Z.to_nat (dataCount config)) 0
    (λ i total, d ← read_data m (data config) i; Some (F32.add total (value d)))
    F32.zero.

(** [degrees * M_PI / 180.0f]: computed in double, returned as float. *)
Definition Clay_PieChart__DegreesToRadians (degrees : float) : float :=
  F64.to_float
    (F64.div (F64.mul (F64.of_float degrees) F64.M_PI)
             (F64.of_float (F32.of_Z 180))).

Definition lerp (s e t : float) : float := F32.add s (F32.mul (F32.sub e s) t).

Definition Clay_PieChart__LerpColor (start end_ : Clay_Color) (t : float)
    : Clay_Color :=
  mkColor (lerp (r start) (r end_) t) (lerp (g start) (g end_) t)
          (lerp (b start) (b end_) t) (lerp (a start) (a end_) t).

(** [*seed = ( *seed * 1103515245 + 12345) & 0x7fffffff; return *seed]. *)
Definition Clay_PieChart__Random (seed : Z) : Z :=
  Z.land (wrap32 (seed * 1103515245 + 12345)) (2 ^ 31 - 1).

(** The interpolation parameter of the gradient mode. *)
Definition gradient_t (dataCount index : Z) : float :=
  if 1 <? dataCount
  then F32.div (F32.of_Z index) (F32.of_Z (dataCount - 1))
  else F32.zero.

(** The colour built from one draw of the generator. *)
Definition random_color (rnd : Z) : Clay_Color :=
  rgba (100 + rnd mod 156)
       (100 + Z.shiftr rnd 8 mod 156)
       (100 + Z.shiftr rnd 16 mod 156)
       255.

(** [seed] is the function's [static uint32_t seed]; [clock] is what
    [time(NULL)] returns.  The result carries the updated static. *)
Definition Clay_PieChart__GetSegmentColor (m : Memory) (clock : Z)
    (config : Clay_PieChart_Config) (index : Z) (seed : Z)
    : option (Clay_Color * Z) :=
  let own := d ← read_data m (data config) index; Some (color d, seed) in
  if colorMode config =? CLAY_PIECHART_COLOR_MODE_PER_SEGMENT then own
  else if colorMode config =? CLAY_PIECHART_COLOR_MODE_PALETTE then
    match colorConfig config with
    | Palette colors count =>
        if negb (colors =? 0) && (0 <? count)
        then c ← read_color m colors (index mod count); Some (c, seed)
        else own
    | _ => None
    end
  else if colorMode config =? CLAY_PIECHART_COLOR_MODE_GRADIENT then
    match colorConfig config with
    | Gradient start end_ =>
        let t := gradient_t (dataCount config) index in
        Some (Clay_PieChart__LerpColor start end_ t, seed)
    | _ => None
    end
  else if colorMode config =? CLAY_PIECHART_COLOR_MODE_RANDOM then
    match colorConfig config with
    | Random cfg_seed =>
        let seed :=
          if seed =? 0
          then (if negb (cfg_seed =? 0) then cfg_seed else wrap32 clock)
          else seed in
        let rnd := Clay_PieChart__Random seed in
        Some (random_color rnd, rnd)
    | _ => None
    end
  else own.

(** [config] is the caller's config in the layout variant and the config
    scaled to the texture in [Clay_PieChart_PrepareTexture]; [seed] is the
    static of [Clay_PieChart__GetSegmentColor], threaded through. *)
Definition Clay_PieChart__RenderSegment `{Externals} (m : Memory) (clock : Z)
    (dataPoint : Clay_PieChart_DataPoint) (index : Z)
    (centerX centerY startAngleDeg sweepAngleDeg : float)
    (config : Clay_PieChart_Config) (isLast : bool) (seed : Z)
    : option (list DrawCmd * Z) :=
  let '(offsetX, offsetY) :=
    if exploded dataPoint then
      let midAngleRad :=
        Clay_PieChart__DegreesToRadians
          (F32.add startAngleDeg (F32.div sweepAngleDeg (F32.of_Z 2))) in
      (F32.mul (cosf midAngleRad) (explodeDistance config),
       F32.mul (sinf midAngleRad) (explodeDistance config))
    else (F32.zero, F32.zero) in
  '(segmentClayColor, seed) ← Clay_PieChart__GetSegmentColor m clock config index seed;
  segmentColor ← to_raylib_color segmentClayColor;
  let center := mkVec (F32.add centerX offsetX) (F32.add centerY offsetY) in
  let segment :=
    if F32.ltb F32.zero (donutHoleRadius config)
    then DrawRing center (donutHoleRadius config) (radius config)
           startAngleDeg (F32.add startAngleDeg sweepAngleDeg) 32 segmentColor
    else DrawCircleSector center (radius config)
           startAngleDeg (F32.add startAngleDeg sweepAngleDeg) 32 segmentColor in
  if showSectorLines config && negb isLast then
    let endAngleDeg := F32.add startAngleDeg sweepAngleDeg in
    let endAngleRad := Clay_PieChart__DegreesToRadians endAngleDeg in
    lineColor ← to_raylib_color (sectorLineColor config);
    let innerRadius := donutHoleRadius config in
    let outerRadius := radius config in
    let innerPoint :=
      mkVec (F32.add (vx center) (F32.mul (cosf endAngleRad) innerRadius))
            (F32.add (vy center) (F32.mul (sinf endAngleRad) innerRadius)) in
    let outerPoint :=
      mkVec (F32.add (vx center) (F32.mul (cosf endAngleRad) outerRadius))
            (F32.add (vy center) (F32.mul (sinf endAngleRad) outerRadius)) in
    Some ([segment; DrawLineEx innerPoint outerPoint (F32.of_Z 2) lineColor], seed)
  else Some ([segment], seed).

(** The segment loop, the same text in [Clay_PieChart_PrepareTexture] and
    in [Clay_PieChart_Draw]: starting from [config->startAngle], each
    segment is rendered at the current angle, which then advances by the
    segment's sweep.  Returns the final angle, the static seed and the
    commands issued. *)
Definition render_segments `{Externals} (m : Memory) (clock : Z)
    (config : Clay_PieChart_Config) (totalValue centerX centerY : float)
    (seed : Z) : option (float * Z * list DrawCmd) :=
  for_up (Z.to_nat (dataCount config)) 0
    (λ i '(currentAngleDeg, seed, cmds),
       d ← read_data m (data config) i;
       let sweepAngleDeg :=
         F32.mul (F32.div (value d) totalValue) (F32.of_Z 360) in
       '(drawn, seed) ← Clay_PieChart__RenderSegment m clock d i
          centerX centerY currentAngleDeg sweepAngleDeg config
          (i =? wrap32 (dataCount config - 1)) seed;
       Some (F32.add currentAngleDeg sweepAngleDeg, seed, cmds ++ drawn))
    (startAngle config, seed, []).

(** [Clay_PieChart__RenderLegend]; the [CLAY_AUTO_ID] wrappers around the
    colour box and the two texts are folded into their content.  The
    percentage is written into [percentBuffers[i]], an array of 32 rows. *)
Definition Clay_PieChart__RenderLegend (m : Memory) (clock : Z)
    (config : Clay_PieChart_Config) (totalValue : float) (seed : Z)
    : option (Z * list LayoutDecl) :=
  '(seed, items) ← for_up (Z.to_nat (dataCount config)) 0
    (λ i '(seed, decls),
       '(boxColor, seed) ← Clay_PieChart__GetSegmentColor m clock config i seed;
       d ← read_data m (data config) i;
       if 32 <=? i then None
       else
         let percentage :=
           F32.mul (F32.div (value d) totalValue) (F32.of_Z 100) in
         Some (seed,
               decls ++
               [OpenLegendItem i;
                ColorBox boxColor;
                Text (TextLabel (label d)) (labelFontSize config)
                     (labelFontId config) (labelTextColor config);
                Text (TextPercent percentage)
                     (wrap16 (labelFontSize config - 2))
                     (labelFontId config) (rgba 120 120 120 255);
                CloseElement]))
    (seed, []);
  Some (seed, [OpenLegend (backgroundColor config)] ++ items ++ [CloseElement]).

Definition pie_area_side (config : Clay_PieChart_Config) : float :=
  F32.add (F32.mul (radius config) (F32.of_Z 2))
          (F32.mul (explodeDistance config) (F32.of_Z 2)).

Definition Clay_PieChart_DefaultConfig : Clay_PieChart_Config :=
  {| data := 0;
     dataCount := 0;
     radius := F32.of_Z 120;
     donutHoleRadius := F32.zero;
     explodeDistance := F32.of_Z 10;
     showLabels := false;
     showValues := false;
     showPercentages := true;
     showLegend := true;
     showSectorLines := true;
     backgroundColor := rgba 255 255 255 255;
     labelTextColor := rgba 60 60 60 255;
     sectorLineColor := rgba 255 255 255 200;
     labelFontSize := 14;
     labelFontId := 0;
     startAngle := F32.of_Z (-90);
     colorMode := CLAY_PIECHART_COLOR_MODE_PER_SEGMENT;
     colorConfig := Gradient (rgba 100 150 250 255) (rgba 250 100 150 255) |}.

End Pie.

(* ===================================================================== *)
(** * Pie chart as a custom element with a cached render texture          *)
(* ===================================================================== *)

Module PieCustom.
Import Pie.

Definition CLAY_PIECHART_CUSTOM_ELEMENT_TYPE : Z := 0x50494543.

Record Clay_PieChart_CustomElementData := mkElementData {
  elementType : Z;
  config : Clay_PieChart_Config;
  totalValue : float;
  configHash : Z;
  texture : RenderTexture2D;
  textureValid : bool
}.

(** What [renderData.custom.customData] of a render command points to:
    nothing, the static [elementDataStorage], or some other extension's
    element, of which only the leading tag is looked at.  (A foreign element
    under the pie chart's own tag would be read as pie-chart data; the
    embedding leaves that undefined.) *)
Inductive CustomData :=
  | NullData
  | PieStorage
  | Foreign (elementType : Z).

Record Clay_RenderCommand := mkCommand {
  boundingBox : Clay_BoundingBox;
  customData : CustomData
}.

(** The program state the extension reads and writes: caller memory, the
    clock, the function-local statics ([seed] of
    [Clay_PieChart__GetSegmentColor], [elementDataStorage] of
    [Clay_PieChart_Render]) and the render textures alive in the backend. *)
Record World := mkWorld {
  memory : Memory;
  clock : Z;
  color_seed : Z;
  elementDataStorage : Clay_PieChart_CustomElementData;
  live_textures : gset Z;
  next_texture : Z
}.

Definition zero_config : Clay_PieChart_Config :=
  mkConfig 0 0 F32.zero F32.zero F32.zero false false false false false
    (mkColor F32.zero F32.zero F32.zero F32.zero)
    (mkColor F32.zero F32.zero F32.zero F32.zero)
    (mkColor F32.zero F32.zero F32.zero F32.zero)
    0 0 F32.zero 0 (Palette 0 0).

(** Statics are zero-initialised; no texture is alive. *)
Definition initial_world (m : Memory) (clock : Z) : World :=
  mkWorld m clock 0
    (mkElementData 0 zero_config F32.zero 0 zero_texture false) ∅ 1.

Definition set_storage (w : World) (e : Clay_PieChart_CustomElementData) : World :=
  mkWorld (memory w) (clock w) (color_seed w) e (live_textures w) (next_texture w).
Definition set_color_seed (w : World) (seed : Z) : World :=
  mkWorld (memory w) (clock w) seed (elementDataStorage w)
    (live_textures w) (next_texture w).
Definition set_memory (w : World) (m : Memory) : World :=
  mkWorld m (clock w) (color_seed w) (elementDataStorage w)
    (live_textures w) (next_texture w).

(** Modelled from the spec: offscreen-target destruction by the rendering
    backend (raylib's [UnloadRenderTexture]): the target stops being alive. *)
Definition UnloadRenderTexture (t : RenderTexture2D) (w : World) : World :=
  mkWorld (memory w) (clock w) (color_seed w) (elementDataStorage w)
    (live_textures w ∖ {[ rt_id t ]}) (next_texture w).

(** Modelled from the spec: offscreen-target creation by the rendering
    backend (raylib's [LoadRenderTexture]): a target of the requested size
    under an id that is not in use, or the zeroed struct when the backend
    cannot create the framebuffer ([created = false]). *)
Definition LoadRenderTexture (created : bool) (width height : Z) (w : World)
    : RenderTexture2D * World :=
  if created then
    (mkRenderTexture (next_texture w) (mkTexture width height),
     mkWorld (memory w) (clock w) (color_seed w) (elementDataStorage w)
       (live_textures w ∪ {[ next_texture w ]}) (next_texture w + 1))
  else (zero_texture, w).

Definition Clay_PieChart_Render (id : string) (cfg : Clay_PieChart_Config)
    (w : World) : option (World * list Event) :=
  if (dataCount cfg =? 0) || (data cfg =? 0) then Some (w, [])
  else
    total ← Clay_PieChart__CalculateTotalValue (memory w) cfg;
    if F32.leb total F32.zero then Some (w, [])
    else
      let elementData := elementDataStorage w in
      newConfigHash ← Clay_PieChart__HashConfig (memory w) cfg;
      let configChanged := negb (configHash elementData =? newConfigHash) in
      let unload :=
        configChanged && textureValid elementData
        && negb (rt_id (texture elementData) =? 0) in
      let w := if unload then UnloadRenderTexture (texture elementData) w else w in
      let unloaded :=
        if unload then [EvUnloadRenderTexture (texture elementData)] else [] in
      let valid := if unload then false else textureValid elementData in
      let elementData :=
        if configChanged
        then mkElementData CLAY_PIECHART_CUSTOM_ELEMENT_TYPE cfg total
               newConfigHash zero_texture false
        else mkElementData CLAY_PIECHART_CUSTOM_ELEMENT_TYPE cfg total
               newConfigHash (texture elementData) valid in
      let w := set_storage w elementData in
      '(seed, legend) ←
        (if showLegend cfg
         then Clay_PieChart__RenderLegend (memory w) (clock w) cfg total (color_seed w)
         else Some (color_seed w, []));
      Some (set_color_seed w seed,
            unloaded ++
            (EvLayout <$>
               [OpenChart id None (showLegend cfg) (backgroundColor cfg);
                CustomElement "PieChartCustom" (pie_area_side cfg)]
               ++ legend ++ [CloseElement])).

(** The texture size requested for a bounding box: twice its size, at
    least 128. *)
Definition texture_side (extent : float) : option Z :=
  n ← F32.to_int (F32.mul extent (F32.of_Z 2));
  Some (if n <? 128 then 128 else n).

(** The test [needsRegeneration] of [Clay_PieChart_PrepareTexture]. *)
Definition needsRegeneration (elementData : Clay_PieChart_CustomElementData)
    (currentHash texWidth texHeight : Z) : bool :=
  negb (textureValid elementData)
  || negb (configHash elementData =? currentHash)
  || negb (tex_width (rt_texture (texture elementData)) =? texWidth)
  || negb (tex_height (rt_texture (texture elementData)) =? texHeight).

(** The block guarded by [if (needsRegeneration)]: release the old target,
    create the new one and draw the segments into it.  [created] is whether
    the backend manages to create the render target. *)
Definition regenerate_texture `{Externals} (created : bool)
    (texWidth texHeight currentHash : Z) (w : World)
    : option (World * list Event) :=
  let elementData := elementDataStorage w in
  let cfg := config elementData in
  let total := totalValue elementData in
  let unload :=
    textureValid elementData && negb (rt_id (texture elementData) =? 0) in
  let w := if unload then UnloadRenderTexture (texture elementData) w else w in
  let unloaded :=
    if unload then [EvUnloadRenderTexture (texture elementData)] else [] in
  let '(target, w) := LoadRenderTexture created texWidth texHeight w in
  let maxDimension :=
    F32.add (F32.mul (radius cfg) (F32.of_Z 2))
            (F32.mul (explodeDistance cfg) (F32.of_Z 2)) in
  let scaleX := F32.div (F32.of_Z texWidth) maxDimension in
  let scaleY := F32.div (F32.of_Z texHeight) maxDimension in
  let scale := if F32.ltb scaleX scaleY then scaleX else scaleY in
  let centerX := F32.div (F32.of_Z texWidth) (F32.of_Z 2) in
  let centerY := F32.div (F32.of_Z texHeight) (F32.of_Z 2) in
  let scaledConfig :=
    mkConfig (data cfg) (dataCount cfg)
      (F32.mul (radius cfg) scale)
      (F32.mul (donutHoleRadius cfg) scale)
      (F32.mul (explodeDistance cfg) scale)
      (showLabels cfg) (showValues cfg) (showPercentages cfg)
      (showLegend cfg) (showSectorLines cfg)
      (backgroundColor cfg) (labelTextColor cfg) (sectorLineColor cfg)
      (labelFontSize cfg) (labelFontId cfg) (startAngle cfg)
      (colorMode cfg) (colorConfig cfg) in
  '(_, seed, drawn) ← render_segments (memory w) (clock w)
      scaledConfig total centerX centerY (color_seed w);
  let elementData :=
    mkElementData (elementType elementData) cfg total currentHash target true in
  Some (set_color_seed (set_storage w elementData) seed,
        unloaded ++
        [EvLoadRenderTexture texWidth texHeight target;
         EvBeginTextureMode target;
         EvClearBackground (mkRayColor 0 0 0 0)]
        ++ (EvDraw <$> drawn) ++ [EvEndTextureMode]).

Definition Clay_PieChart_PrepareTexture `{Externals}
    (renderCommand : Clay_RenderCommand) (created : bool) (w : World)
    : option (World * list Event) :=
  match customData renderCommand with
  | NullData => Some (w, [])
  | Foreign tag =>
      if tag =? CLAY_PIECHART_CUSTOM_ELEMENT_TYPE then None else Some (w, [])
  | PieStorage =>
      let elementData := elementDataStorage w in
      if negb (elementType elementData =? CLAY_PIECHART_CUSTOM_ELEMENT_TYPE)
      then Some (w, [])
      else
        let cfg := config elementData in
        let total := totalValue elementData in
        if (dataCount cfg =? 0) || (data cfg =? 0) || F32.leb total F32.zero
        then Some (w, [])
        else
          let bounds := boundingBox renderCommand in
          texWidth ← texture_side (width bounds);
          texHeight ← texture_side (height bounds);
          currentHash ← Clay_PieChart__HashConfig (memory w) cfg;
          if needsRegeneration elementData currentHash texWidth texHeight
          then regenerate_texture created texWidth texHeight currentHash w
          else Some (w, [])
  end.

(** The texture handed to the renderer, [None] for the NULL pointer. *)
Definition Clay_PieChart_GetTexture (renderCommand : Clay_RenderCommand)
    (w : World) : option RenderTexture2D :=
  match customData renderCommand with
  | PieStorage =>
      let elementData := elementDataStorage w in
      if negb (elementType elementData =? CLAY_PIECHART_CUSTOM_ELEMENT_TYPE)
      then None
      else if negb (textureValid elementData) then None
      else Some (texture elementData)
  | _ => None
  end.

End PieCustom.

(* ===================================================================== *)
(** * Pie chart drawn over the layout (variant without a cache)           *)
(* ===================================================================== *)

Module PieLayout.
Import Pie.

Record Clay_RenderCommand := mkCommand {
  id : Z;
  boundingBox : Clay_BoundingBox
}.

(** [Clay_PieChart__RenderLegend] of this variant computes the total
    itself. *)
Definition Clay_PieChart__RenderLegend (m : Memory) (clock : Z)
    (config : Clay_PieChart_Config) (seed : Z) : option (Z * list LayoutDecl) :=
  total ← Clay_PieChart__CalculateTotalValue m config;
  Pie.Clay_PieChart__RenderLegend m clock config total seed.

(** [seed] is the static of [Clay_PieChart__GetSegmentColor]. *)
Definition Clay_PieChart_Render (m : Memory) (clock : Z) (chartId : string)
    (config : Clay_PieChart_Config) (width height : float) (seed : Z)
    : option (Z * list Event) :=
  if (dataCount config =? 0) || (data config =? 0) then Some (seed, [])
  else
    total ← Clay_PieChart__CalculateTotalValue m config;
    if F32.leb total F32.zero then Some (seed, [])
    else
      '(seed, legend) ←
        (if showLegend config
         then Clay_PieChart__RenderLegend m clock config seed
         else Some (seed, []));
      Some (seed,
            EvLayout <$>
              [OpenChart chartId (Some (width, height)) (showLegend config)
                 (backgroundColor config);
               PieArea (pie_area_side config)]
              ++ legend ++ [CloseElement]).

(** The lines [Clay_PieChart_Draw] prints when the chart element is not
    among the render commands. *)
Definition not_found_log (chartElementId : Z)
    (renderCommands : list Clay_RenderCommand) : list LogLine :=
  [LogElementNotFound chartElementId; LogFirstIds]
  ++ imap (λ i cmd, LogId (Z.of_nat i) (id cmd)) (take 5 renderCommands).

Definition Clay_PieChart_Draw `{Externals} (m : Memory) (clock : Z)
    (chartId : string) (config : Clay_PieChart_Config)
    (renderCommands : list Clay_RenderCommand) (seed : Z)
    : option (Z * list Event) :=
  if (dataCount config =? 0) || (data config =? 0)
  then Some (seed, [EvStderr (LogNoData (dataCount config) (data config))])
  else
    total ← Clay_PieChart__CalculateTotalValue m config;
    if F32.leb total F32.zero then Some (seed, [])
    else
      let chartElementId := Clay_GetElementId chartId in
      let found := List.find (λ cmd, id cmd =? chartElementId) renderCommands in
      match found with
      | None =>
          Some (seed, EvStderr <$> not_found_log chartElementId renderCommands)
      | Some cmd =>
          let chartBounds := boundingBox cmd in
          let pieAreaSize := pie_area_side config in
          let centerX :=
            if showLegend config
            then F32.add (F32.add (x chartBounds) (F32.of_Z 16))
                         (F32.div pieAreaSize (F32.of_Z 2))
            else F32.add (x chartBounds)
                         (F32.div (width chartBounds) (F32.of_Z 2)) in
          let centerY :=
            F32.add (y chartBounds) (F32.div (height chartBounds) (F32.of_Z 2)) in
          '(_, seed, drawn) ←
            render_segments m clock config total centerX centerY seed;
          Some (seed, EvDraw <$> (drawn : list DrawCmd))
      end.

End PieLayout.

(* ===================================================================== *)
(** * Bar chart: colour helper and the config buffer of the macro API     *)
(* ===================================================================== *)

Module Bar.

Record Clay_BarChart_DataPoint := mkDataPoint {
  value : float;
  label : string;
  color : Clay_Color
}.

Definition CLAY_BARCHART_COLOR_MODE_PER_BAR : Z := 0.
Definition CLAY_BARCHART_COLOR_MODE_PALETTE : Z := 1.
Definition CLAY_BARCHART_COLOR_MODE_GRADIENT : Z := 2.
Definition CLAY_BARCHART_COLOR_MODE_RANDOM : Z := 3.

Inductive ColorConfig :=
  | Palette (colors : Z) (count : Z)
  | Gradient (start end_ : Clay_Color)
  | Random (seed : Z).

Record Clay_BarChart_Config := mkConfig {
  data : Z;
  dataCount : Z;
  orientation : Z;
  barWidth : float;
  barGap : float;
  maxValue : float;
  backgroundColor : Clay_Color;
  gridColor : Clay_Color;
  labelTextColor : Clay_Color;
  labelFontSize : Z;
  labelFontId : Z;
  showGrid : bool;
  showLabels : bool;
  showValues : bool;
  colorMode : Z;
  colorConfig : ColorConfig
}.

Record Memory := mkMemory {
  data_arrays : gmap Z (list Clay_BarChart_DataPoint);
  color_arrays : gmap Z (list Clay_Color)
}.

Definition read_data (m : Memory) (p i : Z) : option Clay_BarChart_DataPoint :=
  if p =? 0 then None
  else arr ← data_arrays m !! p; arr !! Z.to_nat i.

Definition read_color (m : Memory) (p i : Z) : option Clay_Color :=
  if p =? 0 then None
  else arr ← color_arrays m !! p; arr !! Z.to_nat i.

(** The static buffer of 32 configs and its write index. *)
Record ConfigStore := mkStore {
  Clay__BarChartConfigBuffer : list Clay_BarChart_Config;
  Clay__BarChartConfigIndex : Z
}.

Definition Clay_BarChart__ResetConfigBuffer (st : ConfigStore) : ConfigStore :=
  mkStore (Clay__BarChartConfigBuffer st) 0.

Definition all_zero (c : Clay_Color) : bool :=
  F32.eqb (a c) F32.zero && F32.eqb (r c) F32.zero
  && F32.eqb (g c) F32.zero && F32.eqb (b c) F32.zero.

(** The block "Apply defaults for unset values". *)
Definition apply_defaults (config : Clay_BarChart_Config) : Clay_BarChart_Config :=
  mkConfig (data config) (dataCount config) (orientation config)
    (if F32.eqb (barWidth config) F32.zero then F32.of_Z 60 else barWidth config)
    (if F32.eqb (barGap config) F32.zero then F32.of_Z 8 else barGap config)
    (maxValue config)
    (if all_zero (backgroundColor config)
     then rgba 245 245 245 255 else backgroundColor config)
    (gridColor config)
    (if all_zero (labelTextColor config)
     then rgba 60 60 60 255 else labelTextColor config)
    (if labelFontSize config =? 0 then 16 else labelFontSize config)
    (labelFontId config)
    (showGrid config) (showLabels config) (showValues config)
    (colorMode config) (colorConfig config).

(** The returned pointer [&Clay__BarChartConfigBuffer[k]] is given as the
    slot number [k]. *)
Definition Clay__StoreBarChartConfig (config : Clay_BarChart_Config)
    (st : ConfigStore) : Z * ConfigStore :=
  let index :=
    if 32 <=? Clay__BarChartConfigIndex st then 0
    else Clay__BarChartConfigIndex st in
  let config := apply_defaults config in
  (index,
   mkStore (<[Z.to_nat index := config]> (Clay__BarChartConfigBuffer st))
           (wrap32 (index + 1))).

Definition lerp (s e t : float) : float := F32.add s (F32.mul (F32.sub e s) t).

Definition Clay_BarChart__LerpColor (start end_ : Clay_Color) (t : float)
    : Clay_Color :=
  mkColor (lerp (r start) (r end_) t) (lerp (g start) (g end_) t)
          (lerp (b start) (b end_) t) (lerp (a start) (a end_) t).

Definition Clay_BarChart__Random (seed : Z) : Z :=
  Z.land (wrap32 (seed * 1103515245 + 12345)) (2 ^ 31 - 1).

Definition gradient_t (dataCount index : Z) : float :=
  if 1 <? dataCount
  then F32.div (F32.of_Z index) (F32.of_Z (dataCount - 1))
  else F32.zero.

Definition random_color (rnd : Z) : Clay_Color :=
  rgba (100 + rnd mod 156)
       (100 + Z.shiftr rnd 8 mod 156)
       (100 + Z.shiftr rnd 16 mod 156)
       255.

(** As for the pie chart, [seed] is the function's static. *)
Definition Clay_BarChart__GetBarColor (m : Memory) (clock : Z)
    (config : Clay_BarChart_Config) (index : Z) (seed : Z)
    : option (Clay_Color * Z) :=
  let own := d ← read_data m (data config) index; Some (color d, seed) in
  if colorMode config =? CLAY_BARCHART_COLOR_MODE_PER_BAR then own
  else if colorMode config =? CLAY_BARCHART_COLOR_MODE_PALETTE then
    match colorConfig config with
    | Palette colors count =>
        if negb (colors =? 0) && (0 <? count)
        then c ← read_color m colors (index mod count); Some (c, seed)
        else own
    | _ => None
    end
  else if colorMode config =? CLAY_BARCHART_COLOR_MODE_GRADIENT then
    match colorConfig config with
    | Gradient start end_ =>
        let t := gradient_t (dataCount config) index in
        Some (Clay_BarChart__LerpColor start end_ t, seed)
    | _ => None
    end
  else if colorMode config =? CLAY_BARCHART_COLOR_MODE_RANDOM then
    match colorConfig config with
    | Random cfg_seed =>
        let seed :=
          if seed =? 0
          then (if negb (cfg_seed =? 0) then cfg_seed else wrap32 clock)
          else seed in
        let rnd := Clay_BarChart__Random seed in
        Some (random_color rnd, rnd)
    | _ => None
    end
  else own.

End Bar.

(* ===================================================================== *)
(** * Vocabulary of the statements                                        *)
(* ===================================================================== *)

Module Fingerprint.
Import Pie.

(** What [Clay_PieChart__HashConfig] reads of data point [i]. *)
Definition hashed_point (m : Memory) (c : Clay_PieChart_Config) (i : Z)
    : option (Z * bool) :=
  d ← read_data m (data c) i; Some (F32.bits (value d), exploded d).

(** Two configs (each with the memory it points into) agree on every field
    the hash folds in. *)
Definition same_hashed_fields (m1 : Memory) (c1 : Clay_PieChart_Config)
    (m2 : Memory) (c2 : Clay_PieChart_Config) : Prop :=
  dataCount c1 = dataCount c2
  ∧ (∀ i, 0 ≤ i < dataCount c1 → hashed_point m1 c1 i = hashed_point m2 c2 i)
  ∧ F32.bits (radius c1) = F32.bits (radius c2)
  ∧ F32.bits (donutHoleRadius c1) = F32.bits (donutHoleRadius c2)
  ∧ wrap32 (colorMode c1) = wrap32 (colorMode c2)
  ∧ showSectorLines c1 = showSectorLines c2.

(** Two configs agree on the fields the design description lists as
    fingerprint-relevant: values, explode flags, radius, hole radius,
    colour mode. *)
Definition same_listed_fields (m1 : Memory) (c1 : Clay_PieChart_Config)
    (m2 : Memory) (c2 : Clay_PieChart_Config) : Prop :=
  dataCount c1 = dataCount c2
  ∧ (∀ i, 0 ≤ i < dataCount c1 → hashed_point m1 c1 i = hashed_point m2 c2 i)
  ∧ radius c1 = radius c2
  ∧ donutHoleRadius c1 = donutHoleRadius c2
  ∧ colorMode c1 = colorMode c2.

End Fingerprint.

(** Sequences of calls into the custom-element variant, as a host program
    makes them frame after frame; between calls the caller may rewrite the
    arrays its configs point into. *)
Module Session.
Import Pie PieCustom.

Inductive Call :=
  | Render (id : string) (cfg : Clay_PieChart_Config)
  | PrepareTexture (cmd : Clay_RenderCommand) (created : bool)
  | CallerWrites (m : Memory).

Definition call `{Externals} (c : Call) (w : World) : option (World * list Event) :=
  match c with
  | Render id cfg => Clay_PieChart_Render id cfg w
  | PrepareTexture cmd created => Clay_PieChart_PrepareTexture cmd created w
  | CallerWrites m => Some (set_memory w m, [])
  end.

Fixpoint run `{Externals} (calls : list Call) (w : World)
    : option (World * list Event) :=
  match calls with
  | [] => Some (w, [])
  | c :: rest =>
      '(w, evs) ← call c w;
      '(w, evs') ← run rest w;
      Some (w, evs ++ evs')
  end.

End Session.

(** The texture cache as the design description speaks of it. *)
Module Cache.
Import Pie PieCustom.

(** The render command refers to an element that [Clay_PieChart_Render]
    stored: tagged as a pie chart, with data and a positive total. *)
Definition pie_element (cmd : Clay_RenderCommand) (w : World) : Prop :=
  customData cmd = PieStorage
  ∧ elementType (elementDataStorage w) = CLAY_PIECHART_CUSTOM_ELEMENT_TYPE
  ∧ dataCount (config (elementDataStorage w)) ≠ 0
  ∧ data (config (elementDataStorage w)) ≠ 0
  ∧ F32.leb (totalValue (elementDataStorage w)) F32.zero = false.

(** Whatever the element storage holds under the pie-chart tag has data and
    a positive total. *)
Definition tagged_is_renderable (w : World) : Prop :=
  elementType (elementDataStorage w) = CLAY_PIECHART_CUSTOM_ELEMENT_TYPE →
  dataCount (config (elementDataStorage w)) ≠ 0
  ∧ data (config (elementDataStorage w)) ≠ 0
  ∧ F32.leb (totalValue (elementDataStorage w)) F32.zero = false.

(** What the preparation step asks for: the fingerprint of the current
    config and the texture size for the command's bounding box. *)
Record Request := mkRequest {
  fingerprint : Z;
  requestedWidth : Z;
  requestedHeight : Z
}.

Definition request (cmd : Clay_RenderCommand) (w : World) : option Request :=
  texWidth ← texture_side (width (boundingBox cmd));
  texHeight ← texture_side (height (boundingBox cmd));
  currentHash ← Clay_PieChart__HashConfig (memory w)
                  (config (elementDataStorage w));
  Some (mkRequest currentHash texWidth texHeight).

(** No valid cached texture yet, or cached for another fingerprint, or
    cached at another width or height. *)
Definition stale (cached : Clay_PieChart_CustomElementData) (rq : Request) : Prop :=
  textureValid cached = false
  ∨ configHash cached ≠ fingerprint rq
  ∨ tex_width (rt_texture (texture cached)) ≠ requestedWidth rq
  ∨ tex_height (rt_texture (texture cached)) ≠ requestedHeight rq.

(** A call regenerated the texture: it asked the backend for a new render
    target. *)
Definition regenerates (evs : list Event) : Prop :=
  ∃ w h t, EvLoadRenderTexture w h t ∈ evs.

End Cache.

(** Ownership of render targets, read off the trace of backend calls. *)
Module Ownership.
Import PieCustom.

(** Replays a trace against the set of render targets alive in the backend
    and checks the discipline of single ownership at every event: a target is
    released only while alive, a new one is created only while none is alive,
    and drawing is directed only at a target that is alive (or at the zeroed
    struct of a failed creation).  The result is the set alive at the end. *)
Fixpoint replay (live : gset Z) (evs : list Event) : option (gset Z) :=
  match evs with
  | [] => Some live
  | EvUnloadRenderTexture t :: rest =>
      if decide (rt_id t ∈ live) then replay (live ∖ {[ rt_id t ]}) rest
      else None
  | EvLoadRenderTexture _ _ t :: rest =>
      if decide (live = ∅)
      then replay (if rt_id t =? 0 then ∅ else {[ rt_id t ]}) rest
      else None
  | EvBeginTextureMode t :: rest =>
      if decide (rt_id t = 0 ∨ rt_id t ∈ live) then replay live rest
      else None
  | _ :: rest => replay live rest
  end.

(** The cache owns exactly the targets alive: the one its element records
    when that is marked valid and has an id, none otherwise. *)
Definition owned (w : World) : gset Z :=
  let cached := elementDataStorage w in
  if textureValid cached && negb (rt_id (texture cached) =? 0)
  then {[ rt_id (texture cached) ]} else ∅.

Definition sole_owner (w : World) : Prop :=
  live_textures w = owned w ∧ 0 < next_texture w.

End Ownership.

(** Configs with nothing to render. *)
Module Degenerate.
Import Pie.

(** No data items, a NULL data pointer, or a total that is not positive. *)
Definition nothing_to_render (m : Memory) (cfg : Clay_PieChart_Config) : Prop :=
  dataCount cfg = 0
  ∨ data cfg = 0
  ∨ ∃ total,
      Clay_PieChart__CalculateTotalValue m cfg = Some total
      ∧ F32.leb total F32.zero = true.

(** The line [Clay_PieChart_Draw] writes to [stderr] for a config without
    data; nothing for a config whose only defect is its total. *)
Definition no_data_log (cfg : Clay_PieChart_Config) : list Event :=
  if (dataCount cfg =? 0) || (data cfg =? 0)
  then [EvStderr (LogNoData (dataCount cfg) (data cfg))]
  else [].

(** Drawable output: what is declared to the layout engine or drawn by the
    backend. *)
Definition drawable (e : Event) : Prop :=
  match e with
  | EvDraw _ | EvLayout _ | EvLoadRenderTexture _ _ _ | EvBeginTextureMode _
  | EvClearBackground _ | EvEndTextureMode => True
  | _ => False
  end.

End Degenerate.

(** Sweep angles. *)
Module Sweep.

(** The sweep of a segment: its value's share of the total, times 360,
    each operation rounded to binary32. *)
Definition sweep (value total : float) : float :=
  F32.mul (F32.div value total) (F32.of_Z 360).

(** Start angle and sweep of each segment when the segments are laid out one
    after the other from [current]. *)
Fixpoint schedule (values : list float) (total current : float)
    : list (float * float) :=
  match values with
  | [] => []
  | v :: rest =>
      (current, sweep v total)
      :: schedule rest total (F32.add current (sweep v total))
  end.

(** Where the last segment ends. *)
Definition end_angle (values : list float) (total current : float) : float :=
  fold_left (λ angle v, F32.add angle (sweep v total)) values current.

(** Start and end angle of every sector or ring among drawn commands. *)
Definition sector_angles (cmds : list DrawCmd) : list (float * float) :=
  omap (λ c, match c with
             | DrawRing _ _ _ s e _ _ => Some (s, e)
             | DrawCircleSector _ _ s e _ _ => Some (s, e)
             | DrawLineEx _ _ _ _ => None
             end) cmds.

End Sweep.

(** Colours. *)
Module Colours.

(** The fill colour of every sector or ring among drawn commands. *)
Definition sector_colors (cmds : list DrawCmd) : list Color :=
  omap (λ c, match c with
             | DrawRing _ _ _ _ _ _ col => Some col
             | DrawCircleSector _ _ _ _ _ col => Some col
             | DrawLineEx _ _ _ _ => None
             end) cmds.

(** Equality of floats as data (not the comparison [==], under which NaN
    differs from itself and the two zeros agree). *)
Definition same_float (u v : float) : bool :=
  match u, v with
  | S754_zero s, S754_zero s' => Bool.eqb s s'
  | S754_infinity s, S754_infinity s' => Bool.eqb s s'
  | S754_nan, S754_nan => true
  | S754_finite s m e, S754_finite s' m' e' =>
      Bool.eqb s s' && (m =? m')%positive && (e =? e')
  | _, _ => false
  end.

(** Interpolating between two whole-numbered channels at 0 gives the first,
    at 1 the second. *)
Definition endpoints_exact (s e : Z) : bool :=
  same_float (Pie.lerp (F32.of_Z s) (F32.of_Z e) F32.zero) (F32.of_Z s)
  && same_float (Pie.lerp (F32.of_Z s) (F32.of_Z e) F32.one) (F32.of_Z e).

Definition channel_values : list Z := Z.of_nat <$> seq 0 256.

(** Channels as 8-bit colours have them: whole numbers from 0 to 255. *)
Definition eight_bit (c : Clay_Color) : Prop :=
  ∃ cr cg cb ca : Z,
    c = rgba cr cg cb ca
    ∧ 0 ≤ cr ≤ 255 ∧ 0 ≤ cg ≤ 255 ∧ 0 ≤ cb ≤ 255 ∧ 0 ≤ ca ≤ 255.

End Colours.

(** The config buffer of the bar chart's macro API. *)
Module ConfigBuffer.
Import Bar.

(** The slot a store writes: the index, or 0 once the index has reached 32. *)
Definition next_slot (st : ConfigStore) : Z :=
  if 32 <=? Clay__BarChartConfigIndex st then 0
  else Clay__BarChartConfigIndex st.

(** Storing configs one after the other, as successive uses of
    [CLAY_BARCHART_CONFIG] within a frame do; the slots returned, in order
    of the calls. *)
Fixpoint store_all (configs : list Clay_BarChart_Config) (st : ConfigStore)
    : list Z * ConfigStore :=
  match configs with
  | [] => ([], st)
  | config :: rest =>
      let '(slot, st) := Clay__StoreBarChartConfig config st in
      let '(slots, st) := store_all rest st in
      (slot :: slots, st)
  end.

End ConfigBuffer.
(* ===================================================================== *)
(** * Sample inputs                                                       *)
(* ===================================================================== *)

(** A stand-in for libm and for the layout engine's id hash, used only to
    run the code on concrete inputs; the inputs below draw neither exploded
    segments nor sector lines, so the angle functions are never consulted. *)
Definition sample_externals : Externals :=
  {| cosf := λ _, F32.one; sinf := λ _, F32.zero; Clay_GetElementId := λ _, 7 |}.

Module Sample.
Import Pie.

Definition point (v : Z) (l : string) (c : Clay_Color) : Clay_PieChart_DataPoint :=
  mkDataPoint (F32.of_Z v) l c false.

(** The data of the header's usage example: 30 / 50 / 20. *)
Definition three_points : list Clay_PieChart_DataPoint :=
  [point 30 "Red" (rgba 250 100 100 255);
   point 50 "Blue" (rgba 100 150 250 255);
   point 20 "Green" (rgba 120 200 120 255)].

(** Seven equal shares. *)
Definition seven_points : list Clay_PieChart_DataPoint :=
  replicate 7 (point 1 "share" (rgba 100 150 250 255)).

Definition mem : Memory :=
  mkMemory {[ 4096 := three_points; 8192 := seven_points ]} ∅.

(** The default config over [three_points], without legend and without
    sector lines. *)
Definition chart : Clay_PieChart_Config :=
  let d := Clay_PieChart_DefaultConfig in
  mkConfig 4096 3 (radius d) (donutHoleRadius d) (explodeDistance d)
    (showLabels d) (showValues d) (showPercentages d) false false
    (backgroundColor d) (labelTextColor d) (sectorLineColor d)
    (labelFontSize d) (labelFontId d) (startAngle d)
    (colorMode d) (colorConfig d).

Definition with_startAngle (c : Clay_PieChart_Config) (angle : float)
    : Clay_PieChart_Config :=
  mkConfig (data c) (dataCount c) (radius c) (donutHoleRadius c)
    (explodeDistance c) (showLabels c) (showValues c) (showPercentages c)
    (showLegend c) (showSectorLines c) (backgroundColor c)
    (labelTextColor c) (sectorLineColor c) (labelFontSize c)
    (labelFontId c) angle (colorMode c) (colorConfig c).

Definition with_showSectorLines (c : Clay_PieChart_Config) (lines : bool)
    : Clay_PieChart_Config :=
  mkConfig (data c) (dataCount c) (radius c) (donutHoleRadius c)
    (explodeDistance c) (showLabels c) (showValues c) (showPercentages c)
    (showLegend c) lines (backgroundColor c)
    (labelTextColor c) (sectorLineColor c) (labelFontSize c)
    (labelFontId c) (startAngle c) (colorMode c) (colorConfig c).

Definition with_data (c : Clay_PieChart_Config) (p n : Z)
    : Clay_PieChart_Config :=
  mkConfig p n (radius c) (donutHoleRadius c)
    (explodeDistance c) (showLabels c) (showValues c) (showPercentages c)
    (showLegend c) (showSectorLines c) (backgroundColor c)
    (labelTextColor c) (sectorLineColor c) (labelFontSize c)
    (labelFontId c) (startAngle c) (colorMode c) (colorConfig c).

Definition with_colors (c : Clay_PieChart_Config) (mode : Z) (cc : ColorConfig)
    : Clay_PieChart_Config :=
  mkConfig (data c) (dataCount c) (radius c) (donutHoleRadius c)
    (explodeDistance c) (showLabels c) (showValues c) (showPercentages c)
    (showLegend c) (showSectorLines c) (backgroundColor c)
    (labelTextColor c) (sectorLineColor c) (labelFontSize c)
    (labelFontId c) (startAngle c) mode cc.

(** The same three values under other labels and colours. *)
Definition relabelled_points : list Clay_PieChart_DataPoint :=
  [point 30 "Q1" (rgba 10 20 30 255);
   point 50 "Q2" (rgba 40 50 60 255);
   point 20 "Q3" (rgba 70 80 90 255)].

Definition relabelled_mem : Memory := mkMemory {[ 4096 := relabelled_points ]} ∅.

Definition with_label_style (c : Clay_PieChart_Config) (size : Z)
    (textColor : Clay_Color) : Clay_PieChart_Config :=
  mkConfig (data c) (dataCount c) (radius c) (donutHoleRadius c)
    (explodeDistance c) (showLabels c) (showValues c) (showPercentages c)
    (showLegend c) (showSectorLines c) (backgroundColor c)
    textColor (sectorLineColor c) size
    (labelFontId c) (startAngle c) (colorMode c) (colorConfig c).

Definition box (w h : Z) : Clay_BoundingBox :=
  mkBox F32.zero F32.zero (F32.of_Z w) (F32.of_Z h).

Definition pie_command (w h : Z) : PieCustom.Clay_RenderCommand :=
  PieCustom.mkCommand (box w h) PieCustom.PieStorage.
(** [chart] in gradient mode between the colours of the default config. *)
Definition gradient_chart : Clay_PieChart_Config :=
  with_colors chart CLAY_PIECHART_COLOR_MODE_GRADIENT
    (Gradient (rgba 100 150 250 255) (rgba 250 100 150 255)).

(** [chart] in gradient mode between colours with channels from 0 to 1:
    from opaque white to white at one tenth. *)
Definition one_tenth : float := F32.div (F32.of_Z 1) (F32.of_Z 10).
Definition fading_chart : Clay_PieChart_Config :=
  with_colors chart CLAY_PIECHART_COLOR_MODE_GRADIENT
    (Gradient (mkColor F32.one F32.one F32.one F32.one)
              (mkColor F32.one F32.one F32.one one_tenth)).

(** [chart] in random colour mode under the seed of the demo. *)
Definition random_chart : Clay_PieChart_Config :=
  with_colors chart CLAY_PIECHART_COLOR_MODE_RANDOM (Random 12345).

(** A bar chart of three bars in random colour mode under the same seed. *)
Definition random_bars : Bar.Clay_BarChart_Config :=
  Bar.mkConfig 4096 3 0 F32.zero F32.zero F32.zero
    (rgba 0 0 0 0) (rgba 0 0 0 0) (rgba 0 0 0 0) 0 0 false false false
    Bar.CLAY_BARCHART_COLOR_MODE_RANDOM (Bar.Random 12345).

Definition bar_mem : Bar.Memory :=
  Bar.mkMemory
    {[ 4096 := [Bar.mkDataPoint (F32.of_Z 30) "Jan" (rgba 100 150 250 255);
                Bar.mkDataPoint (F32.of_Z 50) "Feb" (rgba 120 200 120 255);
                Bar.mkDataPoint (F32.of_Z 20) "Mar" (rgba 250 180 100 255)] ]} ∅.

(** The config buffer at program start: 32 zeroed configs, index 0. *)
Definition zero_bars : Bar.Clay_BarChart_Config :=
  Bar.mkConfig 0 0 0 F32.zero F32.zero F32.zero
    (mkColor F32.zero F32.zero F32.zero F32.zero)
    (mkColor F32.zero F32.zero F32.zero F32.zero)
    (mkColor F32.zero F32.zero F32.zero F32.zero)
    0 0 false false false 0 (Bar.Palette 0 0).

Definition empty_store : Bar.ConfigStore :=
  Bar.mkStore (replicate 32 zero_bars) 0.

(** The world a run of calls leaves behind (the world it started in should
    the run be undefined). *)
Definition after (calls : list Session.Call) (w : PieCustom.World) : PieCustom.World :=
  match Session.run (H := sample_externals) calls w with
  | Some (w', _) => w'
  | None => w
  end.

(** [chart] has been handed to [Clay_PieChart_Render] once; no texture has
    been prepared yet. *)
Definition rendered_once : PieCustom.World :=
  after [Session.Render "pie" chart] (PieCustom.initial_world mem 0).

(** One frame of [chart] with a 64x64 bounding box: the texture is cached at
    128x128. *)
Definition cached_128 : PieCustom.World :=
  after [Session.Render "pie" chart; Session.PrepareTexture (pie_command 64 64) true]
    (PieCustom.initial_world mem 0).
(** Three frames: the chart at 64x64, the same chart at 128x128, then the
    chart turned to another fingerprint-relevant shape (sector lines on) at
    128x128 after the caller rewrote its labels. *)
Definition three_frames : list Session.Call :=
  [Session.Render "pie" chart;
   Session.PrepareTexture (pie_command 64 64) true;
   Session.Render "pie" chart;
   Session.PrepareTexture (pie_command 128 128) true;
   Session.CallerWrites relabelled_mem;
   Session.Render "pie" (with_showSectorLines chart true);
   Session.PrepareTexture (pie_command 128 128) true].
End Sample.

(* ===================================================================== *)
(** * Loops over a caller's array, and the words of the fingerprint       *)
(* ===================================================================== *)

(** Reading [count] consecutive elements of a caller's array, from index
    [i] on, the way the loops of the extension do: undefined as soon as one
    read is. *)
Fixpoint read_all {D : Type} (read : Z → option D) (i : Z) (count : nat)
    : option (list D) :=
  match count with
  | O => Some []
  | S k => d ← read i; ds ← read_all read (i + 1) k; Some (d :: ds)
  end.

Module HashedWords.
Import Pie.

(** The 32-bit words [Clay_PieChart__HashConfig] folds in for one data
    point and for the scalar parameters, in the order it does. *)
Definition point_words (d : Clay_PieChart_DataPoint) : list Z :=
  [F32.bits (value d); if exploded d then 1 else 0].

Definition config_words (c : Clay_PieChart_Config) : list Z :=
  [F32.bits (radius c); F32.bits (donutHoleRadius c);
   wrap32 (colorMode c); if showSectorLines c then 1 else 0].

Definition hashed_words (m : Memory) (c : Clay_PieChart_Config)
    : option (list Z) :=
  ds ← read_all (read_data m (data c)) 0 (Z.to_nat (dataCount c));
  Some (concat (point_words <$> ds) ++ config_words c).

End HashedWords.

(* ===================================================================== *)
(** * Bar chart: scaling and the elements declared to the layout engine   *)
(* ===================================================================== *)

Module BarRender.
Import Bar.

Definition CLAY_BARCHART_ORIENTATION_VERTICAL : Z := 0.
Definition CLAY_BARCHART_ORIENTATION_HORIZONTAL : Z := 1.

(** The literal [1.1f]: 9227469 * 2^-23. *)
Definition padding : float := F32.lit 9227469 (-23).

Definition Clay_BarChart__CalculateMaxValue (m : Memory)
    (config : Clay_BarChart_Config) : option float :=
  if F32.ltb F32.zero (maxValue config) then Some (maxValue config)
  else
    max ← for_up (Z.to_nat (dataCount config)) 0
      (λ i max,
         d ← read_data m (data config) i;
         Some (if F32.ltb max (value d) then value d else max))
      F32.zero;
    Some (F32.mul max padding).

(** The function-local statics of the bar chart: [seed] of
    [Clay_BarChart__GetBarColor] and the two arrays [valueBuffers] of 32
    rows, one in [Clay_BarChart__RenderVerticalBar] and one in
    [Clay_BarChart__RenderHorizontalBar].  A row holds the value that
    [snprintf] formatted into it last with [%.1f] ([None] while the row is
    still zeroed). *)
Record Statics := mkStatics {
  seed : Z;
  vertical_valueBuffers : list (option float);
  horizontal_valueBuffers : list (option float)
}.

Definition initial_statics : Statics :=
  mkStatics 0 (replicate 32 None) (replicate 32 None).

(** Where the characters of a text element live: in a string of the
    caller, or in a row of one of the static arrays [valueBuffers]. *)
Inductive TextChars :=
  | CallerString (s : string)
  | VerticalValue (row : Z)
  | HorizontalValue (row : Z).

(** Modelled from the spec: the per-node sizing configuration of the layout
    engine (clay.h), as far as the bar chart sets it: a growing axis with
    the argument given to [CLAY_SIZING_GROW], a fixed extent, or an axis
    left out of the designated initialiser. *)
Inductive Sizing :=
  | CLAY_SIZING_GROW (arg : float)
  | CLAY_SIZING_FIXED (size : float)
  | SizingUnset.

(** The chart container is identified by [CLAY_SID(id)] in
    [Clay_BarChart_Render] and by a ready [Clay_ElementId] in
    [Clay_BarChart__RenderInternal]. *)
Inductive ChartId :=
  | CLAY_SID (id : string)
  | ElementId (id : Z).

(** Elements the bar chart declares.  [OpenBar] is the container
    [CLAY_IDI("BarV", index)] or [CLAY_IDI("BarH", index)]; [OpenBarArea]
    the area holding value text and bar of a vertical bar; [OpenLabel] the
    box around a label; [BarBox] the coloured bar itself; [Gap] the spacer
    [CLAY_IDI("BarGap", index)]. *)
Inductive Decl :=
  | OpenChart (id : ChartId) (vertical : bool) (background : Clay_Color)
  | OpenBar (name : string) (index : Z) (width height : Sizing)
  | OpenBarArea (width height : Sizing)
  | OpenLabel (width height : Sizing)
  | Text (chars : TextChars) (fontSize fontId : Z) (textColor : Clay_Color)
  | BarBox (width height : Sizing) (background : Clay_Color)
  | Gap (index : Z) (width : Sizing)
  | CloseElement.

(** [snprintf(valueBuffers[index], sizeof(valueBuffers[index]), "%.1f",
    value)]: writes row [index]; there is no row from 32 on. *)
Definition format_value (buffers : list (option float)) (index : Z)
    (v : float) : option (list (option float)) :=
  if index <? 32 then Some (<[Z.to_nat index := Some v]> buffers) else None.

Definition label_shown (config : Clay_BarChart_Config)
    (dataPoint : Clay_BarChart_DataPoint) : bool :=
  showLabels config && (0 <? Z.of_nat (String.length (label dataPoint))).

Definition label_text (config : Clay_BarChart_Config) (chars : TextChars)
    : Decl :=
  Text chars (labelFontSize config) (labelFontId config) (labelTextColor config).

Definition Clay_BarChart__RenderVerticalBar (m : Memory) (clock : Z)
    (dataPoint : Clay_BarChart_DataPoint) (index : Z)
    (calculatedBarHeight labelHeight : float)
    (config : Clay_BarChart_Config) (st : Statics)
    : option (Statics * list Decl) :=
  '(buffers, valueText) ←
    (if showValues config then
       buffers ← format_value (vertical_valueBuffers st) index (value dataPoint);
       Some (buffers, [label_text config (VerticalValue index)])
     else Some (vertical_valueBuffers st, []));
  '(barColor, seed) ← Clay_BarChart__GetBarColor m clock config index (seed st);
  let labelBox :=
    if label_shown config dataPoint
    then [OpenLabel SizingUnset (CLAY_SIZING_FIXED labelHeight);
          label_text config (CallerString (label dataPoint));
          CloseElement]
    else [] in
  Some (mkStatics seed buffers (horizontal_valueBuffers st),
        [OpenBar "BarV" index (CLAY_SIZING_GROW (F32.of_Z 4))
           (CLAY_SIZING_FIXED (F32.add calculatedBarHeight labelHeight));
         OpenBarArea (CLAY_SIZING_GROW F32.zero)
           (CLAY_SIZING_FIXED calculatedBarHeight)]
        ++ valueText
        ++ [BarBox (CLAY_SIZING_GROW F32.zero) (CLAY_SIZING_GROW F32.zero)
              barColor;
            CloseElement]
        ++ labelBox ++ [CloseElement]).

Definition Clay_BarChart__RenderHorizontalBar (m : Memory) (clock : Z)
    (dataPoint : Clay_BarChart_DataPoint) (index : Z)
    (barHeight maxWidth : float)
    (config : Clay_BarChart_Config) (st : Statics)
    : option (Statics * list Decl) :=
  max ← Clay_BarChart__CalculateMaxValue m config;
  let scaledWidth := F32.mul (F32.div (value dataPoint) max) maxWidth in
  let labelBox :=
    if label_shown config dataPoint
    then [OpenLabel (CLAY_SIZING_FIXED (F32.of_Z 80)) SizingUnset;
          label_text config (CallerString (label dataPoint));
          CloseElement]
    else [] in
  '(barColor, seed) ← Clay_BarChart__GetBarColor m clock config index (seed st);
  '(buffers, valueText) ←
    (if showValues config then
       buffers ← format_value (horizontal_valueBuffers st) index (value dataPoint);
       Some (buffers, [label_text config (HorizontalValue index)])
     else Some (horizontal_valueBuffers st, []));
  Some (mkStatics seed (vertical_valueBuffers st) buffers,
        [OpenBar "BarH" index (CLAY_SIZING_GROW F32.zero)
           (CLAY_SIZING_FIXED barHeight)]
        ++ labelBox
        ++ [BarBox (CLAY_SIZING_FIXED scaledWidth)
              (CLAY_SIZING_FIXED (F32.sub barHeight (F32.of_Z 8))) barColor]
        ++ valueText ++ [CloseElement]).

(** The loop over the bars of a vertical chart. *)
Definition vertical_bars (m : Memory) (clock : Z)
    (config : Clay_BarChart_Config) (maxValue labelHeight : float)
    (st : Statics) : option (Statics * list Decl) :=
  let referenceMaxHeight := F32.of_Z 350 in
  for_up (Z.to_nat (dataCount config)) 0
    (λ i '(st, decls),
       d ← read_data m (data config) i;
       let barHeightRatio := F32.div (value d) maxValue in
       let calculatedBarHeight := F32.mul barHeightRatio referenceMaxHeight in
       '(st, bar) ← Clay_BarChart__RenderVerticalBar m clock d i
                      calculatedBarHeight labelHeight config st;
       let gap :=
         if i <? wrap32 (dataCount config - 1)
         then [Gap i (CLAY_SIZING_GROW F32.one)] else [] in
       Some (st, decls ++ bar ++ gap))
    (st, []).

(** The loop over the bars of a horizontal chart. *)
Definition horizontal_bars (m : Memory) (clock : Z)
    (config : Clay_BarChart_Config) (st : Statics)
    : option (Statics * list Decl) :=
  for_up (Z.to_nat (dataCount config)) 0
    (λ i '(st, decls),
       d ← read_data m (data config) i;
       '(st, bar) ← Clay_BarChart__RenderHorizontalBar m clock d i
                      (barWidth config) (value d) config st;
       Some (st, decls ++ bar))
    (st, []).

(** The body [Clay_BarChart_Render] and [Clay_BarChart__RenderInternal]
    have in common, word for word but for the id of the chart container. *)
Definition render_chart (m : Memory) (clock : Z) (id : ChartId)
    (config : Clay_BarChart_Config) (st : Statics)
    : option (Statics * list Decl) :=
  if (dataCount config =? 0) || (data config =? 0) then Some (st, [])
  else
    maxValue ← Clay_BarChart__CalculateMaxValue m config;
    let labelHeight :=
      if showLabels config then F32.of_Z (labelFontSize config + 4)
      else F32.of_Z 0 in
    let vertical := orientation config =? CLAY_BARCHART_ORIENTATION_VERTICAL in
    '(st, bars) ←
      (if vertical
       then vertical_bars m clock config maxValue labelHeight st
       else horizontal_bars m clock config st);
    Some (st,
          [OpenChart id vertical (backgroundColor config)]
          ++ bars ++ [CloseElement]).

Definition Clay_BarChart_Render (m : Memory) (clock : Z) (id : string)
    (config : Clay_BarChart_Config) (st : Statics)
    : option (Statics * list Decl) :=
  render_chart m clock (CLAY_SID id) config st.

Definition Clay_BarChart__RenderInternal (m : Memory) (clock : Z)
    (elementId : Z) (config : Clay_BarChart_Config) (st : Statics)
    : option (Statics * list Decl) :=
  render_chart m clock (ElementId elementId) config st.

Definition Clay_BarChart__RenderWithId (m : Memory) (clock : Z)
    (id : Z) (config : Clay_BarChart_Config) (st : Statics)
    : option (Statics * list Decl) :=
  Clay_BarChart__RenderInternal m clock id config st.

(** [CLAY_BARCHART(id, CLAY_BARCHART_CONFIG({ ... }))]: the config is
    stored in the buffer and the chart rendered from the slot returned. *)
Definition CLAY_BARCHART (m : Memory) (clock : Z) (id : Z)
    (config : Clay_BarChart_Config) (store : ConfigStore) (st : Statics)
    : option (ConfigStore * Statics * list Decl) :=
  let '(slot, store) := Clay__StoreBarChartConfig config store in
  stored ← Clay__BarChartConfigBuffer store !! Z.to_nat slot;
  '(st, decls) ← Clay_BarChart__RenderWithId m clock id stored st;
  Some (store, st, decls).

Definition Clay_BarChart_DefaultConfig : Clay_BarChart_Config :=
  {| data := 0;
     dataCount := 0;
     orientation := CLAY_BARCHART_ORIENTATION_VERTICAL;
     barWidth := F32.of_Z 60;
     barGap := F32.of_Z 8;
     maxValue := F32.zero;
     backgroundColor := rgba 245 245 245 255;
     gridColor := rgba 200 200 200 255;
     labelTextColor := rgba 60 60 60 255;
     labelFontSize := 16;
     labelFontId := 0;
     showGrid := false;
     showLabels := true;
     showValues := true;
     colorMode := CLAY_BARCHART_COLOR_MODE_PER_BAR;
     colorConfig := Gradient (rgba 100 150 250 255) (rgba 250 100 150 255) |}.

End BarRender.

(* ===================================================================== *)
(** * Vocabulary of the further properties                                *)
(* ===================================================================== *)

(** What the segment loop draws. *)
Module Drawing.
Import Pie.

Definition is_line (c : DrawCmd) : bool :=
  match c with
  | DrawLineEx _ _ _ _ => true
  | _ => false
  end.

(** What [Clay_PieChart__RenderSegment] may draw for a config: a ring
    between hole radius and radius when the hole radius is positive, a full
    sector of the radius otherwise, either in 32 segments; and, only when
    the config asks for sector lines, lines two pixels thick. *)
Definition drawn_for (cfg : Clay_PieChart_Config) (c : DrawCmd) : Prop :=
  match c with
  | DrawRing _ inner outer _ _ segments _ =>
      F32.ltb F32.zero (donutHoleRadius cfg) = true
      ∧ inner = donutHoleRadius cfg ∧ outer = radius cfg ∧ segments = 32
  | DrawCircleSector _ rad _ _ segments _ =>
      F32.ltb F32.zero (donutHoleRadius cfg) = false
      ∧ rad = radius cfg ∧ segments = 32
  | DrawLineEx _ _ thick _ =>
      showSectorLines cfg = true ∧ thick = F32.of_Z 2
  end.

(** The sequence of [n] segments, as "is this command a line?": with
    sector lines each segment but the last is followed by one line. *)
Definition segments_and_lines (n : nat) (lines : bool) : list bool :=
  match n with
  | O => []
  | S k => concat (replicate k (false :: if lines then [true] else [])) ++ [false]
  end.

End Drawing.

(* ===================================================================== *)
(** * The demo's main loop over the render commands                       *)
(* ===================================================================== *)

Module MainLoop.
Import PieCustom.

(** Modelled from the spec: the kind of a drawable command of the layout
    engine ([commandType] of clay.h's [Clay_RenderCommand]), of which the
    main loop singles out [CLAY_RENDER_COMMAND_TYPE_CUSTOM]. *)
Inductive Clay_RenderCommandType :=
  | CLAY_RENDER_COMMAND_TYPE_CUSTOM
  | CLAY_RENDER_COMMAND_TYPE_OTHER.

Record FrameCommand := mkFrameCommand {
  commandType : Clay_RenderCommandType;
  command : Clay_RenderCommand
}.

Definition is_custom (cmd : FrameCommand) : bool :=
  match commandType cmd with
  | CLAY_RENDER_COMMAND_TYPE_CUSTOM => true
  | CLAY_RENDER_COMMAND_TYPE_OTHER => false
  end.

(** The loop "Prepare pie chart textures" of [main]: every custom command
    is handed to [Clay_PieChart_PrepareTexture].  Each command comes with
    whether the backend would manage to create a render target for it. *)
Fixpoint prepare_textures `{Externals} (renderCommands : list (FrameCommand * bool))
    (w : World) : option (World * list Event) :=
  match renderCommands with
  | [] => Some (w, [])
  | (cmd, created) :: rest =>
      '(w, evs) ←
        (if is_custom cmd
         then Clay_PieChart_PrepareTexture (command cmd) created w
         else Some (w, []));
      '(w, evs') ← prepare_textures rest w;
      Some (w, evs ++ evs')
  end.

(** Commands the preparation step has nothing to do with: those that are
    not custom, and custom ones without data or with the data of another
    extension. *)
Definition foreign (cmd : FrameCommand) : bool :=
  negb (is_custom cmd)
  || match customData (command cmd) with
     | NullData => true
     | Foreign tag => negb (tag =? CLAY_PIECHART_CUSTOM_ELEMENT_TYPE)
     | PieStorage => false
     end.

End MainLoop.

(** The life of the cached texture. *)
Module Lifecycle.
Import Pie PieCustom.

(** A config [Clay_PieChart_Render] does not skip: it has data, its total
    [total] is positive, and its fingerprint is [h]. *)
Definition renderable (m : Memory) (cfg : Clay_PieChart_Config)
    (total : float) (h : Z) : Prop :=
  dataCount cfg ≠ 0
  ∧ data cfg ≠ 0
  ∧ Clay_PieChart__CalculateTotalValue m cfg = Some total
  ∧ F32.leb total F32.zero = false
  ∧ Clay_PieChart__HashConfig m cfg = Some h.

Definition is_layout (e : Event) : Prop :=
  match e with
  | EvLayout _ => True
  | _ => False
  end.

End Lifecycle.

(** The legend. *)
Module Legend.

(** The indices of the legend items among declared elements, in order. *)
Definition legend_items (decls : list LayoutDecl) : list Z :=
  omap (λ d, match d with OpenLegendItem i => Some i | _ => None end) decls.

(** The colours of the legend's colour boxes, in order. *)
Definition legend_colors (decls : list LayoutDecl) : list Clay_Color :=
  omap (λ d, match d with ColorBox c => Some c | _ => None end) decls.

(** The colour of segment [i] in a mode that involves no random numbers:
    what [Clay_PieChart__GetSegmentColor] returns from any state. *)
Definition plain_color (m : Pie.Memory) (cfg : Pie.Clay_PieChart_Config)
    (i : Z) : option Clay_Color :=
  fst <$> Pie.Clay_PieChart__GetSegmentColor m 0 cfg i 0.

(** Two configs assign colours alike: same data, same colour mode and
    colour configuration. *)
Definition same_coloring (c1 c2 : Pie.Clay_PieChart_Config) : Prop :=
  Pie.data c1 = Pie.data c2
  ∧ Pie.dataCount c1 = Pie.dataCount c2
  ∧ Pie.colorMode c1 = Pie.colorMode c2
  ∧ Pie.colorConfig c1 = Pie.colorConfig c2.

End Legend.

(** The elements of a bar chart. *)
Module BarLayout.
Import Bar BarRender.

(** One round of the maximum search of
    [Clay_BarChart__CalculateMaxValue]. *)
Definition larger (mx : float) (d : Clay_BarChart_DataPoint) : float :=
  if F32.ltb mx (value d) then value d else mx.

(** The bar containers (index and height) and the gaps (index) among
    declared elements, in order. *)
Definition skeleton (decls : list Decl) : list (Z * Sizing + Z) :=
  omap (λ d, match d with
             | OpenBar _ i _ h => Some (inl (i, h))
             | Gap i _ => Some (inr i)
             | _ => None
             end) decls.

(** The bar containers with name, index and sizing, in order. *)
Definition rows (decls : list Decl) : list (string * Z * Sizing * Sizing) :=
  omap (λ d, match d with
             | OpenBar name i w h => Some (name, i, w, h)
             | _ => None
             end) decls.

(** The sizing of the coloured bars, in order. *)
Definition bar_boxes (decls : list Decl) : list (Sizing * Sizing) :=
  omap (λ d, match d with
             | BarBox w h _ => Some (w, h)
             | _ => None
             end) decls.

(** Where the texts that are not caller strings take their characters
    from, in order. *)
Definition value_rows (decls : list Decl) : list TextChars :=
  omap (λ d, match d with
             | Text (CallerString _) _ _ _ => None
             | Text chars _ _ _ => Some chars
             | _ => None
             end) decls.

Definition labelHeight (cfg : Clay_BarChart_Config) : float :=
  if showLabels cfg then F32.of_Z (labelFontSize cfg + 4) else F32.of_Z 0.

(** The height of the container of a vertical bar: the value's share of
    the maximum, times 350, plus the height of the label. *)
Definition bar_height (maxValue lh : float) (d : Clay_BarChart_DataPoint)
    : float :=
  F32.add (F32.mul (F32.div (value d) maxValue) (F32.of_Z 350)) lh.

(** Bars [i], [i+1], ... for the data points [ds], each but the one of
    index [last] followed by a gap. *)
Fixpoint bars_and_gaps (i last : Z) (maxValue lh : float)
    (ds : list Clay_BarChart_DataPoint) : list (Z * Sizing + Z) :=
  match ds with
  | [] => []
  | d :: rest =>
      inl (i, CLAY_SIZING_FIXED (bar_height maxValue lh d))
      :: (if i <? last then [inr i] else [])
      ++ bars_and_gaps (i + 1) last maxValue lh rest
  end.

(** The width of a horizontal bar as the code computes it: the value's
    share of the maximum, times the value. *)
Definition scaled_width (maxValue : float) (d : Clay_BarChart_DataPoint)
    : float :=
  F32.mul (F32.div (value d) maxValue) (value d).

Definition is_zero (x : float) : Prop := ∃ s, x = S754_zero s.

End BarLayout.

(* ===================================================================== *)
(** * The demo programs: their data and how they update it                *)
(* ===================================================================== *)

(** What both demo programs share: the sales figures behind the bar chart,
    their copy behind the pie chart, and [InitializeSalesData]. *)
Module DemoData.

Definition SALES_DATA_COUNT : Z := 12.

Definition monthNames : list string :=
  ["Jan"; "Feb"; "Mar"; "Apr"; "May"; "Jun";
   "Jul"; "Aug"; "Sep"; "Oct"; "Nov"; "Dec"]%string.

Definition COLOR_BLUE : Clay_Color := rgba 100 150 250 255.
Definition COLOR_GREEN : Clay_Color := rgba 120 200 120 255.
Definition COLOR_ORANGE : Clay_Color := rgba 250 180 100 255.
Definition COLOR_RED : Clay_Color := rgba 250 100 100 255.
Definition COLOR_PURPLE : Clay_Color := rgba 180 120 250 255.
Definition COLOR_TEAL : Clay_Color := rgba 100 200 200 255.
Definition COLOR_YELLOW : Clay_Color := rgba 250 250 100 255.
Definition COLOR_PINK : Clay_Color := rgba 250 100 250 255.
Definition COLOR_BROWN : Clay_Color := rgba 150 100 50 255.
Definition COLOR_GRAY : Clay_Color := rgba 150 150 150 255.
Definition COLOR_CYAN : Clay_Color := rgba 100 250 250 255.
Definition COLOR_LIME : Clay_Color := rgba 150 250 100 255.
Definition COLOR_BLACK : Clay_Color := rgba 0 0 0 255.

(** A float literal with one decimal, such as [138.3f]: the binary32
    number nearest to tenths / 10, which is what the correctly rounded
    quotient of the two whole numbers is. *)
Definition decimal (tenths : Z) : float :=
  F32.div (F32.of_Z tenths) (F32.of_Z 10).

Definition baseValues : list float :=
  [decimal 1255; F32.of_Z 142; decimal 1383; decimal 1657;
   decimal 1582; decimal 1759; decimal 1684; decimal 1821;
   decimal 1715; decimal 1952; decimal 1887; decimal 2034].

(** Arithmetic of the C type [double], for the timer. *)
Definition double_of_Z (n : Z) : spec_float :=
  binary_normalize F64.prec F64.emax n 0 false.
Definition double_sub : spec_float → spec_float → spec_float :=
  SFsub F64.prec F64.emax.
Definition double_leb : spec_float → spec_float → bool := SFleb.

(** Reading and writing an element of a static array; there is none
    outside the array. *)
Definition array_get {A : Type} (arr : list A) (i : Z) : option A :=
  if 0 <=? i then arr !! Z.to_nat i else None.

Definition array_set {A : Type} (arr : list A) (i : Z) (v : A)
    : option (list A) :=
  if (0 <=? i) && (i <? Z.of_nat (length arr))
  then Some (<[Z.to_nat i := v]> arr) else None.

(** The file-scope statics of the demo; [update_index] is the
    function-local [static int index] of the second demo's
    [UpdateSalesData]. *)
Record Globals := mkGlobals {
  salesData : list Bar.Clay_BarChart_DataPoint;
  pieData : list Pie.Clay_PieChart_DataPoint;
  currentMonthIndex : Z;
  lastUpdateTime : spec_float;
  update_index : Z
}.

Definition zero_color : Clay_Color :=
  mkColor F32.zero F32.zero F32.zero F32.zero.

(** Statics are zero-initialised. *)
Definition initial_globals : Globals :=
  mkGlobals (replicate 12 (Bar.mkDataPoint F32.zero "" zero_color))
            (replicate 12 (Pie.mkDataPoint F32.zero "" zero_color false))
            0 (S754_zero false) 0.

(** [now] is what [GetTime()] returns. *)
Definition InitializeSalesData (now : spec_float) (g : Globals)
    : option Globals :=
  '(sales, pie) ← for_up (Z.to_nat SALES_DATA_COUNT) 0
    (λ i '(sales, pie),
       base ← array_get baseValues i;
       name ← array_get monthNames i;
       let c := if negb (Z.rem i 2 =? 0) then COLOR_BLUE else COLOR_GREEN in
       sales ← array_set sales i (Bar.mkDataPoint base name c);
       s ← array_get sales i;
       pie ← array_set pie i
               (Pie.mkDataPoint base (Bar.label s) (Bar.color s) false);
       Some (sales, pie))
    (salesData g, pieData g);
  Some (mkGlobals sales pie 0 now (update_index g)).

(** The loop "Update pie data to match all sales data values" of both
    versions of [UpdateSalesData]. *)
Definition copy_to_pie (sales : list Bar.Clay_BarChart_DataPoint)
    (pie : list Pie.Clay_PieChart_DataPoint)
    : option (list Pie.Clay_PieChart_DataPoint) :=
  for_up (Z.to_nat SALES_DATA_COUNT) 0
    (λ i pie,
       s ← array_get sales i;
       p ← array_get pie i;
       array_set pie i
         (Pie.mkDataPoint (Bar.value s) (Bar.label s) (Bar.color s)
            (Pie.exploded p)))
    pie.

Definition with_value (d : Bar.Clay_BarChart_DataPoint) (v : float)
    : Bar.Clay_BarChart_DataPoint :=
  Bar.mkDataPoint v (Bar.label d) (Bar.color d).

End DemoData.

(** The demo that draws the pie chart over the layout: its sales figures
    are a window that moves on by one month every second. *)
Module DemoLayout.
Import DemoData.

(** [switch(i)] of the loop that relabels the bars. *)
Definition position_color (i : Z) : Clay_Color :=
  if i =? 0 then COLOR_BLUE
  else if i =? 1 then COLOR_GREEN
  else if i =? 2 then COLOR_ORANGE
  else if i =? 3 then COLOR_RED
  else if i =? 4 then COLOR_PURPLE
  else if i =? 5 then COLOR_TEAL
  else if i =? 6 then COLOR_YELLOW
  else if i =? 7 then COLOR_PINK
  else if i =? 8 then COLOR_BROWN
  else if i =? 9 then COLOR_GRAY
  else if i =? 10 then COLOR_CYAN
  else if i =? 11 then COLOR_LIME
  else COLOR_BLACK.

(** [now] is what [GetTime()] returns, [rnd] what [rand()] does. *)
Definition UpdateSalesData (now : spec_float) (rnd : Z) (g : Globals)
    : option Globals :=
  let currentTime := now in
  if double_leb (double_of_Z 1) (double_sub currentTime (lastUpdateTime g))
  then
    sales ← for_up (Z.to_nat (SALES_DATA_COUNT - 1)) 0
      (λ i sales,
         next ← array_get sales (i + 1);
         cur ← array_get sales i;
         array_set sales i (with_value cur (Bar.value next)))
      (salesData g);
    last ← array_get sales (SALES_DATA_COUNT - 1);
    sales ← array_set sales (SALES_DATA_COUNT - 1)
              (with_value last
                 (F32.add (F32.of_Z 100) (F32.of_Z (Z.rem rnd 151))));
    let month := Z.rem (currentMonthIndex g + 1) 12 in
    sales ← for_up (Z.to_nat SALES_DATA_COUNT) 0
      (λ i sales,
         let monthIdx := Z.rem (month + i) 12 in
         name ← array_get monthNames monthIdx;
         cur ← array_get sales i;
         array_set sales i
           (Bar.mkDataPoint (Bar.value cur) name (position_color i)))
      sales;
    pie ← copy_to_pie sales (pieData g);
    Some (mkGlobals sales pie month currentTime (update_index g))
  else Some g.

End DemoLayout.

(** The demo with the cached texture: every two seconds one sales figure
    is replaced, the months taking turns. *)
Module DemoCustom.
Import DemoData.

Definition UpdateSalesData (now : spec_float) (rnd : Z) (g : Globals)
    : option Globals :=
  let currentTime := now in
  if double_leb (double_of_Z 2) (double_sub currentTime (lastUpdateTime g))
  then
    let slot := Z.rem (update_index g) SALES_DATA_COUNT in
    cur ← array_get (salesData g) slot;
    sales ← array_set (salesData g) slot
              (with_value cur
                 (F32.add (F32.of_Z 100) (F32.of_Z (Z.rem rnd 150))));
    pie ← copy_to_pie sales (pieData g);
    if update_index g <? 2 ^ 31 - 1
    then Some (mkGlobals sales pie (currentMonthIndex g) currentTime
                 (update_index g + 1))
    else None
  else Some g.

End DemoCustom.

(** What the demo keeps true of its data. *)
Module DemoFacts.
Import DemoData.

(** Both arrays have their twelve elements, and every pie segment has
    value, label and colour of the bar of the same index. *)
Definition mirrors (g : Globals) : Prop :=
  length (salesData g) = 12%nat
  ∧ length (pieData g) = 12%nat
  ∧ Forall2 (λ s p, Pie.value p = Bar.value s
                    ∧ Pie.label p = Bar.label s
                    ∧ Pie.color p = Bar.color s)
      (salesData g) (pieData g).

(** The timer of the first demo has run out: a second or more has passed. *)
Definition second_passed (now : spec_float) (g : Globals) : bool :=
  double_leb (double_of_Z 1) (double_sub now (lastUpdateTime g)).

(** The timer of the second demo has run out: two seconds or more. *)
Definition two_seconds_passed (now : spec_float) (g : Globals) : bool :=
  double_leb (double_of_Z 2) (double_sub now (lastUpdateTime g)).

(** The whole numbers [rand() % n] can be, for [n] up to 151. *)
Definition small_numbers : list Z := Z.of_nat <$> seq 0 151.

End DemoFacts.

(* ===================================================================== *)
(** * Further sample inputs                                               *)
(* ===================================================================== *)

Module Inputs.

(** ** Pie charts *)

(** [Sample.three_points] after the caller changed the first value from 30
    to 31. *)
Definition revised_points : list Pie.Clay_PieChart_DataPoint :=
  [Sample.point 31 "Red" (rgba 250 100 100 255);
   Sample.point 50 "Blue" (rgba 100 150 250 255);
   Sample.point 20 "Green" (rgba 120 200 120 255)].

Definition revised_mem : Pie.Memory :=
  Pie.mkMemory {[ 4096 := revised_points ]} ∅.

Definition blue : Clay_Color := rgba 100 150 250 255.
Definition green : Clay_Color := rgba 120 200 120 255.

(** The sample memories with a palette of two colours at address 512. *)
Definition palette_mem : Pie.Memory :=
  Pie.mkMemory {[ 4096 := Sample.three_points ]} {[ 512 := [blue; green] ]}.

Definition palette_chart : Pie.Clay_PieChart_Config :=
  Sample.with_colors Sample.chart Pie.CLAY_PIECHART_COLOR_MODE_PALETTE
    (Pie.Palette 512 2).

Definition lined_chart : Pie.Clay_PieChart_Config :=
  Sample.with_showSectorLines Sample.chart true.

Definition with_showLegend (c : Pie.Clay_PieChart_Config) (legend : bool)
    : Pie.Clay_PieChart_Config :=
  Pie.mkConfig (Pie.data c) (Pie.dataCount c) (Pie.radius c)
    (Pie.donutHoleRadius c) (Pie.explodeDistance c) (Pie.showLabels c)
    (Pie.showValues c) (Pie.showPercentages c) legend
    (Pie.showSectorLines c) (Pie.backgroundColor c) (Pie.labelTextColor c)
    (Pie.sectorLineColor c) (Pie.labelFontSize c) (Pie.labelFontId c)
    (Pie.startAngle c) (Pie.colorMode c) (Pie.colorConfig c).

(** The sample chart with its legend. *)
Definition legend_chart : Pie.Clay_PieChart_Config :=
  with_showLegend Sample.chart true.

(** A chart of 33 equal shares with a legend. *)
Definition crowded_mem : Pie.Memory :=
  Pie.mkMemory {[ 4096 := replicate 33 (Sample.point 1 "share" blue) ]} ∅.

Definition crowded_chart : Pie.Clay_PieChart_Config :=
  Sample.with_data legend_chart 4096 33.

(** A data point whose value is not a number, after a sound one. *)
Definition nan_points : list Pie.Clay_PieChart_DataPoint :=
  [Sample.point 30 "Red" (rgba 250 100 100 255);
   Pie.mkDataPoint S754_nan "?" blue false].

Definition nan_mem : Pie.Memory := Pie.mkMemory {[ 4096 := nan_points ]} ∅.

Definition nan_chart : Pie.Clay_PieChart_Config :=
  Sample.with_data Sample.chart 4096 2.

(** Render commands of the layout variant: the chart element has id 7
    under [sample_externals]. *)
Definition element (id w h : Z) : PieLayout.Clay_RenderCommand :=
  PieLayout.mkCommand id (Sample.box w h).

Definition other_elements : list PieLayout.Clay_RenderCommand :=
  [element 1 800 600; element 2 400 300; element 3 400 300;
   element 4 100 20; element 5 100 20; element 6 100 20].

(** The backend calls and declarations a run of calls makes (none should
    the run be undefined). *)
Definition events (calls : list Session.Call) (w : PieCustom.World)
    : list Event :=
  match Session.run (H := sample_externals) calls w with
  | Some (_, evs) => evs
  | None => []
  end.

(** One frame of the sample chart in a bounding box of 10 x 10. *)
Definition small_frame : list Session.Call :=
  [Session.Render "pie" Sample.chart;
   Session.PrepareTexture (Sample.pie_command 10 10) true].

(** One frame of a layout with two charts. *)
Definition two_chart_frame : list Session.Call :=
  [Session.Render "left" Sample.chart;
   Session.Render "right" lined_chart;
   Session.PrepareTexture (Sample.pie_command 64 64) true].

(** ** Bar charts *)

Definition bar_config (p n orientation : Z) (labels values : bool)
    (mode : Z) (cc : Bar.ColorConfig) : Bar.Clay_BarChart_Config :=
  let d := BarRender.Clay_BarChart_DefaultConfig in
  Bar.mkConfig p n orientation (Bar.barWidth d) (Bar.barGap d)
    (Bar.maxValue d) (Bar.backgroundColor d) (Bar.gridColor d)
    (Bar.labelTextColor d) (Bar.labelFontSize d) (Bar.labelFontId d)
    (Bar.showGrid d) labels values mode cc.

Definition bar (v : Z) (l : string) (c : Clay_Color)
    : Bar.Clay_BarChart_DataPoint :=
  Bar.mkDataPoint (F32.of_Z v) l c.

Definition first_quarter : list Bar.Clay_BarChart_DataPoint :=
  [bar 30 "Jan" blue; bar 50 "Feb" green; bar 20 "Mar" (rgba 250 180 100 255)].

Definition second_quarter : list Bar.Clay_BarChart_DataPoint :=
  [bar 70 "Apr" blue; bar 80 "May" green].

Definition no_sales : list Bar.Clay_BarChart_DataPoint :=
  [bar 0 "Jun" blue; bar 0 "Jul" green].

(** The caller's memory: three series, a series of 33 bars, and a palette
    of two colours. *)
Definition sales_mem : Bar.Memory :=
  Bar.mkMemory
    {[ 4096 := first_quarter; 8192 := replicate 33 (bar 1 "day" blue);
       12288 := no_sales; 16384 := second_quarter ]}
    {[ 512 := [blue; green] ]}.

Definition palette_bars : Bar.Clay_BarChart_Config :=
  bar_config 4096 3 0 true true Bar.CLAY_BARCHART_COLOR_MODE_PALETTE
    (Bar.Palette 512 2).

Definition own_colors : Bar.ColorConfig :=
  Bar.colorConfig BarRender.Clay_BarChart_DefaultConfig.

(** Charts over the series, with labels and value texts. *)
Definition vertical_chart : Bar.Clay_BarChart_Config :=
  bar_config 4096 3 BarRender.CLAY_BARCHART_ORIENTATION_VERTICAL true true
    Bar.CLAY_BARCHART_COLOR_MODE_PER_BAR own_colors.

Definition horizontal_chart : Bar.Clay_BarChart_Config :=
  bar_config 4096 3 BarRender.CLAY_BARCHART_ORIENTATION_HORIZONTAL true true
    Bar.CLAY_BARCHART_COLOR_MODE_PER_BAR own_colors.

Definition crowded_bars : Bar.Clay_BarChart_Config :=
  bar_config 8192 33 BarRender.CLAY_BARCHART_ORIENTATION_VERTICAL true true
    Bar.CLAY_BARCHART_COLOR_MODE_PER_BAR own_colors.

Definition empty_months : Bar.Clay_BarChart_Config :=
  bar_config 12288 2 BarRender.CLAY_BARCHART_ORIENTATION_VERTICAL true true
    Bar.CLAY_BARCHART_COLOR_MODE_PER_BAR own_colors.

Definition second_chart : Bar.Clay_BarChart_Config :=
  bar_config 16384 2 BarRender.CLAY_BARCHART_ORIENTATION_VERTICAL true true
    Bar.CLAY_BARCHART_COLOR_MODE_PER_BAR own_colors.

(** [data_only] with a green background. *)
Definition green_bars : Bar.Clay_BarChart_Config :=
  Bar.mkConfig 4096 3 0 F32.zero F32.zero F32.zero green
    (mkColor F32.zero F32.zero F32.zero F32.zero)
    (mkColor F32.zero F32.zero F32.zero F32.zero)
    0 0 false false false 0 (Bar.Palette 0 0).

(** What a call of the renderer leaves behind and declares (nothing should
    the call be undefined). *)
Definition rendered (r : option (BarRender.Statics * list BarRender.Decl))
    : BarRender.Statics * list BarRender.Decl :=
  default (BarRender.initial_statics, []) r.

(** A config as a designated initialiser with only the data given leaves
    it: every other field zero. *)
Definition data_only : Bar.Clay_BarChart_Config :=
  Bar.mkConfig 4096 3 0 F32.zero F32.zero F32.zero
    (mkColor F32.zero F32.zero F32.zero F32.zero)
    (mkColor F32.zero F32.zero F32.zero F32.zero)
    (mkColor F32.zero F32.zero F32.zero F32.zero)
    0 0 false false false 0 (Bar.Palette 0 0).

(** ** The demo programs *)

(** The demo's data once [InitializeSalesData] has run at time 0. *)
Definition demo_start : DemoData.Globals :=
  default DemoData.initial_globals
    (DemoData.InitializeSalesData (DemoData.double_of_Z 0)
       DemoData.initial_globals).

(** The first demo three seconds later, when [rand()] returns 1000. *)
Definition window_moved : DemoData.Globals :=
  default demo_start
    (DemoLayout.UpdateSalesData (DemoData.double_of_Z 3) 1000 demo_start).

(** The second demo three seconds later, when [rand()] returns 1000. *)
Definition figure_replaced : DemoData.Globals :=
  default demo_start
    (DemoCustom.UpdateSalesData (DemoData.double_of_Z 3) 1000 demo_start).

End Inputs.

(* ===================================================================== *)
(** * Proof engineering                                                   *)
(* ===================================================================== *)

(** A closed goal about a concrete input is settled by running the code. *)
Ltac by_running := vm_compute; first [reflexivity | discriminate].

(* ===================================================================== *)
(** * Loops                                                               *)
(* ===================================================================== *)

Section Loops.
Context {S : Type}.

(** Two loops whose bodies agree on the indices they visit compute the same
    result. *)
Lemma for_up_ext (body body' : Z → S → option S) count i s :
  (∀ j s, i ≤ j < i + Z.of_nat count → body j s = body' j s) →
  for_up count i body s = for_up count i body' s.
Proof.
  revert i s. induction count as [|k IH]; intros i s Hb; simpl; [done|].
  rewrite (Hb i s) by lia.
  destruct (body' i s) as [s'|]; simpl; [|done].
  apply IH. intros j s0 Hj. apply Hb. lia.
Qed.

End Loops.

(* ===================================================================== *)
(** * The fingerprint                                                     *)
(* ===================================================================== *)

Section FingerprintFacts.
Import Pie Fingerprint.

Lemma hash_body_hashed_point m1 c1 m2 c2 i (hash : Z) :
  hashed_point m1 c1 i = hashed_point m2 c2 i →
  (d ← read_data m1 (data c1) i;
   Some (fnv_fold (fnv_fold hash (F32.bits (value d)))
                  (if exploded d then 1 else 0)))
  = (d ← read_data m2 (data c2) i;
     Some (fnv_fold (fnv_fold hash (F32.bits (value d)))
                    (if exploded d then 1 else 0))).
Proof.
  unfold hashed_point.
  destruct (read_data m1 (data c1) i) as [d1|],
           (read_data m2 (data c2) i) as [d2|]; simpl; try done.
  intros [= -> ->]. done.
Qed.

(** C8, amended: two configs that differ only in fields the hash does not
    fold in -- anything but the number of data points, each point's value
    and exploded flag, the radius, the hole radius, the colour mode and the
    sector-lines flag; so in particular label texts, label font size and
    colours -- have the same fingerprint. *)
Theorem C8_hash_ignores_unhashed_fields (m1 m2 : Memory)
    (c1 c2 : Clay_PieChart_Config) :
  same_hashed_fields m1 c1 m2 c2 →
  Clay_PieChart__HashConfig m1 c1 = Clay_PieChart__HashConfig m2 c2.
Proof.
  intros (Hn & Hpts & Hr & Hh & Hm & Hl).
  unfold Clay_PieChart__HashConfig.
  rewrite <- Hn, <- Hr, <- Hh, <- Hm, <- Hl.
  erewrite for_up_ext; [reflexivity|].
  intros j hash Hj. cbv beta.
  apply hash_body_hashed_point, Hpts. lia.
Qed.

Lemma C8_witness_relabelled :
  Clay_PieChart__HashConfig Sample.mem Sample.chart
  = Clay_PieChart__HashConfig Sample.relabelled_mem
      (Sample.with_label_style Sample.chart 22 (rgba 1 2 3 255)).
Proof.
  apply C8_hash_ignores_unhashed_fields.
  split; [by_running|]. split.
  - intros i Hi. change (dataCount Sample.chart) with 3 in Hi.
    assert (i = 0 ∨ i = 1 ∨ i = 2) as [-> | [-> | ->]] by lia;
      by_running.
  - repeat (split; [by_running|]). by_running.
Defined.

(** C8 as stated fails: [showSectorLines] is not among the fields listed as
    fingerprint-relevant (values, explode flags, radius, hole radius, colour
    mode), yet two configs that differ in nothing else have different
    fingerprints. *)
Lemma C8_counterexample_sector_lines :
  same_listed_fields Sample.mem Sample.chart
    Sample.mem (Sample.with_showSectorLines Sample.chart true)
  ∧ Clay_PieChart__HashConfig Sample.mem Sample.chart
    ≠ Clay_PieChart__HashConfig Sample.mem
        (Sample.with_showSectorLines Sample.chart true).
Proof.
  split.
  - split; [by_running|]. split; [intros i _; reflexivity|].
    repeat (split; [by_running|]). by_running.
  - by_running.
Qed.

End FingerprintFacts.

Section FingerprintGaps.
Import Pie PieCustom Session.
Context {E : Externals}.

(** C2 fails on the code.  [startAngle] decides where every sector is drawn,
    yet [Clay_PieChart__HashConfig] does not fold it in: the chart of the
    header's example and the same chart turned from -90 to 0 degrees have the
    same fingerprint, are drawn differently into a fresh texture, and once the
    first is cached, rendering the second leaves the cached texture in use. *)
Theorem C2_start_angle_escapes_fingerprint :
  let turned := Sample.with_startAngle Sample.chart F32.zero in
  let cmd := Sample.pie_command 64 64 in
  let fresh := initial_world Sample.mem 0 in
  Clay_PieChart__HashConfig Sample.mem Sample.chart
  = Clay_PieChart__HashConfig Sample.mem turned
  ∧ (snd <$> run [Render "pie" Sample.chart; PrepareTexture cmd true] fresh)
    ≠ (snd <$> run [Render "pie" turned; PrepareTexture cmd true] fresh)
  ∧ ∃ w evs,
      run [Render "pie" Sample.chart; PrepareTexture cmd true;
           Render "pie" turned] fresh = Some (w, evs)
      ∧ call (PrepareTexture cmd true) w = Some (w, [])
      ∧ Clay_PieChart_GetTexture cmd w
        = Some (mkRenderTexture 1 (mkTexture 128 128)).
Proof.
  cbv zeta. split; [by_running|]. split.
  - by_running.
  - eexists _, _. split; [by_running|].
    split; by_running.
Qed.

End FingerprintGaps.
(* ===================================================================== *)
(** * The texture cache: when it regenerates                              *)
(* ===================================================================== *)

Section CacheDecision.
Import Pie PieCustom Session Cache.
Context {E : Externals}.

Lemma needsRegeneration_stale cached rq :
  needsRegeneration cached (fingerprint rq) (requestedWidth rq)
    (requestedHeight rq) = true
  ↔ stale cached rq.
Proof.
  unfold needsRegeneration, stale.
  rewrite !orb_true_iff, !negb_true_iff, !Z.eqb_neq. tauto.
Qed.

Lemma needsRegeneration_fresh cached rq :
  needsRegeneration cached (fingerprint rq) (requestedWidth rq)
    (requestedHeight rq) = false
  ↔ ¬ stale cached rq.
Proof.
  rewrite <- needsRegeneration_stale.
  destruct (needsRegeneration _ _ _ _); split; congruence.
Qed.

Lemma regenerates_nil : ¬ regenerates [].
Proof. intros (w & h & t & Hin). by apply elem_of_nil in Hin. Qed.

Lemma load_in_regeneration (pre rest : list Event) tw th t :
  EvLoadRenderTexture tw th t ∈ pre ++ [EvLoadRenderTexture tw th t] ++ rest.
Proof. apply elem_of_app. right. apply elem_of_cons. by left. Qed.

(** On an element that [Clay_PieChart_Render] stored, the preparation step
    gets as far as the staleness test. *)
Lemma prepare_on_pie_element cmd created w rq :
  pie_element cmd w →
  request cmd w = Some rq →
  Clay_PieChart_PrepareTexture cmd created w =
    if needsRegeneration (elementDataStorage w) (fingerprint rq)
         (requestedWidth rq) (requestedHeight rq)
    then regenerate_texture created (requestedWidth rq) (requestedHeight rq)
           (fingerprint rq) w
    else Some (w, []).
Proof.
  intros (Hcmd & Htag & Hn & Hd & Htot) Hrq.
  unfold Clay_PieChart_PrepareTexture, request in *.
  rewrite Hcmd, Htag, Z.eqb_refl. simpl negb. cbv iota.
  apply Z.eqb_neq in Hn, Hd. rewrite Hn, Hd, Htot. simpl orb. cbv iota zeta.
  destruct (texture_side (width _)) as [tw|]; [|done].
  destruct (texture_side (height _)) as [th|]; [|done].
  destruct (Clay_PieChart__HashConfig _ _) as [h|]; [|done].
  simpl in Hrq. injection Hrq as <-. done.
Qed.

(** What a regeneration leaves behind: the events start with the release of
    the old target (if one was in use) followed by the creation of the new
    one, and the element records the new target, marked valid, under the
    current fingerprint. *)
Lemma regenerate_texture_inv created tw th h w w' evs :
  regenerate_texture created tw th h w = Some (w', evs) →
  let cached := elementDataStorage w in
  let unload := textureValid cached && negb (rt_id (texture cached) =? 0) in
  let gpu := LoadRenderTexture created tw th
               (if unload then UnloadRenderTexture (texture cached) w else w) in
  ∃ seed drawn,
    w' = set_color_seed
           (set_storage gpu.2
              (mkElementData (elementType cached) (config cached)
                 (totalValue cached) h gpu.1 true)) seed
    ∧ evs = (if unload then [EvUnloadRenderTexture (texture cached)] else [])
            ++ [EvLoadRenderTexture tw th gpu.1]
            ++ [EvBeginTextureMode gpu.1; EvClearBackground (mkRayColor 0 0 0 0)]
            ++ (EvDraw <$> drawn) ++ [EvEndTextureMode].
Proof.
  unfold regenerate_texture. cbv zeta.
  destruct (LoadRenderTexture created tw th _) as [target w2] eqn:Hload.
  destruct (render_segments _ _ _ _ _ _ _) as [[[ang seed] drawn]|]; [|done].
  simpl. intros [= <- <-]. eexists seed, drawn. done.
Qed.

(** C1: on every pie-chart custom element the preparation step regenerates
    the texture exactly when the cache is stale -- no valid texture yet, a
    fingerprint other than the current config's, or a width or height other
    than the requested one; otherwise it returns at once, leaving the world
    as it is.  A regeneration asks the backend for a target of the requested
    size and records it, valid, under the current fingerprint. *)
Theorem C1_regenerates_exactly_when_stale
    (cmd : Clay_RenderCommand) (created : bool) (w : World) (rq : Request) :
  pie_element cmd w →
  request cmd w = Some rq →
  (needsRegeneration (elementDataStorage w) (fingerprint rq)
     (requestedWidth rq) (requestedHeight rq) = true
   ↔ stale (elementDataStorage w) rq)
  ∧ (¬ stale (elementDataStorage w) rq →
       Clay_PieChart_PrepareTexture cmd created w = Some (w, []))
  ∧ (∀ w' evs,
       Clay_PieChart_PrepareTexture cmd created w = Some (w', evs) →
       (regenerates evs ↔ stale (elementDataStorage w) rq)
       ∧ (stale (elementDataStorage w) rq →
            EvLoadRenderTexture (requestedWidth rq) (requestedHeight rq)
              (texture (elementDataStorage w')) ∈ evs
            ∧ textureValid (elementDataStorage w') = true
            ∧ configHash (elementDataStorage w') = fingerprint rq)).
Proof.
  intros Hel Hrq. split; [apply needsRegeneration_stale|].
  rewrite (prepare_on_pie_element _ _ _ _ Hel Hrq).
  destruct (needsRegeneration _ _ _ _) eqn:Hneeds.
  - apply needsRegeneration_stale in Hneeds. split; [done|].
    intros w' evs Hregen.
    apply regenerate_texture_inv in Hregen as (seed & drawn & -> & ->).
    cbn [elementDataStorage set_color_seed set_storage texture textureValid
         configHash].
    split.
    + split; [done|]. intros _. eexists _, _, _. apply load_in_regeneration.
    + intros _. split; [apply load_in_regeneration|done].
  - apply needsRegeneration_fresh in Hneeds. split; [done|].
    intros w' evs [= <- <-]. split; [|done].
    split; [intros Hr; by apply regenerates_nil in Hr | done].
Qed.

Lemma LoadRenderTexture_memory created tw th w :
  memory (LoadRenderTexture created tw th w).2 = memory w.
Proof. by destruct created. Qed.

Lemma texture_side_range extent n :
  texture_side extent = Some n → 128 ≤ n < 2 ^ 31.
Proof.
  unfold texture_side, F32.to_int, F32.to_integer.
  destruct (F32.trunc _) as [k|]; simpl; [|done].
  destruct (_ && _) eqn:Hrange; simpl; [|done].
  intros [= <-]. apply andb_true_iff in Hrange as [Hlo Hhi].
  apply Z.leb_le in Hlo, Hhi. destruct (Z.ltb_spec k 128); lia.
Qed.

Lemma request_range cmd w rq :
  request cmd w = Some rq →
  128 ≤ requestedWidth rq < 2 ^ 31 ∧ 128 ≤ requestedHeight rq < 2 ^ 31.
Proof.
  unfold request.
  destruct (texture_side (width _)) as [tw|] eqn:Hw; [|done].
  destruct (texture_side (height _)) as [th|] eqn:Hh; [|done].
  destruct (Clay_PieChart__HashConfig _ _) as [h|]; [|done].
  simpl. intros [= <-]. simpl.
  split; by eapply texture_side_range.
Qed.

(** C4: starting from a stale cache, the check run twice in a row on the
    same element and bounding box.  The first check answers true and the
    call regenerates, marks the texture valid and stores the current
    fingerprint, whether or not the backend creates the render target.  The
    second check answers false exactly when the backend created the target:
    the second call then returns the world unchanged.  When the backend
    failed, the element holds the zeroed texture, whose width 0 is not the
    requested width, so the second check answers true again and the second
    call regenerates again. *)
Theorem C4_second_check_follows_backend_outcome
    (cmd : Clay_RenderCommand) (w w1 : World) (rq : Request)
    (evs1 : list Event) (created1 created2 : bool) :
  pie_element cmd w →
  request cmd w = Some rq →
  stale (elementDataStorage w) rq →
  Clay_PieChart_PrepareTexture cmd created1 w = Some (w1, evs1) →
  needsRegeneration (elementDataStorage w) (fingerprint rq)
    (requestedWidth rq) (requestedHeight rq) = true
  ∧ regenerates evs1
  ∧ textureValid (elementDataStorage w1) = true
  ∧ configHash (elementDataStorage w1) = fingerprint rq
  ∧ request cmd w1 = Some rq
  ∧ needsRegeneration (elementDataStorage w1) (fingerprint rq)
      (requestedWidth rq) (requestedHeight rq) = negb created1
  ∧ (created1 = true →
       Clay_PieChart_PrepareTexture cmd created2 w1 = Some (w1, []))
  ∧ (created1 = false →
       texture (elementDataStorage w1) = zero_texture
       ∧ ∀ w2 evs2,
           Clay_PieChart_PrepareTexture cmd created2 w1 = Some (w2, evs2) →
           regenerates evs2).
Proof.
  intros Hel Hrq Hstale Hrun.
  assert (Hneeds := proj2 (needsRegeneration_stale _ _) Hstale).
  split; [exact Hneeds|].
  rewrite (prepare_on_pie_element _ _ _ _ Hel Hrq), Hneeds in Hrun.
  apply regenerate_texture_inv in Hrun as (seed & drawn & -> & ->).
  split; [eexists _, _, _; apply load_in_regeneration|].
  set (w0 := if textureValid (elementDataStorage w)
                 && negb (rt_id (texture (elementDataStorage w)) =? 0)
              then UnloadRenderTexture (texture (elementDataStorage w)) w
              else w).
  assert (memory w0 = memory w) as Hmem0 by (subst w0; by destruct (_ && _)).
  set (gpu := LoadRenderTexture created1 (requestedWidth rq)
                (requestedHeight rq) w0).
  set (stored := mkElementData (elementType (elementDataStorage w))
                   (config (elementDataStorage w))
                   (totalValue (elementDataStorage w)) (fingerprint rq)
                   gpu.1 true).
  set (w1 := set_color_seed (set_storage gpu.2 stored) seed).
  assert (elementDataStorage w1 = stored) as Hstored by done.
  rewrite Hstored.
  split; [done|]. split; [done|].
  assert (Hrq1 : request cmd w1 = Some rq).
  { unfold request in *. rewrite Hstored.
    assert (memory w1 = memory w) as ->
      by (subst w1 gpu; cbn [memory set_color_seed set_storage];
          by rewrite LoadRenderTexture_memory).
    exact Hrq. }
  split; [exact Hrq1|].
  pose proof (request_range _ _ _ Hrq) as [Hwidth _].
  assert (Hcheck : needsRegeneration stored (fingerprint rq)
                     (requestedWidth rq) (requestedHeight rq)
                   = negb created1).
  { unfold needsRegeneration, stored, gpu, LoadRenderTexture.
    destruct created1; simpl.
    - by rewrite !Z.eqb_refl.
    - rewrite Z.eqb_refl. simpl.
      destruct (requestedWidth rq); [lia|done|done]. }
  split; [exact Hcheck|].
  assert (Hel1 : pie_element cmd w1).
  { destruct Hel as (? & ? & ? & ? & ?). repeat split; done. }
  rewrite (prepare_on_pie_element _ created2 _ _ Hel1 Hrq1), Hstored, Hcheck.
  split.
  - by intros ->.
  - intros Hfailed. split; [by subst stored gpu; rewrite Hfailed|].
    rewrite Hfailed. simpl. intros w2 evs2 Hregen.
    apply regenerate_texture_inv in Hregen as (seed2 & drawn2 & _ & ->).
    eexists _, _, _. apply load_in_regeneration.
Qed.

End CacheDecision.

(** The scenario of the design description: a cache built for 128x128 and a
    request, with the same data, for 256x256. *)
Lemma C1_witness_256_after_128 :
  let cached := PieCustom.elementDataStorage Sample.cached_128 in
  tex_width (rt_texture (PieCustom.texture cached)) = 128
  ∧ tex_height (rt_texture (PieCustom.texture cached)) = 128
  ∧ ∃ w' evs,
      PieCustom.Clay_PieChart_PrepareTexture (H := sample_externals)
        (Sample.pie_command 128 128) true Sample.cached_128 = Some (w', evs)
      ∧ Cache.regenerates evs
      ∧ EvLoadRenderTexture 256 256
          (PieCustom.texture (PieCustom.elementDataStorage w')) ∈ evs.
Proof.
  cbv zeta. split; [by_running|]. split; [by_running|].
  destruct (C1_regenerates_exactly_when_stale (E := sample_externals)
              (Sample.pie_command 128 128) true Sample.cached_128
              (Cache.mkRequest 1928569965 256 256)) as (_ & _ & Hcall).
  - repeat split; by_running.
  - by_running.
  - destruct (PieCustom.Clay_PieChart_PrepareTexture _ _ _) as [[w' evs]|] eqn:Hrun;
      [|vm_compute in Hrun; discriminate].
    exists w', evs. split; [reflexivity|].
    destruct (Hcall w' evs eq_refl) as [Hiff Hstale].
    assert (Cache.stale (PieCustom.elementDataStorage Sample.cached_128)
              (Cache.mkRequest 1928569965 256 256)) as Hst.
    { right; right; left. by_running. }
    split; [apply Hiff, Hst | apply Hstale, Hst].
Defined.

(** The first frame of a chart: rendered once, nothing cached yet, and the
    backend creates the render target. *)
Lemma C4_witness_first_frame :
  ∃ w1 evs1,
    PieCustom.Clay_PieChart_PrepareTexture (H := sample_externals)
      (Sample.pie_command 64 64) true Sample.rendered_once = Some (w1, evs1)
    ∧ Cache.regenerates evs1
    ∧ PieCustom.needsRegeneration (PieCustom.elementDataStorage w1)
        1928569965 128 128 = false
    ∧ PieCustom.Clay_PieChart_PrepareTexture (H := sample_externals)
        (Sample.pie_command 64 64) false w1 = Some (w1, []).
Proof.
  destruct (PieCustom.Clay_PieChart_PrepareTexture _ true _)
    as [[w1 evs1]|] eqn:Hrun; [|vm_compute in Hrun; discriminate].
  exists w1, evs1. split; [reflexivity|].
  destruct (C4_second_check_follows_backend_outcome (E := sample_externals)
              (Sample.pie_command 64 64) Sample.rendered_once w1
              (Cache.mkRequest 1928569965 128 128) evs1 true false)
    as (_ & Hregen & _ & _ & _ & Hcheck & Hsecond & _).
  - split; [by_running|].
    repeat (split; [by_running|]).
    by_running.
  - by_running.
  - left. by_running.
  - exact Hrun.
  - split; [exact Hregen|]. split; [exact Hcheck|]. by apply Hsecond.
Defined.

(** The same first frame with a backend that cannot create the render
    target: the cache is stale, the first check is true and the call asks
    for a target of 128 x 128; afterwards the element is marked valid, and
    the check for the same fingerprint and size is true again, not false:
    the second call asks for the target once more. *)
Lemma C4_counterexample_failed_creation :
  let cmd := Sample.pie_command 64 64 in
  let w := Sample.rendered_once in
  let w1 := Sample.after [Session.PrepareTexture cmd false] w in
  let evs1 := Inputs.events [Session.PrepareTexture cmd false] w in
  let w2 := Sample.after [Session.PrepareTexture cmd false] w1 in
  let evs2 := Inputs.events [Session.PrepareTexture cmd false] w1 in
  Cache.stale (PieCustom.elementDataStorage w)
    (Cache.mkRequest 1928569965 128 128)
  ∧ Cache.request cmd w = Some (Cache.mkRequest 1928569965 128 128)
  ∧ PieCustom.needsRegeneration (PieCustom.elementDataStorage w)
      1928569965 128 128 = true
  ∧ PieCustom.Clay_PieChart_PrepareTexture (H := sample_externals) cmd false w
    = Some (w1, evs1)
  ∧ head evs1 = Some (EvLoadRenderTexture 128 128 zero_texture)
  ∧ PieCustom.textureValid (PieCustom.elementDataStorage w1) = true
  ∧ Cache.request cmd w1 = Some (Cache.mkRequest 1928569965 128 128)
  ∧ PieCustom.needsRegeneration (PieCustom.elementDataStorage w1)
      1928569965 128 128 = true
  ∧ PieCustom.Clay_PieChart_PrepareTexture (H := sample_externals) cmd false w1
    = Some (w2, evs2)
  ∧ head evs2 = Some (EvLoadRenderTexture 128 128 zero_texture).
Proof.
  cbv zeta. split; [left; by_running|].
  repeat (split; [by_running|]). by_running.
Qed.
(* ===================================================================== *)
(** * The texture cache: one live render target                           *)
(* ===================================================================== *)

Section SingleOwnership.
Import Pie PieCustom Session Cache Ownership.
Context {E : Externals}.

Lemma replay_app live evs evs' :
  replay live (evs ++ evs') = live' ← replay live evs; replay live' evs'.
Proof.
  revert live. induction evs as [|e evs IH]; intros live; simpl; [done|].
  destruct e; simpl; try apply IH; case_decide; simpl; auto.
Qed.

Lemma replay_layout live (decls : list LayoutDecl) :
  replay live (EvLayout <$> decls) = Some live.
Proof. induction decls; simpl; auto. Qed.

Lemma replay_draw live (cmds : list DrawCmd) :
  replay live (EvDraw <$> cmds) = Some live.
Proof. induction cmds; simpl; auto. Qed.

(** What a call of [Clay_PieChart_Render] does to the world: nothing, for a
    config without data or with a total that is not positive; otherwise it
    stores the config, releasing and forgetting the cached texture when the
    fingerprint changed. *)
Lemma Clay_PieChart_Render_inv id cfg w w' evs :
  Clay_PieChart_Render id cfg w = Some (w', evs) →
  (w' = w ∧ evs = [])
  ∨ ∃ total h seed (decls : list LayoutDecl),
      let cached := elementDataStorage w in
      let changed := negb (configHash cached =? h) in
      let unload :=
        changed && textureValid cached && negb (rt_id (texture cached) =? 0) in
      w' = set_color_seed
             (set_storage
                (if unload then UnloadRenderTexture (texture cached) w else w)
                (if changed
                 then mkElementData CLAY_PIECHART_CUSTOM_ELEMENT_TYPE cfg
                        total h zero_texture false
                 else mkElementData CLAY_PIECHART_CUSTOM_ELEMENT_TYPE cfg
                        total h (texture cached)
                        (if unload then false else textureValid cached)))
             seed
      ∧ evs = (if unload then [EvUnloadRenderTexture (texture cached)] else [])
              ++ (EvLayout <$> decls)
      ∧ dataCount cfg ≠ 0 ∧ data cfg ≠ 0 ∧ F32.leb total F32.zero = false.
Proof.
  unfold Clay_PieChart_Render.
  destruct ((dataCount cfg =? 0) || (data cfg =? 0)) eqn:Hdeg.
  { intros [= <- <-]. by left. }
  apply orb_false_iff in Hdeg as [Hn Hd]. apply Z.eqb_neq in Hn, Hd.
  destruct (Clay_PieChart__CalculateTotalValue _ _) as [total|]; [|done].
  simpl. destruct (F32.leb total F32.zero) eqn:Htot.
  { intros [= <- <-]. by left. }
  destruct (Clay_PieChart__HashConfig _ _) as [h|]; [|done].
  simpl. cbv zeta.
  match goal with
  | |- context [mbind _ ?legend] => destruct legend as [[seed decls]|]; [|done]
  end.
  simpl. intros [= <- <-]. right.
  exists total, h, seed,
    ([OpenChart id None (showLegend cfg) (backgroundColor cfg);
      CustomElement "PieChartCustom" (pie_area_side cfg)]
     ++ decls ++ [CloseElement]).
  cbv zeta. repeat split; done.
Qed.

(** A call of [Clay_PieChart_PrepareTexture] either leaves the world alone
    or regenerates the texture. *)
Lemma Clay_PieChart_PrepareTexture_inv cmd created w w' evs :
  Clay_PieChart_PrepareTexture cmd created w = Some (w', evs) →
  (w' = w ∧ evs = [])
  ∨ ∃ tw th h, regenerate_texture created tw th h w = Some (w', evs).
Proof.
  unfold Clay_PieChart_PrepareTexture.
  destruct (customData cmd) as [| |tag].
  - intros [= <- <-]. by left.
  - destruct (negb _); [intros [= <- <-]; by left|].
    destruct (_ || _); [intros [= <- <-]; by left|].
    destruct (texture_side (width _)) as [tw|]; [|done].
    destruct (texture_side (height _)) as [th|]; [|done].
    destruct (Clay_PieChart__HashConfig _ _) as [h|]; [|done].
    simpl. destruct (needsRegeneration _ _ _ _).
    + intros Hregen. right. by exists tw, th, h.
    + intros [= <- <-]. by left.
  - destruct (tag =? _); [done|]. intros [= <- <-]. by left.
Qed.

Lemma if_decide_in_singleton {A} (i : Z) (u v : A) :
  (if decide (i ∈ ({[ i ]} : gset Z)) then u else v) = u.
Proof. rewrite decide_True; [done|]. by apply elem_of_singleton. Qed.

Lemma if_decide_empty {A} (u v : A) :
  (if decide ((∅ : gset Z) = ∅) then u else v) = u.
Proof. by rewrite decide_True. Qed.

Lemma if_decide_target {A} (i : Z) (live : gset Z) (u v : A) :
  i = 0 ∨ i ∈ live →
  (if decide (i = 0 ∨ i ∈ live) then u else v) = u.
Proof. intros. by rewrite decide_True. Qed.

Lemma empty_union_singleton (i : Z) : (∅ : gset Z) ∪ {[ i ]} = {[ i ]}.
Proof. apply (left_id_L _ _). Qed.

(** Every call keeps the cache the sole owner of what is alive, and its
    events respect the discipline when replayed from the set alive before. *)
Lemma call_keeps_sole_owner c w w' evs :
  sole_owner w →
  call c w = Some (w', evs) →
  sole_owner w' ∧ replay (live_textures w) evs = Some (live_textures w').
Proof.
  intros [Hlive Hnext] Hcall. destruct c as [id cfg|cmd created|m]; simpl in Hcall.
  - apply Clay_PieChart_Render_inv in Hcall
      as [[-> ->]|(total & h & seed & decls & -> & -> & _)]; [done|].
    cbv zeta. unfold sole_owner, owned in *. rewrite replay_app.
    destruct (negb (configHash (elementDataStorage w) =? h));
      destruct (textureValid (elementDataStorage w));
      destruct (negb (rt_id (texture (elementDataStorage w)) =? 0)) eqn:Hid;
      simpl in *; rewrite ?Hid, Hlive;
      rewrite ?if_decide_in_singleton; simpl;
      rewrite replay_layout, ?difference_diag_L; done.
  - apply Clay_PieChart_PrepareTexture_inv in Hcall
      as [[-> ->]|(tw & th & h & Hregen)]; [done|].
    apply regenerate_texture_inv in Hregen as (seed & drawn & -> & ->).
    assert ((next_texture w =? 0) = false) as Hnz by (apply Z.eqb_neq; lia).
    cbv zeta. unfold sole_owner, owned in *.
    rewrite !replay_app.
    destruct created;
      destruct (textureValid (elementDataStorage w));
      destruct (negb (rt_id (texture (elementDataStorage w)) =? 0)) eqn:Hid;
      simpl in *; rewrite ?Hid, ?Hnz, Hlive; simpl;
      rewrite ?if_decide_in_singleton; simpl;
      rewrite ?difference_diag_L, ?empty_union_singleton, ?if_decide_empty;
      rewrite ?if_decide_target
        by (first [by left | right; by apply elem_of_singleton]);
      rewrite replay_app, replay_draw; simpl;
      (split; [split; [done|lia]|done]).
  - injection Hcall as <- <-. done.
Qed.

Lemma run_keeps_sole_owner calls w w' evs :
  sole_owner w →
  run calls w = Some (w', evs) →
  sole_owner w' ∧ replay (live_textures w) evs = Some (live_textures w').
Proof.
  revert w evs. induction calls as [|c calls IH]; intros w evs Hown; simpl.
  - intros [= <- <-]. done.
  - destruct (call c w) as [[w1 evs1]|] eqn:Hcall; [|done]. simpl.
    destruct (run calls w1) as [[w2 evs2]|] eqn:Hrun; [|done]. simpl.
    intros [= <- <-].
    destruct (call_keeps_sole_owner _ _ _ _ Hown Hcall) as [Hown1 Hre1].
    destruct (IH _ _ Hown1 Hrun) as [Hown2 Hre2].
    split; [done|]. rewrite replay_app, Hre1. exact Hre2.
Qed.

(** Only [Clay_PieChart_Render] tags the element storage, and it does so
    only for a config with data and a positive total; the preparation step
    keeps config and total. *)
Lemma call_keeps_tagged_renderable c w w' evs :
  tagged_is_renderable w →
  call c w = Some (w', evs) →
  tagged_is_renderable w'.
Proof.
  intros Hinv Hcall. destruct c as [id cfg|cmd created|m]; simpl in Hcall.
  - apply Clay_PieChart_Render_inv in Hcall
      as [[-> ->]|(total & h & seed & decls & -> & _ & Hn & Hd & Htot)];
      [done|].
    cbv zeta. intros _.
    by destruct (negb (configHash (elementDataStorage w) =? h)).
  - apply Clay_PieChart_PrepareTexture_inv in Hcall
      as [[-> ->]|(tw & th & h & Hregen)]; [done|].
    apply regenerate_texture_inv in Hregen as (seed & drawn & -> & _).
    exact Hinv.
  - injection Hcall as <- _. exact Hinv.
Qed.

(** Every element tagged as a pie chart that a render command can refer to
    in a running program is one the preparation step does not skip. *)
Lemma reachable_pie_element calls m clock w evs cmd :
  run calls (initial_world m clock) = Some (w, evs) →
  customData cmd = PieStorage →
  elementType (elementDataStorage w) = CLAY_PIECHART_CUSTOM_ELEMENT_TYPE →
  pie_element cmd w.
Proof.
  intros Hrun Hcmd Htag.
  assert (tagged_is_renderable w) as Hinv.
  { clear Hcmd Htag. revert Hrun.
    assert (tagged_is_renderable (initial_world m clock)) as Hinit by done.
    revert Hinit. generalize (initial_world m clock) as w0. revert w evs.
    induction calls as [|c calls IH]; intros w evs w0 Hinit; simpl.
    - by intros [= <- _].
    - destruct (call c w0) as [[w1 evs1]|] eqn:Hcall; [|done]. simpl.
      destruct (run calls w1) as [[w2 evs2]|] eqn:Hrest; [|done]. simpl.
      intros [= <- _].
      eapply IH; [|exact Hrest].
      by eapply call_keeps_tagged_renderable. }
  destruct (Hinv Htag) as (Hn & Hd & Htot). by repeat split.
Qed.

(** Under the discipline the number of targets alive never exceeds one. *)
Lemma replay_at_most_one live evs live' :
  (size live ≤ 1)%nat →
  replay live evs = Some live' →
  (size live' ≤ 1)%nat.
Proof.
  revert live. induction evs as [|e evs IH]; intros live Hsize; simpl.
  - by intros [= <-].
  - destruct e; try apply IH; try done.
    + case_decide; [|done]. apply IH.
      assert (size (live ∖ {[ rt_id t ]}) ≤ size live)%nat
        by (apply subseteq_size, subseteq_difference_l; done).
      lia.
    + case_decide; [|done]. apply IH.
      destruct (rt_id result =? 0).
      * rewrite size_empty. lia.
      * by rewrite size_singleton.
    + case_decide; [|done]. by apply IH.
Qed.

Lemma replay_prefix live evs evs' live' :
  replay live (evs ++ evs') = Some live' →
  ∃ live1, replay live evs = Some live1.
Proof.
  rewrite replay_app. destruct (replay live evs) as [live1|]; [|done].
  by exists live1.
Qed.

Lemma initial_sole_owner m clock : sole_owner (initial_world m clock).
Proof. done. Qed.

Lemma owned_at_most_one w : (size (owned w) ≤ 1)%nat.
Proof.
  unfold owned. destruct (_ && _).
  - by rewrite size_singleton.
  - rewrite size_empty. lia.
Qed.

(** C5: along every sequence of [Clay_PieChart_Render] and
    [Clay_PieChart_PrepareTexture] calls from program start (the caller
    rewriting its arrays in between as it likes), the trace of backend calls
    keeps the discipline of single ownership -- a target is released only
    while alive, a new one is created only once none is alive, so the old
    one is released before its replacement is allocated -- and afterwards at
    most one render target is alive, the one the cache records (nor were
    there ever two alive at any point of the trace); the handle
    [Clay_PieChart_GetTexture] hands out is that live target (or the zeroed
    struct of a failed creation), never a released one. *)
Theorem C5_single_live_render_target
    (calls : list Call) (m : Memory) (clock : Z) (w : World) (evs : list Event) :
  run calls (initial_world m clock) = Some (w, evs) →
  replay ∅ evs = Some (live_textures w)
  ∧ (∀ before afterwards, evs = before ++ afterwards →
       ∃ live, replay ∅ before = Some live ∧ (size live ≤ 1)%nat)
  ∧ live_textures w = owned w
  ∧ (size (live_textures w) ≤ 1)%nat
  ∧ ∀ cmd t,
      Clay_PieChart_GetTexture cmd w = Some t →
      rt_id t = 0 ∨ rt_id t ∈ live_textures w.
Proof.
  intros Hrun.
  destruct (run_keeps_sole_owner _ _ _ _ (initial_sole_owner m clock) Hrun)
    as [[Hlive Hnext] Hreplay].
  split; [exact Hreplay|]. split.
  { intros before afterwards ->.
    destruct (replay_prefix _ _ _ _ Hreplay) as [live Hbefore].
    exists live. split; [exact Hbefore|].
    apply (replay_at_most_one ∅ before); [|exact Hbefore].
    rewrite size_empty. lia. }
  split; [exact Hlive|].
  split; [rewrite Hlive; apply owned_at_most_one|].
  intros cmd t. unfold Clay_PieChart_GetTexture.
  destruct (customData cmd); try done.
  destruct (negb (elementType _ =? _)); [done|].
  destruct (textureValid (elementDataStorage w)) eqn:Hvalid; [|done].
  simpl. intros [= <-]. rewrite Hlive. unfold owned. rewrite Hvalid. simpl.
  destruct (rt_id (texture (elementDataStorage w)) =? 0) eqn:Hid; simpl.
  - left. by apply Z.eqb_eq.
  - right. by apply elem_of_singleton.
Qed.

End SingleOwnership.

Lemma C5_witness_three_frames :
  ∃ w evs,
    Session.run (H := sample_externals) Sample.three_frames
      (PieCustom.initial_world Sample.mem 0) = Some (w, evs)
    ∧ Ownership.replay ∅ evs = Some (PieCustom.live_textures w)
    ∧ (size (PieCustom.live_textures w) ≤ 1)%nat.
Proof.
  destruct (Session.run _ _) as [[w evs]|] eqn:Hrun;
    [|vm_compute in Hrun; discriminate].
  exists w, evs. split; [reflexivity|].
  destruct (C5_single_live_render_target (E := sample_externals)
              Sample.three_frames Sample.mem 0 w evs Hrun)
    as (Hreplay & _ & _ & Hsize & _).
  split; [exact Hreplay | exact Hsize].
Defined.
(* ===================================================================== *)
(** * Configs with nothing to render                                      *)
(* ===================================================================== *)

Section NothingToRender.
Import Pie Degenerate.
Context {E : Externals}.

Lemma no_data_log_not_drawable cfg e : e ∈ no_data_log cfg → ¬ drawable e.
Proof.
  unfold no_data_log. destruct (_ || _); intros Hin.
  - apply list_elem_of_singleton in Hin as ->. simpl. tauto.
  - by apply elem_of_nil in Hin.
Qed.

(** C3, amended: for a config with no data items, a NULL data pointer or a
    total that is not positive, every entry point returns normally without
    drawable output and leaves the state it was given untouched
    ([Clay_PieChart_Render] of the custom-element variant and
    [Clay_PieChart_PrepareTexture] return the world unchanged, cache
    included).  The [Render] entry points and the preparation step are
    silent; [Clay_PieChart_Draw] writes one line to [stderr] when there are
    no data items or the data pointer is NULL, and is silent when only the
    total is not positive. *)
Theorem C3_nothing_to_render_is_skipped
    (m : Memory) (cfg : Clay_PieChart_Config) :
  nothing_to_render m cfg →
  (∀ id w, PieCustom.memory w = m →
     PieCustom.Clay_PieChart_Render id cfg w = Some (w, []))
  ∧ (∀ clock id width height seed,
       PieLayout.Clay_PieChart_Render m clock id cfg width height seed
       = Some (seed, []))
  ∧ (∀ clock id cmds seed,
       PieLayout.Clay_PieChart_Draw m clock id cfg cmds seed
       = Some (seed, no_data_log cfg)
       ∧ ∀ e, e ∈ no_data_log cfg → ¬ drawable e)
  ∧ (∀ cmd created w,
       PieCustom.customData cmd = PieCustom.PieStorage →
       PieCustom.config (PieCustom.elementDataStorage w) = cfg →
       dataCount cfg = 0 ∨ data cfg = 0
       ∨ F32.leb (PieCustom.totalValue (PieCustom.elementDataStorage w))
           F32.zero = true →
       PieCustom.Clay_PieChart_PrepareTexture cmd created w = Some (w, [])).
Proof.
  intros Hdeg.
  assert ((dataCount cfg =? 0) || (data cfg =? 0) = true
          ∨ ((dataCount cfg =? 0) || (data cfg =? 0) = false
             ∧ ∃ total, Clay_PieChart__CalculateTotalValue m cfg = Some total
                        ∧ F32.leb total F32.zero = true)) as Hcase.
  { destruct ((dataCount cfg =? 0) || (data cfg =? 0)) eqn:Hnd; [by left|].
    right. split; [done|].
    apply orb_false_iff in Hnd as [Hn Hd]. apply Z.eqb_neq in Hn, Hd.
    destruct Hdeg as [?|[?|?]]; done. }
  repeat split.
  - intros id w <-. unfold PieCustom.Clay_PieChart_Render.
    destruct Hcase as [->|(-> & total & -> & Hle)]; [done|].
    simpl. by rewrite Hle.
  - intros clock id width height seed. unfold PieLayout.Clay_PieChart_Render.
    destruct Hcase as [->|(-> & total & -> & Hle)]; [done|].
    simpl. by rewrite Hle.
  - unfold PieLayout.Clay_PieChart_Draw, no_data_log.
    destruct Hcase as [->|(-> & total & -> & Hle)]; [done|].
    simpl. by rewrite Hle.
  - apply no_data_log_not_drawable.
  - intros cmd created w Hcmd Hcfg Hstored.
    unfold PieCustom.Clay_PieChart_PrepareTexture. rewrite Hcmd, Hcfg.
    destruct (negb _); [done|].
    assert ((dataCount cfg =? 0) || (data cfg =? 0)
            || F32.leb (PieCustom.totalValue (PieCustom.elementDataStorage w))
                 F32.zero = true) as ->; [|done].
    rewrite !orb_true_iff, !Z.eqb_eq. tauto.
Qed.

End NothingToRender.

(** The default config has neither data nor a data pointer. *)
Lemma C3_witness_default_config :
  PieCustom.Clay_PieChart_Render "pie" Pie.Clay_PieChart_DefaultConfig
    Sample.cached_128 = Some (Sample.cached_128, [])
  ∧ PieLayout.Clay_PieChart_Draw (H := sample_externals) Sample.mem 0 "pie"
      Pie.Clay_PieChart_DefaultConfig [] 0
    = Some (0, [EvStderr (LogNoData 0 0)]).
Proof.
  destruct (C3_nothing_to_render_is_skipped (E := sample_externals)
              Sample.mem Pie.Clay_PieChart_DefaultConfig)
    as (Hrender & _ & Hdraw & _).
  - left. reflexivity.
  - split.
    + apply Hrender. by_running.
    + exact (proj1 (Hdraw 0 "pie"%string [] 0)).
Defined.

(** C3 as stated fails: handed the default config (no data),
    [Clay_PieChart_Draw] does not stay silent but writes
    "PieChart: No data" to [stderr]. *)
Lemma C3_counterexample_draw_logs :
  Degenerate.nothing_to_render Sample.mem Pie.Clay_PieChart_DefaultConfig
  ∧ ∃ seed evs,
      PieLayout.Clay_PieChart_Draw (H := sample_externals) Sample.mem 0 "pie"
        Pie.Clay_PieChart_DefaultConfig [] 0 = Some (seed, evs)
      ∧ EvStderr (LogNoData 0 0) ∈ evs.
Proof.
  split; [left; reflexivity|].
  exists 0, [EvStderr (LogNoData 0 0)].
  split; [by_running|]. apply list_elem_of_singleton. reflexivity.
Qed.
(* ===================================================================== *)
(** * Sweep angles                                                        *)
(* ===================================================================== *)

Section SweepAngles.
Import Pie Sweep.
Context {E : Externals}.

(** Whatever else a segment draws, it draws exactly one sector or ring, from
    its start angle over its sweep. *)
Lemma RenderSegment_angles m clock d index cx cy start sw cfg isLast seed drawn seed' :
  Clay_PieChart__RenderSegment m clock d index cx cy start sw cfg isLast seed
    = Some (drawn, seed') →
  sector_angles drawn = [(start, F32.add start sw)].
Proof.
  unfold Clay_PieChart__RenderSegment.
  destruct (if exploded d then _ else _) as [offsetX offsetY].
  destruct (Clay_PieChart__GetSegmentColor _ _ _ _ _) as [[c s]|]; [|done].
  simpl. destruct (to_raylib_color c) as [rc|]; [|done]. simpl.
  destruct (showSectorLines cfg && negb isLast).
  - destruct (to_raylib_color (sectorLineColor cfg)) as [lc|]; [|done].
    simpl. intros [= <- <-]. by destruct (F32.ltb _ _).
  - intros [= <- <-]. by destruct (F32.ltb _ _).
Qed.

Lemma sector_angles_app cmds cmds' :
  sector_angles (cmds ++ cmds') = sector_angles cmds ++ sector_angles cmds'.
Proof. apply omap_app. Qed.

Lemma read_data_lookup m p arr i :
  p ≠ 0 → data_arrays m !! p = Some arr →
  read_data m p i = arr !! Z.to_nat i.
Proof.
  intros Hp Harr. unfold read_data.
  apply Z.eqb_neq in Hp. by rewrite Hp, Harr.
Qed.

(** The loop from index [i] on, over the rest of the array. *)
Lemma segment_loop_schedule m clock cfg total cx cy arr count i cur seed acc
    endA seed' cmds :
  data cfg ≠ 0 →
  data_arrays m !! data cfg = Some arr →
  0 ≤ i →
  for_up count i
    (λ i '(currentAngleDeg, seed, cmds),
       d ← read_data m (data cfg) i;
       let sweepAngleDeg :=
         F32.mul (F32.div (value d) total) (F32.of_Z 360) in
       '(drawn, seed) ← Clay_PieChart__RenderSegment m clock d i
          cx cy currentAngleDeg sweepAngleDeg cfg
          (i =? wrap32 (dataCount cfg - 1)) seed;
       Some (F32.add currentAngleDeg sweepAngleDeg, seed, cmds ++ drawn))
    (cur, seed, acc) = Some (endA, seed', cmds) →
  let values := value <$> take count (drop (Z.to_nat i) arr) in
  sector_angles cmds
  = sector_angles acc
    ++ ((λ '(start, sw), (start, F32.add start sw)) <$> schedule values total cur)
  ∧ endA = end_angle values total cur
  ∧ length values = count.
Proof.
  intros Hp Harr. revert i cur seed acc.
  induction count as [|k IH]; intros i cur seed acc Hi; cbn [for_up].
  - intros [= <- <- <-]. simpl. by rewrite app_nil_r.
  - rewrite (read_data_lookup _ _ _ _ Hp Harr).
    destruct (arr !! Z.to_nat i) as [d|] eqn:Hd; [|done].
    cbn [mbind option_bind]. cbv zeta.
    destruct (Clay_PieChart__RenderSegment _ _ _ _ _ _ _ _ _ _ _)
      as [[drawn s1]|] eqn:Hseg; [|done].
    cbn [mbind option_bind]. intros Hloop.
    apply IH in Hloop as (Hang & Hend & Hlen); [|lia].
    replace (Z.to_nat (i + 1)) with (S (Z.to_nat i)) in * by lia.
    rewrite (drop_S _ _ _ Hd). cbn [take fmap list_fmap schedule end_angle fold_left length].
    rewrite Hang, sector_angles_app,
      (RenderSegment_angles _ _ _ _ _ _ _ _ _ _ _ _ _ Hseg).
    rewrite <- app_assoc. split; [done|]. split; [exact Hend|].
    by rewrite Hlen.
Qed.

(** C6, amended: in the segment loop of [Clay_PieChart_PrepareTexture] and
    [Clay_PieChart_Draw], segment i is drawn over the sweep
    (value_i / total) * 360 as computed in binary32 (one rounding per
    operation), and the segments are laid out one after the other from the
    configured start angle, each starting where the previous one ends.  For
    the data 30 / 50 / 20 the total is 100 and the sweeps are
    108.00000762939453 (one unit in the last place above 108), 180 and 72;
    laid out from -90 degrees they end at 270 degrees, and from 0 degrees at
    360 degrees. *)
Theorem C6_segments_swept_in_sequence :
  (∀ m clock cfg total cx cy seed arr endA seed' cmds,
     data cfg ≠ 0 →
     data_arrays m !! data cfg = Some arr →
     render_segments m clock cfg total cx cy seed = Some (endA, seed', cmds) →
     let values := value <$> take (Z.to_nat (dataCount cfg)) arr in
     sector_angles cmds
     = (λ '(start, sw), (start, F32.add start sw))
         <$> schedule values total (startAngle cfg)
     ∧ endA = end_angle values total (startAngle cfg)
     ∧ length values = Z.to_nat (dataCount cfg))
  ∧ Clay_PieChart__CalculateTotalValue Sample.mem Sample.chart
    = Some (F32.of_Z 100)
  ∧ schedule (F32.of_Z <$> [30; 50; 20]) (F32.of_Z 100) (F32.of_Z (-90))
    = [(F32.of_Z (-90), F32.lit 14155777 (-17));
       (F32.lit 9437188 (-19), F32.of_Z 180);
       (F32.of_Z 198, F32.of_Z 72)]
  ∧ end_angle (F32.of_Z <$> [30; 50; 20]) (F32.of_Z 100) (F32.of_Z (-90))
    = F32.of_Z 270
  ∧ end_angle (F32.of_Z <$> [30; 50; 20]) (F32.of_Z 100) (F32.of_Z 0)
    = F32.of_Z 360.
Proof.
  split.
  - intros m clock cfg total cx cy seed arr endA seed' cmds Hp Harr Hloop.
    unfold render_segments in Hloop.
    apply (segment_loop_schedule _ _ _ _ _ _ arr) in Hloop; [|done..].
    simpl in Hloop. rewrite drop_0 in Hloop. exact Hloop.
  - repeat split; by_running.
Qed.

End SweepAngles.

(** The chart of the header's example, drawn from -90 degrees. *)
Lemma C6_witness_30_50_20 :
  ∃ endA seed cmds,
    Pie.render_segments (H := sample_externals) Sample.mem 0 Sample.chart
      (F32.of_Z 100) F32.zero F32.zero 0 = Some (endA, seed, cmds)
    ∧ Sweep.sector_angles cmds
      = [(F32.of_Z (-90), F32.lit 9437188 (-19));
         (F32.lit 9437188 (-19), F32.of_Z 198);
         (F32.of_Z 198, F32.of_Z 270)]
    ∧ endA = F32.of_Z 270.
Proof.
  destruct (Pie.render_segments _ _ _ _ _ _ _) as [[[endA seed] cmds]|] eqn:Hrun;
    [|vm_compute in Hrun; discriminate].
  exists endA, seed, cmds. split; [reflexivity|].
  destruct (proj1 (C6_segments_swept_in_sequence (E := sample_externals))
              Sample.mem 0 Sample.chart (F32.of_Z 100) F32.zero F32.zero 0
              Sample.three_points endA seed cmds)
    as (Hangles & Hend & _).
  - discriminate.
  - by_running.
  - exact Hrun.
  - split.
    + rewrite Hangles. by_running.
    + rewrite Hend. by_running.
Defined.

(** C6 as stated fails on binary32.  For 30 / 50 / 20 laid out from 0
    degrees the first sector ends at 108.00000762939453, not at 108; and the
    sweeps of seven equal shares add up to 360.00006103515625, not to 360. *)
Lemma C6_counterexample_rounding :
  (∃ endA seed cmds,
     Pie.render_segments (H := sample_externals) Sample.mem 0
       (Sample.with_startAngle Sample.chart F32.zero)
       (F32.of_Z 100) F32.zero F32.zero 0 = Some (endA, seed, cmds)
     ∧ Sweep.sector_angles cmds !! 0%nat
       = Some (F32.zero, F32.lit 14155777 (-17))
     ∧ F32.lit 14155777 (-17) ≠ F32.of_Z 108)
  ∧ Pie.Clay_PieChart__CalculateTotalValue Sample.mem
      (Sample.with_data Sample.chart 8192 7) = Some (F32.of_Z 7)
  ∧ ∃ endA seed cmds,
      Pie.render_segments (H := sample_externals) Sample.mem 0
        (Sample.with_data (Sample.with_startAngle Sample.chart F32.zero) 8192 7)
        (F32.of_Z 7) F32.zero F32.zero 0 = Some (endA, seed, cmds)
      ∧ endA = F32.lit 11796482 (-15)
      ∧ endA ≠ F32.of_Z 360.
Proof.
  split; [|split].
  - eexists _, _, _. split; [by_running|].
    split; [by_running|]. by_running.
  - by_running.
  - eexists _, _, _. split; [by_running|].
    split; [by_running|]. by_running.
Qed.
(* ===================================================================== *)
(** * Binary32 facts the colour gradient rests on                         *)
(* ===================================================================== *)

Section Rounding.

Lemma div_eucl_shift (m : positive) :
  Z.div_eucl (Z.shiftl (Z.pos m) 24) (Z.pos m) = (2 ^ 24, 0).
Proof.
  rewrite Z.shiftl_mul_pow2 by lia.
  assert (Z.div_eucl (Z.pos m * 2 ^ 24) (Z.pos m)
          = ((Z.pos m * 2 ^ 24) / Z.pos m, (Z.pos m * 2 ^ 24) mod Z.pos m)) as ->.
  { unfold Z.div, Z.modulo. by destruct (Z.div_eucl _ _). }
  rewrite (Z.mul_comm (Z.pos m)), Z.div_mul, Z.mod_mul by lia. done.
Qed.

Lemma F32_div_self s m e :
  F32.div (S754_finite s m e) (S754_finite s m e) = F32.one.
Proof.
  unfold F32.div, SFdiv, SFdiv_core_binary.
  replace (Zdigits2 (Z.pos m) + e - (Zdigits2 (Z.pos m) + e)) with 0 by lia.
  rewrite Z.sub_diag.
  change (Z.min (fexp F32.prec F32.emax 0) 0) with (-24).
  change (0 - -24) with 24.
  cbv beta iota zeta. rewrite div_eucl_shift.
  assert (new_location (Z.pos m) 0 = loc_Exact) as ->.
  { unfold new_location, new_location_even, new_location_odd.
    by destruct (Z.even _). }
  destruct s; by_running.
Qed.

(** Number of binary digits. *)
Lemma digits2_pos_succ_bound (p : positive) :
  2 ^ (Z.pos (digits2_pos p) - 1) ≤ Z.pos p < 2 ^ Z.pos (digits2_pos p).
Proof.
  induction p as [p IH|p IH|]; cbn [digits2_pos].
  - rewrite Pos2Z.inj_succ. replace (Z.succ (Z.pos (digits2_pos p)) - 1) with (Z.succ (Z.pos (digits2_pos p) - 1)) by lia.
    rewrite !Z.pow_succ_r by lia. lia.
  - rewrite Pos2Z.inj_succ. replace (Z.succ (Z.pos (digits2_pos p)) - 1) with (Z.succ (Z.pos (digits2_pos p) - 1)) by lia.
    rewrite !Z.pow_succ_r by lia. lia.
  - simpl. lia.
Qed.

Lemma Zdigits2_bound (z : Z) :
  0 < z → 2 ^ (Zdigits2 z - 1) ≤ z < 2 ^ Zdigits2 z.
Proof. destruct z; try lia. intros _. apply digits2_pos_succ_bound. Qed.

Lemma Zdigits2_nonneg z : 0 ≤ Zdigits2 z.
Proof. destruct z; simpl; lia. Qed.

(** The digit count is determined by the bracket of powers of two. *)
Lemma Zdigits2_unique (z d : Z) :
  0 < d → 2 ^ (d - 1) ≤ z < 2 ^ d → Zdigits2 z = d.
Proof.
  intros Hd Hz. assert (0 < z) as Hpos by (pose proof (Z.pow_pos_nonneg 2 (d - 1)); lia).
  pose proof (Zdigits2_bound z Hpos) as Hb.
  pose proof (Zdigits2_nonneg z).
  destruct (Z.lt_trichotomy (Zdigits2 z) d) as [Hlt|[Heq|Hgt]]; [|done|].
  - assert (2 ^ Zdigits2 z ≤ 2 ^ (d - 1)) by (apply Z.pow_le_mono_r; lia). lia.
  - assert (2 ^ d ≤ 2 ^ (Zdigits2 z - 1)) by (apply Z.pow_le_mono_r; lia). lia.
Qed.

Lemma shr_1_m (s : shr_record) : 0 ≤ shr_m s → shr_m (shr_1 s) = shr_m s / 2.
Proof.
  destruct s as [m r t]. simpl. intros Hm.
  destruct m as [|p|p]; [done| |lia].
  destruct p; simpl.
  - rewrite Pos2Z.inj_xI. apply Z.div_unique with 1; lia.
  - rewrite Pos2Z.inj_xO. apply Z.div_unique with 0; lia.
  - done.
Qed.

Lemma iter_pos_shr_m (n : positive) (s : shr_record) :
  0 ≤ shr_m s → shr_m (SpecFloat.iter_pos shr_1 n s) = shr_m s / 2 ^ Z.pos n.
Proof.
  revert s. induction n as [n IH|n IH|]; intros s Hs; cbn [SpecFloat.iter_pos].
  - assert (0 ≤ shr_m (shr_1 s)) as H1
      by (rewrite shr_1_m by done; apply Z.div_pos; lia).
    assert (0 ≤ shr_m (SpecFloat.iter_pos shr_1 n (shr_1 s))) as H2
      by (rewrite IH by done; apply Z.div_pos; lia).
    rewrite IH, IH, shr_1_m by done.
    rewrite !Z.div_div by lia. f_equal.
    replace (Z.pos n~1) with (1 + Z.pos n + Z.pos n) by lia.
    rewrite !Z.pow_add_r by lia. lia.
  - assert (0 ≤ shr_m (SpecFloat.iter_pos shr_1 n s)) as H2
      by (rewrite IH by done; apply Z.div_pos; lia).
    rewrite IH, IH by done.
    rewrite !Z.div_div by lia. f_equal.
    replace (Z.pos n~0) with (Z.pos n + Z.pos n) by lia.
    rewrite !Z.pow_add_r by lia. lia.
  - rewrite shr_1_m by done. done.
Qed.

(** Shifting a mantissa of [d > n] digits right by [n] leaves [d - n]. *)
Lemma Zdigits2_div_pow2 (z : Z) (n : Z) :
  0 < z → 0 ≤ n < Zdigits2 z → Zdigits2 (z / 2 ^ n) = Zdigits2 z - n.
Proof.
  intros Hz Hn. pose proof (Zdigits2_bound z Hz) as [Hlo Hhi].
  apply Zdigits2_unique; [lia|].
  assert (0 < 2 ^ n) by (apply Z.pow_pos_nonneg; lia).
  split.
  - apply Z.div_le_lower_bound; [lia|].
    rewrite <- Z.pow_add_r by lia. replace (n + (Zdigits2 z - n - 1)) with (Zdigits2 z - 1) by lia. done.
  - apply Z.div_lt_upper_bound; [lia|].
    rewrite <- Z.pow_add_r by lia. replace (n + (Zdigits2 z - n)) with (Zdigits2 z) by lia. done.
Qed.

Lemma round_nearest_even_range (m : Z) (l : location) :
  m ≤ round_nearest_even m l ≤ m + 1.
Proof.
  unfold round_nearest_even. destruct l as [|[| |]]; try lia.
  destruct (Z.even m); lia.
Qed.

(** Rounding up by one adds at most one digit. *)
Lemma Zdigits2_round (m r : Z) :
  0 < m → m ≤ r ≤ m + 1 → Zdigits2 m ≤ Zdigits2 r ≤ Zdigits2 m + 1.
Proof.
  intros Hm Hr. pose proof (Zdigits2_bound m Hm) as [Hlo Hhi].
  assert (0 < r) as Hrpos by lia.
  pose proof (Zdigits2_bound r Hrpos) as [Hlo' Hhi'].
  pose proof (Zdigits2_nonneg m). pose proof (Zdigits2_nonneg r).
  split.
  - destruct (Z.le_gt_cases (Zdigits2 m) (Zdigits2 r)) as [|Hlt]; [done|].
    assert (2 ^ Zdigits2 r ≤ 2 ^ (Zdigits2 m - 1)) by (apply Z.pow_le_mono_r; lia). lia.
  - destruct (Z.le_gt_cases (Zdigits2 r) (Zdigits2 m + 1)) as [|Hlt]; [done|].
    assert (2 ^ (Zdigits2 m + 1) ≤ 2 ^ (Zdigits2 r - 1)) by (apply Z.pow_le_mono_r; lia).
    rewrite Z.pow_add_r in * by lia. lia.
Qed.

Lemma Zdigits2_positive z : 0 ≤ z → 0 < Zdigits2 z → 0 < z.
Proof. destruct z; simpl; lia. Qed.

(** The normalising shift of a mantissa with at least 24 digits, away from
    the subnormal range: the mantissa loses its digits beyond the 24th. *)
Lemma shr_fexp_spec (m e : Z) (l : location) :
  0 < m → 24 ≤ Zdigits2 m → -149 ≤ e →
  shr_m (shr_fexp F32.prec F32.emax m e l).1 = m / 2 ^ (Zdigits2 m - 24)
  ∧ (shr_fexp F32.prec F32.emax m e l).2 = e + (Zdigits2 m - 24).
Proof.
  intros Hm Hd He. unfold shr_fexp, fexp, emin, F32.prec, F32.emax.
  rewrite Z.max_l by lia.
  replace (Zdigits2 m + e - 24 - e) with (Zdigits2 m - 24) by lia.
  assert (shr_m (shr_record_of_loc m l) = m) as Hrec
    by (by destruct l as [|[| |]]).
  destruct (Zdigits2 m - 24) as [|n|n] eqn:Hn; [| |lia]; cbn [shr fst snd].
  - rewrite Hrec, Z.div_1_r. split; [done|lia].
  - rewrite iter_pos_shr_m by (rewrite Hrec; lia). rewrite Hrec. done.
Qed.

(** Rounding a mantissa of at least 24 digits, neither in the subnormal
    range nor beyond the largest exponent, gives a finite number. *)
Lemma binary_round_aux_finite (sx : bool) (mx : positive) (ex : Z) :
  24 ≤ Z.pos (digits2_pos mx) → -149 ≤ ex →
  ex + Z.pos (digits2_pos mx) ≤ 127 →
  ∃ m e, binary_round_aux F32.prec F32.emax sx (Z.pos mx) ex loc_Exact
         = S754_finite sx m e.
Proof.
  intros Hd Hex Hmax. unfold binary_round_aux.
  destruct (shr_fexp_spec (Z.pos mx) ex loc_Exact ltac:(lia) Hd Hex)
    as [Hm1 He1].
  destruct (shr_fexp F32.prec F32.emax (Z.pos mx) ex loc_Exact)
    as [mrs1 e1]. cbn [fst snd] in Hm1, He1.
  change (Zdigits2 (Z.pos mx)) with (Z.pos (digits2_pos mx)) in *.
  assert (Zdigits2 (shr_m mrs1) = 24) as Hd1.
  { rewrite Hm1.
    change (Z.pos (digits2_pos mx)) with (Zdigits2 (Z.pos mx)).
    rewrite Zdigits2_div_pow2; simpl; lia. }
  assert (0 < shr_m mrs1) as Hpos1.
  { apply Zdigits2_positive; [|lia]. rewrite Hm1. apply Z.div_pos; lia. }
  set (m1 := round_nearest_even (shr_m mrs1) (loc_of_shr_record mrs1)).
  pose proof (round_nearest_even_range (shr_m mrs1) (loc_of_shr_record mrs1))
    as Hround. fold m1 in Hround.
  pose proof (Zdigits2_round _ _ Hpos1 Hround) as Hdm1.
  destruct (shr_fexp_spec m1 e1 loc_Exact ltac:(lia) ltac:(lia) ltac:(lia))
    as [Hm2 He2].
  destruct (shr_fexp F32.prec F32.emax m1 e1 loc_Exact) as [mrs2 e2].
  cbn [fst snd] in Hm2, He2.
  assert (Zdigits2 (shr_m mrs2) = 24) as Hd2.
  { rewrite Hm2, Zdigits2_div_pow2; lia. }
  assert (0 < shr_m mrs2) as Hpos2.
  { apply Zdigits2_positive; [|lia]. rewrite Hm2. apply Z.div_pos; lia. }
  destruct (shr_m mrs2) as [|m2|m2]; [lia| |lia].
  assert ((e2 <=? F32.emax - F32.prec) = true) as ->.
  { apply Z.leb_le. unfold F32.emax, F32.prec. lia. }
  by exists m2, e2.
Qed.

Lemma digits2_pos_shift (p n : positive) :
  Z.pos (digits2_pos (Pos.iter xO p n))
  = Z.pos (digits2_pos p) + Z.pos n.
Proof.
  induction n as [|n IH] using Pos.peano_ind.
  - simpl. lia.
  - rewrite Pos.iter_succ. cbn [digits2_pos]. lia.
Qed.

(** Every [uint32_t] other than 0 converts to a finite positive float. *)
Lemma F32_of_Z_finite (k : Z) :
  1 ≤ k < 2 ^ 32 → ∃ m e, F32.of_Z k = S754_finite false m e.
Proof.
  intros Hk. destruct k as [|p|p]; [lia| |lia].
  unfold F32.of_Z, binary_normalize, binary_round.
  pose proof (digits2_pos_succ_bound p) as [Hlo Hhi].
  assert (Z.pos (digits2_pos p) ≤ 32) as Hd32.
  { destruct (Z.le_gt_cases (Z.pos (digits2_pos p)) 32) as [|Hgt]; [done|].
    assert (2 ^ 32 ≤ 2 ^ (Z.pos (digits2_pos p) - 1))
      by (apply Z.pow_le_mono_r; lia). lia. }
  unfold shl_align, fexp, emin, F32.prec, F32.emax.
  rewrite Z.max_l by lia.
  replace (Z.pos (digits2_pos p) + 0 - 24 - 0)
    with (Z.pos (digits2_pos p) - 24) by lia.
  destruct (Z.pos (digits2_pos p) - 24) as [|n|n] eqn:Hn.
  - apply binary_round_aux_finite; lia.
  - apply binary_round_aux_finite; lia.
  - replace (Z.pos (digits2_pos p) + 0 - 24) with (Z.neg n) by lia.
    apply binary_round_aux_finite; rewrite ?digits2_pos_shift; lia.
Qed.

End Rounding.
(* ===================================================================== *)
(** * Colour modes                                                        *)
(* ===================================================================== *)

Section RandomColours.
Import Pie Colours.
Context {E : Externals}.

(** In random mode the colour handed out does not depend on the index asked
    for, only on the function's static seed (and, while that is still 0, on
    the configured seed or the clock). *)
Lemma random_color_ignores_index m clock cfg cfg_seed i j seed :
  colorMode cfg = CLAY_PIECHART_COLOR_MODE_RANDOM →
  colorConfig cfg = Random cfg_seed →
  Clay_PieChart__GetSegmentColor m clock cfg i seed
  = Clay_PieChart__GetSegmentColor m clock cfg j seed.
Proof.
  intros Hmode Hcc. unfold Clay_PieChart__GetSegmentColor.
  rewrite Hmode, Hcc. reflexivity.
Qed.

(** C7 fails on the code.  With the seed 12345 configured, the colour of a
    segment is not a function of seed and index: the generator's state is a
    function-local static that every request advances, so the same chart
    rendered twice gets other colours the second time (218/206/196,
    231/227/104, 200/216/221, then 177/142/166, 246/228/179, 111/238/233),
    and two requests for bar 0 of the same bar chart return different
    colours. *)
Theorem C7_random_colors_follow_call_history :
  (∃ end1 first end2 second,
     render_segments Sample.mem 0 Sample.random_chart (F32.of_Z 100)
       F32.zero F32.zero 0 = Some (end1, 1449466924, first)
     ∧ sector_colors first
       = [mkRayColor 218 206 196 255; mkRayColor 231 227 104 255;
          mkRayColor 200 216 221 255]
     ∧ render_segments Sample.mem 0 Sample.random_chart (F32.of_Z 100)
         F32.zero F32.zero 1449466924 = Some (end2, 1051550459, second)
     ∧ sector_colors second
       = [mkRayColor 177 142 166 255; mkRayColor 246 228 179 255;
          mkRayColor 111 238 233 255])
  ∧ Clay_PieChart__GetSegmentColor Sample.mem 0 Sample.random_chart 0 0
    = Some (rgba 218 206 196 255, 1406932606)
  ∧ Clay_PieChart__GetSegmentColor Sample.mem 0 Sample.random_chart 0 1406932606
    = Some (rgba 231 227 104 255, 654583775)
  ∧ Bar.Clay_BarChart__GetBarColor Sample.bar_mem 0 Sample.random_bars 0 0
    = Some (rgba 218 206 196 255, 1406932606)
  ∧ Bar.Clay_BarChart__GetBarColor Sample.bar_mem 0 Sample.random_bars 0 1406932606
    = Some (rgba 231 227 104 255, 654583775).
Proof.
  split.
  - eexists _, _, _, _.
    split; [by_running|]. split; [by_running|].
    split; by_running.
  - repeat split; by_running.
Qed.

End RandomColours.

Section Gradient.
Import Pie Colours.

Lemma same_float_eq u v : same_float u v = true → u = v.
Proof.
  destruct u as [s|s| |s m e], v as [s'|s'| |s' m' e']; simpl; try done.
  - intros H. apply Bool.eqb_prop in H. by subst.
  - intros H. apply Bool.eqb_prop in H. by subst.
  - rewrite !andb_true_iff. intros [[Hs Hm] He].
    apply Bool.eqb_prop in Hs. apply Pos.eqb_eq in Hm. apply Z.eqb_eq in He.
    by subst.
Qed.

(** All 65536 pairs of channel values, by computation. *)
Lemma all_endpoints_exact :
  forallb (λ s, forallb (endpoints_exact s) channel_values) channel_values
  = true.
Proof. by_running. Qed.

Lemma channel_value_in (c : Z) : 0 ≤ c ≤ 255 → In c channel_values.
Proof.
  intros Hc. unfold channel_values.
  replace c with (Z.of_nat (Z.to_nat c)) by lia.
  apply in_map, in_seq. lia.
Qed.

Lemma lerp_endpoints (s e : Z) :
  0 ≤ s ≤ 255 → 0 ≤ e ≤ 255 →
  lerp (F32.of_Z s) (F32.of_Z e) F32.zero = F32.of_Z s
  ∧ lerp (F32.of_Z s) (F32.of_Z e) F32.one = F32.of_Z e.
Proof.
  intros Hs He.
  pose proof all_endpoints_exact as Hall.
  rewrite forallb_forall in Hall.
  specialize (Hall s (channel_value_in s Hs)).
  rewrite forallb_forall in Hall.
  specialize (Hall e (channel_value_in e He)).
  unfold endpoints_exact in Hall. apply andb_true_iff in Hall as [H0 H1].
  split; by apply same_float_eq.
Qed.

Lemma LerpColor_endpoints (start end_ : Clay_Color) :
  eight_bit start → eight_bit end_ →
  Clay_PieChart__LerpColor start end_ F32.zero = start
  ∧ Clay_PieChart__LerpColor start end_ F32.one = end_.
Proof.
  intros (sr & sg & sb & sa & -> & Hsr & Hsg & Hsb & Hsa)
         (er & eg & eb & ea & -> & Her & Heg & Heb & Hea).
  unfold Clay_PieChart__LerpColor, rgba. cbn [r g b a].
  destruct (lerp_endpoints sr er Hsr Her) as [-> ->].
  destruct (lerp_endpoints sg eg Hsg Heg) as [-> ->].
  destruct (lerp_endpoints sb eb Hsb Heb) as [-> ->].
  destruct (lerp_endpoints sa ea Hsa Hea) as [-> ->].
  done.
Qed.

Lemma gradient_t_ends (n : Z) :
  1 < n < 2 ^ 32 →
  gradient_t n 0 = F32.zero ∧ gradient_t n (n - 1) = F32.one.
Proof.
  intros Hn. unfold gradient_t.
  assert ((1 <? n) = true) as -> by (apply Z.ltb_lt; lia).
  destruct (F32_of_Z_finite (n - 1)) as (m & e & ->); [lia|].
  split; [reflexivity|apply F32_div_self].
Qed.

(** C9, amended: in gradient mode the colour helpers of both charts never
    fail and never divide by zero: the colour of item [index] is the
    interpolation between the two gradient colours at t = 0 when there is
    at most one item, and at t = index / (dataCount - 1), a division by at
    least 1, otherwise; t is exactly 0 at index 0 and exactly 1 at index
    dataCount - 1.  When the channels of both gradient colours are whole
    numbers from 0 to 255, the interpolation at 0 is exactly the start
    colour and at 1 exactly the end colour, so a single item and the first
    of several get the start colour and the last of several gets the end
    colour.  (For other channel values the interpolation
    start + (end - start) * t is rounded and need not hit the end colour.) *)
Theorem C9_gradient_endpoints :
  (∀ m clock cfg start end_ index seed,
     colorMode cfg = CLAY_PIECHART_COLOR_MODE_GRADIENT →
     colorConfig cfg = Gradient start end_ →
     Clay_PieChart__GetSegmentColor m clock cfg index seed
     = Some (Clay_PieChart__LerpColor start end_
               (gradient_t (dataCount cfg) index), seed))
  ∧ (∀ m clock cfg start end_ index seed,
       Bar.colorMode cfg = Bar.CLAY_BARCHART_COLOR_MODE_GRADIENT →
       Bar.colorConfig cfg = Bar.Gradient start end_ →
       Bar.Clay_BarChart__GetBarColor m clock cfg index seed
       = Some (Bar.Clay_BarChart__LerpColor start end_
                 (Bar.gradient_t (Bar.dataCount cfg) index), seed))
  ∧ Bar.gradient_t = gradient_t
  ∧ Bar.Clay_BarChart__LerpColor = Clay_PieChart__LerpColor
  ∧ (∀ n index, n ≤ 1 → gradient_t n index = F32.zero)
  ∧ (∀ n index, 1 < n →
       gradient_t n index = F32.div (F32.of_Z index) (F32.of_Z (n - 1)))
  ∧ (∀ n, 1 < n < 2 ^ 32 →
       gradient_t n 0 = F32.zero ∧ gradient_t n (n - 1) = F32.one)
  ∧ (∀ start end_, eight_bit start → eight_bit end_ →
       Clay_PieChart__LerpColor start end_ F32.zero = start
       ∧ Clay_PieChart__LerpColor start end_ F32.one = end_).
Proof.
  split; [|split; [|split; [|split; [|split; [|split; [|split]]]]]].
  - intros m clock cfg start end_ index seed Hmode Hcc.
    unfold Clay_PieChart__GetSegmentColor. by rewrite Hmode, Hcc.
  - intros m clock cfg start end_ index seed Hmode Hcc.
    unfold Bar.Clay_BarChart__GetBarColor. by rewrite Hmode, Hcc.
  - reflexivity.
  - reflexivity.
  - intros n index Hn. unfold gradient_t.
    by assert ((1 <? n) = false) as -> by (apply Z.ltb_ge; lia).
  - intros n index Hn. unfold gradient_t.
    by assert ((1 <? n) = true) as -> by (apply Z.ltb_lt; lia).
  - apply gradient_t_ends.
  - apply LerpColor_endpoints.
Qed.

End Gradient.

(** The default gradient over three segments: the first is drawn in the
    start colour, the last in the end colour. *)
Lemma C9_witness_default_gradient :
  Pie.Clay_PieChart__GetSegmentColor Sample.mem 0 Sample.gradient_chart 0 0
  = Some (rgba 100 150 250 255, 0)
  ∧ Pie.Clay_PieChart__GetSegmentColor Sample.mem 0 Sample.gradient_chart 2 0
    = Some (rgba 250 100 150 255, 0).
Proof.
  destruct C9_gradient_endpoints
    as (Hcolor & _ & _ & _ & _ & _ & Hends & Hlerp).
  destruct (Hends 3) as [Hfirst Hlast]; [lia|].
  destruct (Hlerp (rgba 100 150 250 255) (rgba 250 100 150 255))
    as [Hstart Hend].
  - exists 100, 150, 250, 255. repeat split; lia.
  - exists 250, 100, 150, 255. repeat split; lia.
  - split.
    + rewrite (Hcolor _ _ _ (rgba 100 150 250 255) (rgba 250 100 150 255))
        by reflexivity.
      change (Pie.dataCount Sample.gradient_chart) with 3.
      by rewrite Hfirst, Hstart.
    + rewrite (Hcolor _ _ _ (rgba 100 150 250 255) (rgba 250 100 150 255))
        by reflexivity.
      change (Pie.dataCount Sample.gradient_chart) with 3.
      change 2 with (3 - 1) at 1.
      by rewrite Hlast, Hend.
Defined.

(** C9 as stated fails on binary32: between opaque white and white at
    alpha one tenth (channels from 0 to 1), the last of three segments is
    not drawn in the end colour; its alpha is 0.100000024 rather than
    0.1f. *)
Lemma C9_counterexample_fractional_alpha :
  ∃ c,
    Pie.Clay_PieChart__GetSegmentColor Sample.mem 0 Sample.fading_chart 2 0
    = Some (c, 0)
    ∧ a c = F32.lit 13421776 (-27)
    ∧ Sample.one_tenth = F32.lit 13421773 (-27)
    ∧ c ≠ mkColor F32.one F32.one F32.one Sample.one_tenth.
Proof.
  eexists. split; [by_running|].
  split; [by_running|]. split; [by_running|].
  by_running.
Qed.
(* ===================================================================== *)
(** * The config buffer of the bar chart                                  *)
(* ===================================================================== *)

Section ConfigRing.
Import Bar ConfigBuffer.

Lemma next_slot_range st :
  0 ≤ Clay__BarChartConfigIndex st → 0 ≤ next_slot st ≤ 31.
Proof. unfold next_slot. intros. destruct (Z.leb_spec 32 (Clay__BarChartConfigIndex st)); lia. Qed.

Lemma store_index config st :
  0 ≤ Clay__BarChartConfigIndex st →
  Clay__BarChartConfigIndex (Clay__StoreBarChartConfig config st).2
  = next_slot st + 1.
Proof.
  intros Hidx. pose proof (next_slot_range st Hidx).
  unfold Clay__StoreBarChartConfig. simpl. fold (next_slot st).
  unfold wrap32. apply Z.mod_small. lia.
Qed.

Lemma store_all_cons config rest st :
  (store_all (config :: rest) st).1
  = next_slot st :: (store_all rest (Clay__StoreBarChartConfig config st).2).1.
Proof.
  cbn [store_all]. unfold Clay__StoreBarChartConfig at 1. fold (next_slot st).
  cbn [snd]. unfold Clay__StoreBarChartConfig. fold (next_slot st).
  by destruct (store_all rest _).
Qed.

(** The k-th of a run of stores writes slot (first slot + k) mod 32. *)
Lemma store_all_slots configs st k :
  0 ≤ Clay__BarChartConfigIndex st →
  (k < length configs)%nat →
  (store_all configs st).1 !! k = Some ((next_slot st + Z.of_nat k) mod 32).
Proof.
  revert st k. induction configs as [|config rest IH]; intros st k Hidx Hk;
    simpl in Hk; [lia|].
  pose proof (next_slot_range st Hidx) as Hslot.
  pose proof (store_index config st Hidx) as Hnext.
  rewrite store_all_cons.
  destruct k as [|k]; cbn [lookup list_lookup].
  - f_equal. change (Z.of_nat 0) with 0. rewrite Z.add_0_r.
    symmetry. apply Z.mod_small. lia.
  - rewrite IH by lia. f_equal.
    unfold next_slot at 1. rewrite Hnext.
    destruct (Z.leb_spec 32 (next_slot st + 1)).
    + replace (next_slot st) with 31 by lia.
      replace (31 + Z.of_nat (S k)) with (0 + Z.of_nat k + 1 * 32) by lia.
      by rewrite Z.mod_add.
    + f_equal. lia.
Qed.

(** C10: [Clay__StoreBarChartConfig] writes the config, with the defaults
    filled in, into slot [index] of its 32-entry buffer, the index having
    been reset to 0 when it had reached 32, so always into a slot from 0 to
    31; it returns that slot, leaves the other slots alone and advances the
    index by one.  The defaults: font size 16, bar width 60 and bar gap 8
    where the field is zero; background 245/245/245/255 and label colour
    60/60/60/255 where red, green, blue and alpha all compare equal to
    zero, and the colour as given where one of the four channels does not.
    In a run of stores the k-th writes slot (first + k) mod 32, so calls n
    and n + 32 return the same slot: the later one overwrote the earlier. *)
Theorem C10_store_config_wraps_at_32
    (config : Clay_BarChart_Config) (st : ConfigStore)
    (configs : list Clay_BarChart_Config) (n : nat) :
  length (Clay__BarChartConfigBuffer st) = 32%nat →
  0 ≤ Clay__BarChartConfigIndex st →
  let slot := (Clay__StoreBarChartConfig config st).1 in
  let st' := (Clay__StoreBarChartConfig config st).2 in
  let channels_zero := λ c : Clay_Color,
    F32.eqb (r c) F32.zero = true ∧ F32.eqb (g c) F32.zero = true
    ∧ F32.eqb (b c) F32.zero = true ∧ F32.eqb (a c) F32.zero = true in
  (0 ≤ slot ≤ 31
   ∧ slot = (if 32 <=? Clay__BarChartConfigIndex st then 0
             else Clay__BarChartConfigIndex st)
   ∧ (∀ k, k ≠ Z.to_nat slot →
        Clay__BarChartConfigBuffer st' !! k = Clay__BarChartConfigBuffer st !! k)
   ∧ length (Clay__BarChartConfigBuffer st') = 32%nat
   ∧ Clay__BarChartConfigIndex st' = slot + 1)
  ∧ (∃ stored,
       Clay__BarChartConfigBuffer st' !! Z.to_nat slot = Some stored
       ∧ data stored = data config
       ∧ dataCount stored = dataCount config
       ∧ orientation stored = orientation config
       ∧ maxValue stored = maxValue config
       ∧ gridColor stored = gridColor config
       ∧ labelFontId stored = labelFontId config
       ∧ showGrid stored = showGrid config
       ∧ showLabels stored = showLabels config
       ∧ showValues stored = showValues config
       ∧ colorMode stored = colorMode config
       ∧ colorConfig stored = colorConfig config
       ∧ labelFontSize stored
         = (if labelFontSize config =? 0 then 16 else labelFontSize config)
       ∧ barWidth stored
         = (if F32.eqb (barWidth config) F32.zero then F32.of_Z 60
            else barWidth config)
       ∧ barGap stored
         = (if F32.eqb (barGap config) F32.zero then F32.of_Z 8
            else barGap config)
       ∧ (channels_zero (backgroundColor config) →
            backgroundColor stored = rgba 245 245 245 255)
       ∧ (¬ channels_zero (backgroundColor config) →
            backgroundColor stored = backgroundColor config)
       ∧ (channels_zero (labelTextColor config) →
            labelTextColor stored = rgba 60 60 60 255)
       ∧ (¬ channels_zero (labelTextColor config) →
            labelTextColor stored = labelTextColor config))
  ∧ ((n + 32 < length configs)%nat →
     (store_all configs st).1 !! n = (store_all configs st).1 !! (n + 32)%nat
     ∧ is_Some ((store_all configs st).1 !! n)).
Proof.
  intros Hlen Hidx. cbv zeta beta.
  pose proof (next_slot_range st Hidx) as Hslot.
  assert (∀ c : Clay_Color,
            all_zero c = true
            ↔ F32.eqb (r c) F32.zero = true ∧ F32.eqb (g c) F32.zero = true
              ∧ F32.eqb (b c) F32.zero = true ∧ F32.eqb (a c) F32.zero = true)
    as Hzero.
  { intros c. unfold all_zero. rewrite !andb_true_iff. tauto. }
  split; [|split].
  - unfold Clay__StoreBarChartConfig. simpl. fold (next_slot st).
    split; [done|]. split; [done|].
    split; [intros k Hk; by apply list_lookup_insert_ne|].
    split; [by rewrite length_insert|].
    unfold wrap32. apply Z.mod_small. lia.
  - exists (apply_defaults config).
    split.
    { unfold Clay__StoreBarChartConfig. simpl. fold (next_slot st).
      apply list_lookup_insert_eq. lia. }
    do 14 (split; [done|]).
    cbn [apply_defaults backgroundColor labelTextColor].
    split; [|split; [|split]].
    + intros Hunset. apply Hzero in Hunset. by rewrite Hunset.
    + intros Hset. destruct (all_zero (backgroundColor config)) eqn:Hall;
        [|done]. by apply Hzero in Hall.
    + intros Hunset. apply Hzero in Hunset. by rewrite Hunset.
    + intros Hset. destruct (all_zero (labelTextColor config)) eqn:Hall;
        [|done]. by apply Hzero in Hall.
  - intros Hn. rewrite !store_all_slots by (done || lia).
    split; [|done]. f_equal.
    replace (next_slot st + Z.of_nat (n + 32))
      with (next_slot st + Z.of_nat n + 1 * 32) by lia.
    by rewrite Z.mod_add.
Qed.

End ConfigRing.

(** Thirty-three configs stored in one frame: the last lands on the first.
    The config stored leaves font size and colours zero, so slot 0 holds it
    with font size 16, background 245/245/245/255 and label colour
    60/60/60/255; a config with a green background keeps its background. *)
Lemma C10_witness_33_stores :
  let configs := replicate 33 Sample.random_bars in
  (ConfigBuffer.store_all configs Sample.empty_store).1 !! 0%nat
  = (ConfigBuffer.store_all configs Sample.empty_store).1 !! 32%nat
  ∧ (ConfigBuffer.store_all configs Sample.empty_store).1 !! 32%nat = Some 0
  ∧ (∃ stored,
       Bar.Clay__BarChartConfigBuffer
         (Bar.Clay__StoreBarChartConfig Sample.random_bars Sample.empty_store).2
         !! 0%nat = Some stored
       ∧ Bar.labelFontSize stored = 16
       ∧ Bar.backgroundColor stored = rgba 245 245 245 255
       ∧ Bar.labelTextColor stored = rgba 60 60 60 255)
  ∧ (∃ stored,
       Bar.Clay__BarChartConfigBuffer
         (Bar.Clay__StoreBarChartConfig Inputs.green_bars Sample.empty_store).2
         !! 0%nat = Some stored
       ∧ Bar.backgroundColor stored = Inputs.green
       ∧ Bar.labelTextColor stored = rgba 60 60 60 255).
Proof.
  cbv zeta.
  destruct (C10_store_config_wraps_at_32 Sample.random_bars Sample.empty_store
              (replicate 33 Sample.random_bars) 0)
    as (_ & (stored & Hslot & Hfields) & Halias); [by_running|by_running|].
  destruct (C10_store_config_wraps_at_32 Inputs.green_bars Sample.empty_store
              [] 0)
    as (_ & (kept & Hslot' & Hfields') & _); [by_running|by_running|].
  cbv zeta beta in Hfields, Hfields'.
  destruct Hfields
    as (_ & _ & _ & _ & _ & _ & _ & _ & _ & _ & _ & Hfont & _ & _
        & Hback & _ & Hlabel & _).
  destruct Hfields'
    as (_ & _ & _ & _ & _ & _ & _ & _ & _ & _ & _ & _ & _ & _
        & _ & Hback' & Hlabel' & _).
  split; [apply Halias; vm_compute; lia|].
  split; [by_running|].
  split.
  - exists stored. split; [exact Hslot|].
    split; [rewrite Hfont; by_running|].
    split; [apply Hback | apply Hlabel]; repeat split; by_running.
  - exists kept. split; [exact Hslot'|].
    split; [apply Hback' | apply Hlabel'].
    + intros (_ & Hg & _). vm_compute in Hg. discriminate.
    + repeat split; by_running.
Defined.
(* ===================================================================== *)
(** * Loops over arrays as folds                                         *)
(* ===================================================================== *)

Section LoopsAsFolds.
Context {S D : Type}.

(** A loop that reads one array element per round and folds it into its
    state is a fold over the elements read. *)
Lemma for_up_fold (read : Z → option D) (f : S → D → S) count i s :
  for_up count i (λ j s, d ← read j; Some (f s d)) s
  = ds ← read_all read i count; Some (fold_left f ds s).
Proof.
  revert i s. induction count as [|k IH]; intros i s; simpl; [done|].
  destruct (read i) as [d|]; simpl; [|done].
  rewrite IH. by destruct (read_all read (i + 1) k).
Qed.

Lemma read_all_length (read : Z → option D) i count ds :
  read_all read i count = Some ds → length ds = count.
Proof.
  revert i ds. induction count as [|k IH]; intros i ds; simpl.
  - by intros [= <-].
  - destruct (read i) as [d|]; simpl; [|done].
    destruct (read_all read (i + 1) k) as [ds'|] eqn:Hrest; simpl; [|done].
    intros [= <-]. simpl. f_equal. by eapply IH.
Qed.

Lemma read_all_lookup (read : Z → option D) i count ds (k : nat) :
  read_all read i count = Some ds → (k < count)%nat →
  ds !! k = read (i + Z.of_nat k).
Proof.
  revert i ds k. induction count as [|n IH]; intros i ds k; simpl; [lia|].
  destruct (read i) as [d|] eqn:Hd; simpl; [|done].
  destruct (read_all read (i + 1) n) as [ds'|] eqn:Hrest; simpl; [|done].
  intros [= <-] Hk. destruct k as [|k]; simpl.
  - by rewrite Z.add_0_r.
  - rewrite (IH _ _ _ Hrest) by lia. f_equal. lia.
Qed.

Lemma read_all_is_Some (read : Z → option D) i count :
  (∀ j, i ≤ j < i + Z.of_nat count → is_Some (read j)) →
  is_Some (read_all read i count).
Proof.
  revert i. induction count as [|n IH]; intros i Hr; simpl; [by eexists|].
  destruct (Hr i) as [d ->]; [lia|]. simpl.
  destruct (IH (i + 1)) as [ds ->]; [intros j Hj; apply Hr; lia|].
  by eexists.
Qed.

Lemma read_all_None (read : Z → option D) i count j :
  i ≤ j < i + Z.of_nat count → read j = None →
  read_all read i count = None.
Proof.
  revert i. induction count as [|n IH]; intros i Hj Hn; simpl; [lia|].
  destruct (read i) as [d|] eqn:Hd; simpl; [|done].
  rewrite IH; [done| |done].
  destruct (decide (j = i)) as [->|]; [congruence|lia].
Qed.

Lemma read_all_ext (read read' : Z → option D) i count :
  (∀ j, read j = read' j) →
  read_all read i count = read_all read' i count.
Proof.
  intros Hext. revert i. induction count as [|n IH]; intros i; simpl; [done|].
  by rewrite Hext, IH.
Qed.

Lemma for_up_None (body : Z → S → option S) count i j s :
  i ≤ j < i + Z.of_nat count →
  (∀ s, body j s = None) →
  for_up count i body s = None.
Proof.
  revert i s. induction count as [|k IH]; intros i s Hj Hfail; simpl; [lia|].
  destruct (decide (j = i)) as [->|Hne]; [by rewrite Hfail|].
  destruct (body i s) as [s'|]; simpl; [|done].
  apply IH; [lia|done].
Qed.

End LoopsAsFolds.

(* ===================================================================== *)
(** * The fingerprint: what it detects                                   *)
(* ===================================================================== *)

Section FingerprintSensitivity.
Import Pie HashedWords.

Lemma fold_left_concat_fmap {A B C} (f : A → B → A) (g : C → list B)
    (ds : list C) (a : A) :
  fold_left f (concat (g <$> ds)) a
  = fold_left (λ a d, fold_left f (g d) a) ds a.
Proof.
  revert a. induction ds as [|d ds IH]; intros a; simpl; [done|].
  by rewrite fold_left_app, IH.
Qed.

(** The fingerprint is the FNV-1a fold over the hashed words. *)
Lemma HashConfig_fold m c :
  Clay_PieChart__HashConfig m c
  = ws ← hashed_words m c; Some (fold_left fnv_fold ws 2166136261).
Proof.
  unfold Clay_PieChart__HashConfig, hashed_words.
  rewrite (for_up_fold (read_data m (data c))
             (λ h d, fold_left fnv_fold (point_words d) h)).
  destruct (read_all _ _ _) as [ds|]; simpl; [|done].
  by rewrite fold_left_app, fold_left_concat_fmap.
Qed.

Lemma wrap32_lxor a b : wrap32 (Z.lxor a b) = Z.lxor (wrap32 a) (wrap32 b).
Proof.
  unfold wrap32. apply Z.bits_inj'. intros n Hn.
  rewrite Z.lxor_spec.
  destruct (Z.lt_ge_cases n 32).
  - rewrite !Z.mod_pow2_bits_low by lia. by rewrite Z.lxor_spec.
  - rewrite !Z.mod_pow2_bits_high by lia. done.
Qed.

Lemma lxor_cancel_l a u v : Z.lxor a u = Z.lxor a v → u = v.
Proof.
  intros H.
  assert (Z.lxor a (Z.lxor a u) = Z.lxor a (Z.lxor a v)) as H' by congruence.
  by rewrite <- !Z.lxor_assoc, Z.lxor_nilpotent, !Z.lxor_0_l in H'.
Qed.

Lemma lxor_cancel_r a b v : Z.lxor a v = Z.lxor b v → a = b.
Proof. rewrite !(Z.lxor_comm _ v). apply lxor_cancel_l. Qed.

(** Multiplication by the FNV prime is invertible modulo 2^32. *)
Lemma fnv_prime_cancel a b :
  wrap32 (a * 16777619) = wrap32 (b * 16777619) → wrap32 a = wrap32 b.
Proof.
  unfold wrap32. intros H.
  assert (∀ z, z mod 2 ^ 32 = ((z * 16777619) mod 2 ^ 32 * 899433627) mod 2 ^ 32)
    as Hinv.
  { intros z. rewrite Z.mul_mod_idemp_l by lia.
    replace (z * 16777619 * 899433627) with (z + (z * 3513497) * 2 ^ 32) by lia.
    by rewrite Z.mod_add by lia. }
  by rewrite (Hinv a), (Hinv b), H.
Qed.

Lemma fnv_fold_wrapped h v : wrap32 (fnv_fold h v) = fnv_fold h v.
Proof. unfold fnv_fold, wrap32. by rewrite Z.mod_mod by lia. Qed.

Lemma fnv_fold_inj_word h u v :
  fnv_fold h u = fnv_fold h v → wrap32 u = wrap32 v.
Proof.
  unfold fnv_fold. intros H. apply fnv_prime_cancel in H.
  rewrite !wrap32_lxor in H. by apply lxor_cancel_l in H.
Qed.

Lemma fnv_fold_inj_state h1 h2 v :
  fnv_fold h1 v = fnv_fold h2 v → wrap32 h1 = wrap32 h2.
Proof.
  unfold fnv_fold. intros H. apply fnv_prime_cancel in H.
  rewrite !wrap32_lxor in H. by apply lxor_cancel_r in H.
Qed.

Lemma fold_fnv_inj_state ws h1 h2 :
  wrap32 h1 ≠ wrap32 h2 →
  fold_left fnv_fold ws h1 ≠ fold_left fnv_fold ws h2.
Proof.
  revert h1 h2. induction ws as [|w ws IH]; intros h1 h2 Hne; simpl.
  - congruence.
  - apply IH. rewrite !fnv_fold_wrapped. intros H.
    by apply fnv_fold_inj_state in H.
Qed.

(** X1: A change to one hashed word is always detected: if the sequences
    of 32-bit words that Clay_PieChart__HashConfig folds in for two
    configs (value bits and exploded flag of each data point, then radius,
    hole radius, colour mode and sector-line flag) agree everywhere but in
    one position, both fingerprints are defined and they differ. *)
Theorem HashConfig_detects_single_change
    (m1 m2 : Memory) (c1 c2 : Clay_PieChart_Config)
    (before afterwards : list Z) (u v : Z) :
  hashed_words m1 c1 = Some (before ++ u :: afterwards) →
  hashed_words m2 c2 = Some (before ++ v :: afterwards) →
  wrap32 u ≠ wrap32 v →
  ∃ h1 h2,
    Clay_PieChart__HashConfig m1 c1 = Some h1
    ∧ Clay_PieChart__HashConfig m2 c2 = Some h2
    ∧ h1 ≠ h2.
Proof.
  intros H1 H2 Hne. rewrite !HashConfig_fold, H1, H2. simpl.
  eexists _, _. split; [done|]. split; [done|].
  rewrite !fold_left_app. simpl.
  apply fold_fnv_inj_state. rewrite !fnv_fold_wrapped.
  intros H. by apply fnv_fold_inj_word in H.
Qed.

(** The caller changes the first value of the sample data from 30 to 31. *)
Lemma HashConfig_detects_single_change_witness :
  ∃ h1 h2,
    Clay_PieChart__HashConfig Sample.mem Sample.chart = Some h1
    ∧ Clay_PieChart__HashConfig Inputs.revised_mem Sample.chart = Some h2
    ∧ h1 ≠ h2.
Proof.
  apply (HashConfig_detects_single_change Sample.mem Inputs.revised_mem
           Sample.chart Sample.chart []
           ([0; F32.bits (F32.of_Z 50); 0; F32.bits (F32.of_Z 20); 0]
            ++ config_words Sample.chart)
           (F32.bits (F32.of_Z 30)) (F32.bits (F32.of_Z 31))).
  - by_running.
  - by_running.
  - by_running.
Defined.

End FingerprintSensitivity.

(* ===================================================================== *)
(** * Palette and random colours                                         *)
(* ===================================================================== *)

Section PaletteColours.
Import Colours.

(** X2: In palette colour mode with a non-NULL palette whose count is
    positive and within the colour array, the pie segment or bar of index
    i >= 0 gets palette colour i mod count and the random seed is left
    alone; index i + count gets the same colour as index i. *)
Theorem palette_colors_cycle :
  (∀ m clock cfg colors count arr index seed,
     Pie.colorMode cfg = Pie.CLAY_PIECHART_COLOR_MODE_PALETTE →
     Pie.colorConfig cfg = Pie.Palette colors count →
     colors ≠ 0 →
     Pie.color_arrays m !! colors = Some arr →
     0 < count ≤ Z.of_nat (length arr) →
     0 ≤ index →
     (∃ c, arr !! Z.to_nat (index mod count) = Some c
           ∧ Pie.Clay_PieChart__GetSegmentColor m clock cfg index seed
             = Some (c, seed))
     ∧ Pie.Clay_PieChart__GetSegmentColor m clock cfg (index + count) seed
       = Pie.Clay_PieChart__GetSegmentColor m clock cfg index seed)
  ∧ (∀ m clock cfg colors count arr index seed,
       Bar.colorMode cfg = Bar.CLAY_BARCHART_COLOR_MODE_PALETTE →
       Bar.colorConfig cfg = Bar.Palette colors count →
       colors ≠ 0 →
       Bar.color_arrays m !! colors = Some arr →
       0 < count ≤ Z.of_nat (length arr) →
       0 ≤ index →
       (∃ c, arr !! Z.to_nat (index mod count) = Some c
             ∧ Bar.Clay_BarChart__GetBarColor m clock cfg index seed
               = Some (c, seed))
       ∧ Bar.Clay_BarChart__GetBarColor m clock cfg (index + count) seed
         = Bar.Clay_BarChart__GetBarColor m clock cfg index seed).
Proof.
  split.
  - intros m clock cfg colors count arr index seed Hmode Hcc Hp Harr Hcount Hi.
    unfold Pie.Clay_PieChart__GetSegmentColor. rewrite Hmode, Hcc. simpl.
    assert ((colors =? 0) = false) as -> by (by apply Z.eqb_neq).
    assert ((0 <? count) = true) as -> by (apply Z.ltb_lt; lia).
    simpl. unfold Pie.read_color.
    assert ((colors =? 0) = false) as -> by (by apply Z.eqb_neq).
    rewrite Harr. simpl.
    replace ((index + count) mod count) with (index mod count)
      by (rewrite <- (Z.mul_1_l count) at 2; by rewrite Z.mod_add by lia).
    split; [|done].
    pose proof (Z.mod_pos_bound index count ltac:(lia)) as Hmod.
    destruct (lookup_lt_is_Some_2 arr (Z.to_nat (index mod count)))
      as [c Hc]; [lia|].
    exists c. by rewrite Hc.
  - intros m clock cfg colors count arr index seed Hmode Hcc Hp Harr Hcount Hi.
    unfold Bar.Clay_BarChart__GetBarColor. rewrite Hmode, Hcc. simpl.
    assert ((colors =? 0) = false) as -> by (by apply Z.eqb_neq).
    assert ((0 <? count) = true) as -> by (apply Z.ltb_lt; lia).
    simpl. unfold Bar.read_color.
    assert ((colors =? 0) = false) as -> by (by apply Z.eqb_neq).
    rewrite Harr. simpl.
    replace ((index + count) mod count) with (index mod count)
      by (rewrite <- (Z.mul_1_l count) at 2; by rewrite Z.mod_add by lia).
    split; [|done].
    pose proof (Z.mod_pos_bound index count ltac:(lia)) as Hmod.
    destruct (lookup_lt_is_Some_2 arr (Z.to_nat (index mod count)))
      as [c Hc]; [lia|].
    exists c. by rewrite Hc.
Qed.

(** A palette of two colours: the third segment and the third bar take the
    first colour again. *)
Lemma palette_colors_cycle_witness :
  Pie.Clay_PieChart__GetSegmentColor Inputs.palette_mem 0
    Inputs.palette_chart 2 0 = Some (Inputs.blue, 0)
  ∧ Bar.Clay_BarChart__GetBarColor Inputs.sales_mem 0
      Inputs.palette_bars 2 0 = Some (Inputs.blue, 0).
Proof.
  destruct palette_colors_cycle as [Hpie Hbar]. split.
  - destruct (Hpie Inputs.palette_mem 0 Inputs.palette_chart 512 2
                [Inputs.blue; Inputs.green] 0 0) as [_ Hcycle];
      [by_running | by_running | lia | by_running | simpl; lia | lia |].
    change (0 + 2) with 2 in Hcycle. rewrite Hcycle. by_running.
  - destruct (Hbar Inputs.sales_mem 0 Inputs.palette_bars 512 2
                [Inputs.blue; Inputs.green] 0 0) as [_ Hcycle];
      [by_running | by_running | lia | by_running | simpl; lia | lia |].
    change (0 + 2) with 2 in Hcycle. rewrite Hcycle. by_running.
Defined.

End PaletteColours.

Section RandomColourRange.
Import Colours.

(** Every whole number from 0 to 255 converts to binary32 and back to
    [unsigned char] unchanged: all 256 of them, by computation. *)
Lemma all_channels_convert :
  forallb (λ k, match F32.to_uchar (F32.of_Z k) with
                | Some k' => k' =? k
                | None => false
                end) channel_values = true.
Proof. by_running. Qed.

Lemma to_uchar_of_Z (k : Z) :
  0 ≤ k ≤ 255 → F32.to_uchar (F32.of_Z k) = Some k.
Proof.
  intros Hk. pose proof all_channels_convert as Hall.
  rewrite forallb_forall in Hall.
  specialize (Hall k (channel_value_in k Hk)).
  destruct (F32.to_uchar (F32.of_Z k)) as [k'|]; [|done].
  apply Z.eqb_eq in Hall. by subst.
Qed.

Lemma to_raylib_color_rgba cr cg cb ca :
  0 ≤ cr ≤ 255 → 0 ≤ cg ≤ 255 → 0 ≤ cb ≤ 255 → 0 ≤ ca ≤ 255 →
  to_raylib_color (rgba cr cg cb ca) = Some (mkRayColor cr cg cb ca).
Proof.
  intros. unfold to_raylib_color, rgba. cbn [r g b a].
  by rewrite !to_uchar_of_Z by done.
Qed.

Lemma Random_range seed : 0 ≤ Pie.Clay_PieChart__Random seed < 2 ^ 31.
Proof.
  unfold Pie.Clay_PieChart__Random.
  change (2 ^ 31 - 1) with (Z.ones 31). rewrite Z.land_ones by lia.
  apply Z.mod_pos_bound. lia.
Qed.

(** X3: In random colour mode every colour that
    Clay_PieChart__GetSegmentColor and Clay_BarChart__GetBarColor return
    has whole-numbered red, green and blue channels from 100 to 255 and
    alpha 255, whatever the index and the seed before the call; the seed
    afterwards lies in [0, 2^31), and the pie colour converts to an 8-bit
    colour unchanged. *)
Theorem random_colors_are_valid :
  (∀ m clock cfg cfg_seed index seed,
     Pie.colorMode cfg = Pie.CLAY_PIECHART_COLOR_MODE_RANDOM →
     Pie.colorConfig cfg = Pie.Random cfg_seed →
     ∃ cr cg cb seed',
       Pie.Clay_PieChart__GetSegmentColor m clock cfg index seed
       = Some (rgba cr cg cb 255, seed')
       ∧ 100 ≤ cr ≤ 255 ∧ 100 ≤ cg ≤ 255 ∧ 100 ≤ cb ≤ 255
       ∧ 0 ≤ seed' < 2 ^ 31
       ∧ to_raylib_color (rgba cr cg cb 255) = Some (mkRayColor cr cg cb 255))
  ∧ (∀ m clock cfg cfg_seed index seed,
       Bar.colorMode cfg = Bar.CLAY_BARCHART_COLOR_MODE_RANDOM →
       Bar.colorConfig cfg = Bar.Random cfg_seed →
       ∃ cr cg cb seed',
         Bar.Clay_BarChart__GetBarColor m clock cfg index seed
         = Some (rgba cr cg cb 255, seed')
         ∧ 100 ≤ cr ≤ 255 ∧ 100 ≤ cg ≤ 255 ∧ 100 ≤ cb ≤ 255
         ∧ 0 ≤ seed' < 2 ^ 31).
Proof.
  split.
  - intros m clock cfg cfg_seed index seed Hmode Hcc.
    unfold Pie.Clay_PieChart__GetSegmentColor. rewrite Hmode, Hcc. simpl.
    set (s := if seed =? 0 then _ else seed).
    pose proof (Random_range s) as Hr.
    set (rnd := Pie.Clay_PieChart__Random s) in *.
    pose proof (Z.mod_pos_bound rnd 156 ltac:(lia)).
    pose proof (Z.mod_pos_bound (Z.shiftr rnd 8) 156 ltac:(lia)).
    pose proof (Z.mod_pos_bound (Z.shiftr rnd 16) 156 ltac:(lia)).
    eexists _, _, _, _. split; [reflexivity|].
    repeat (split; [lia|]).
    apply to_raylib_color_rgba; lia.
  - intros m clock cfg cfg_seed index seed Hmode Hcc.
    unfold Bar.Clay_BarChart__GetBarColor. rewrite Hmode, Hcc. simpl.
    set (s := if seed =? 0 then _ else seed).
    pose proof (Random_range s) as Hr.
    change (Pie.Clay_PieChart__Random s) with (Bar.Clay_BarChart__Random s) in Hr.
    set (rnd := Bar.Clay_BarChart__Random s) in *.
    pose proof (Z.mod_pos_bound rnd 156 ltac:(lia)).
    pose proof (Z.mod_pos_bound (Z.shiftr rnd 8) 156 ltac:(lia)).
    pose proof (Z.mod_pos_bound (Z.shiftr rnd 16) 156 ltac:(lia)).
    eexists _, _, _, _. split; [reflexivity|].
    repeat (split; [lia|]). lia.
Qed.

(** The first colour drawn under the seed of the demo. *)
Lemma random_colors_are_valid_witness :
  (∃ cr cg cb seed',
     Pie.Clay_PieChart__GetSegmentColor Sample.mem 0 Sample.random_chart 0 0
     = Some (rgba cr cg cb 255, seed')
     ∧ 100 ≤ cr ≤ 255 ∧ 100 ≤ cg ≤ 255 ∧ 100 ≤ cb ≤ 255
     ∧ 0 ≤ seed' < 2 ^ 31
     ∧ to_raylib_color (rgba cr cg cb 255) = Some (mkRayColor cr cg cb 255))
  ∧ (∃ cr cg cb seed',
       Bar.Clay_BarChart__GetBarColor Sample.bar_mem 0 Sample.random_bars 0 0
       = Some (rgba cr cg cb 255, seed')
       ∧ 100 ≤ cr ≤ 255 ∧ 100 ≤ cg ≤ 255 ∧ 100 ≤ cb ≤ 255
       ∧ 0 ≤ seed' < 2 ^ 31).
Proof.
  destruct random_colors_are_valid as [Hpie Hbar]. split.
  - apply (Hpie Sample.mem 0 Sample.random_chart 12345 0 0); reflexivity.
  - apply (Hbar Sample.bar_mem 0 Sample.random_bars 12345 0 0); reflexivity.
Defined.

End RandomColourRange.

(* ===================================================================== *)
(** * What the segment loop draws                                        *)
(* ===================================================================== *)

Section SegmentsDrawn.
Import Pie Drawing.
Context {E : Externals}.

(** One segment: its sector or ring, followed by a line unless it is the
    last segment or the config has no sector lines. *)
Lemma RenderSegment_shape m clock d index cx cy start sw cfg isLast seed
    drawn seed' :
  Clay_PieChart__RenderSegment m clock d index cx cy start sw cfg isLast seed
    = Some (drawn, seed') →
  is_line <$> drawn
  = false :: (if showSectorLines cfg && negb isLast then [true] else [])
  ∧ Forall (drawn_for cfg) drawn.
Proof.
  unfold Clay_PieChart__RenderSegment.
  destruct (if exploded d then _ else _) as [offsetX offsetY].
  destruct (Clay_PieChart__GetSegmentColor _ _ _ _ _) as [[c s]|]; [|done].
  simpl. destruct (to_raylib_color c) as [rc|]; [|done]. simpl.
  destruct (showSectorLines cfg) eqn:Hlines; simpl.
  - destruct isLast; simpl.
    + intros [= <- <-]. destruct (F32.ltb _ _) eqn:Hhole; simpl;
        (split; [done|]); repeat constructor; done.
    + destruct (to_raylib_color (sectorLineColor cfg)) as [lc|]; [|done].
      simpl. intros [= <- <-]. destruct (F32.ltb _ _) eqn:Hhole; simpl;
        (split; [done|]); repeat constructor; done.
  - intros [= <- <-]. destruct (F32.ltb _ _) eqn:Hhole; simpl;
      (split; [done|]); repeat constructor; done.
Qed.

Lemma segment_loop_shape m clock cfg total cx cy count i cur seed acc
    endA seed' cmds :
  0 < dataCount cfg < 2 ^ 32 →
  0 ≤ i →
  i + Z.of_nat count = dataCount cfg →
  for_up count i
    (λ i '(currentAngleDeg, seed, cmds),
       d ← read_data m (data cfg) i;
       let sweepAngleDeg :=
         F32.mul (F32.div (value d) total) (F32.of_Z 360) in
       '(drawn, seed) ← Clay_PieChart__RenderSegment m clock d i
          cx cy currentAngleDeg sweepAngleDeg cfg
          (i =? wrap32 (dataCount cfg - 1)) seed;
       Some (F32.add currentAngleDeg sweepAngleDeg, seed, cmds ++ drawn))
    (cur, seed, acc) = Some (endA, seed', cmds) →
  Forall (drawn_for cfg) acc →
  is_line <$> cmds
  = (is_line <$> acc) ++ segments_and_lines count (showSectorLines cfg)
  ∧ Forall (drawn_for cfg) cmds.
Proof.
  intros Hn. revert i cur seed acc.
  assert (wrap32 (dataCount cfg - 1) = dataCount cfg - 1) as Hlast
    by (unfold wrap32; apply Z.mod_small; lia).
  induction count as [|k IH]; intros i cur seed acc Hi Hsum; cbn [for_up].
  - intros [= <- <- <-] Hacc. simpl. by rewrite app_nil_r.
  - destruct (read_data m (data cfg) i) as [d|]; [|done].
    cbn [mbind option_bind]. cbv zeta.
    destruct (Clay_PieChart__RenderSegment _ _ _ _ _ _ _ _ _ _ _)
      as [[drawn s1]|] eqn:Hseg; [|done].
    cbn [mbind option_bind]. intros Hloop Hacc.
    apply RenderSegment_shape in Hseg as [Hshape Hdrawn].
    apply IH in Hloop as [Hrest Hall]; [|lia|lia|by apply Forall_app].
    split; [|done].
    rewrite Hrest, fmap_app, Hshape, <- app_assoc. f_equal.
    rewrite Hlast. destruct k as [|k].
    + assert ((i =? dataCount cfg - 1) = true) as -> by (apply Z.eqb_eq; lia).
      by rewrite andb_false_r.
    + assert ((i =? dataCount cfg - 1) = false) as -> by (apply Z.eqb_neq; lia).
      rewrite andb_true_r. cbn [segments_and_lines replicate concat].
      by rewrite <- app_assoc.
Qed.

(** X4: For a chart of n data points (0 < n < 2^32) a segment loop that
    completes draws exactly n sectors or rings, each but the last followed
    by one line when showSectorLines is set and by none otherwise. Rings
    from the hole radius to the radius are drawn exactly when
    donutHoleRadius > 0, full sectors of the radius otherwise, always with
    32 segments; lines are 2 pixels thick. *)
Theorem segments_drawn_with_lines_between
    m clock cfg total cx cy seed endA seed' cmds :
  0 < dataCount cfg < 2 ^ 32 →
  render_segments m clock cfg total cx cy seed = Some (endA, seed', cmds) →
  is_line <$> cmds
  = segments_and_lines (Z.to_nat (dataCount cfg)) (showSectorLines cfg)
  ∧ Forall (drawn_for cfg) cmds.
Proof.
  intros Hn Hrun. unfold render_segments in Hrun.
  apply segment_loop_shape in Hrun; [done|done|lia|lia|constructor].
Qed.

End SegmentsDrawn.

(** The sample chart with sector lines: three sectors, a line after the
    first and after the second. *)
Lemma segments_drawn_with_lines_between_witness :
  ∃ endA seed' cmds,
    Pie.render_segments (H := sample_externals) Sample.mem 0
      Inputs.lined_chart (F32.of_Z 100) (F32.of_Z 64) (F32.of_Z 64) 0
    = Some (endA, seed', cmds)
    ∧ Drawing.is_line <$> cmds = [false; true; false; true; false]
    ∧ Forall (Drawing.drawn_for Inputs.lined_chart) cmds.
Proof.
  destruct (Pie.render_segments (H := sample_externals) Sample.mem 0
              Inputs.lined_chart (F32.of_Z 100) (F32.of_Z 64) (F32.of_Z 64) 0)
    as [[[endA seed'] cmds]|] eqn:Hrun; [|vm_compute in Hrun; discriminate].
  exists endA, seed', cmds. split; [reflexivity|].
  apply (segments_drawn_with_lines_between (E := sample_externals)
           Sample.mem 0 Inputs.lined_chart (F32.of_Z 100) (F32.of_Z 64)
           (F32.of_Z 64) 0 endA seed' cmds); [|exact Hrun].
  vm_compute. split; reflexivity.
Defined.

(* ===================================================================== *)
(** * The life of the cached texture                                     *)
(* ===================================================================== *)

Section CacheLifecycle.
Import Pie PieCustom Session Cache Ownership Lifecycle.
Context {E : Externals}.

(** What [Clay_PieChart_Render] does with a config it does not skip. *)
Lemma Render_renderable id cfg w total h w' evs :
  renderable (memory w) cfg total h →
  Clay_PieChart_Render id cfg w = Some (w', evs) →
  let cached := elementDataStorage w in
  let changed := negb (configHash cached =? h) in
  let unload :=
    changed && textureValid cached && negb (rt_id (texture cached) =? 0) in
  ∃ seed (decls : list LayoutDecl),
    w' = set_color_seed
           (set_storage
              (if unload then UnloadRenderTexture (texture cached) w else w)
              (if changed
               then mkElementData CLAY_PIECHART_CUSTOM_ELEMENT_TYPE cfg
                      total h zero_texture false
               else mkElementData CLAY_PIECHART_CUSTOM_ELEMENT_TYPE cfg
                      total h (texture cached)
                      (if unload then false else textureValid cached)))
           seed
    ∧ evs = (if unload then [EvUnloadRenderTexture (texture cached)] else [])
            ++ (EvLayout <$> decls).
Proof.
  intros (Hn & Hd & Htotal & Hpos & Hhash).
  unfold Clay_PieChart_Render.
  apply Z.eqb_neq in Hn, Hd. rewrite Hn, Hd, Htotal. simpl.
  rewrite Hpos, Hhash. simpl. cbv zeta.
  match goal with
  | |- context [mbind _ ?legend] => destruct legend as [[seed decls]|]; [|done]
  end.
  simpl. intros [= <- <-].
  by exists seed,
    ([OpenChart id None (showLegend cfg) (backgroundColor cfg);
      CustomElement "PieChartCustom" (pie_area_side cfg)]
     ++ decls ++ [CloseElement]).
Qed.

Lemma Forall_is_layout (decls : list LayoutDecl) :
  Forall is_layout (EvLayout <$> decls).
Proof. induction decls; constructor; done. Qed.

(** X5: For a config it does not skip, Clay_PieChart_Render stores config,
    total and fingerprint under the pie-chart tag. If the fingerprint
    equals the stored one, the cached texture, its valid flag and the
    backend's live render targets stay as they are and only layout
    elements are declared; otherwise the stored texture is zeroed and
    marked invalid, Clay_PieChart_GetTexture returns NULL, and a valid
    cached texture with a non-zero id is unloaded first. *)
Theorem Render_keeps_texture_while_fingerprint_unchanged
    id cfg w total h w' evs :
  renderable (memory w) cfg total h →
  Clay_PieChart_Render id cfg w = Some (w', evs) →
  let cached := elementDataStorage w in
  let stored := elementDataStorage w' in
  (elementType stored = CLAY_PIECHART_CUSTOM_ELEMENT_TYPE
   ∧ config stored = cfg ∧ totalValue stored = total ∧ configHash stored = h)
  ∧ (configHash cached = h →
       texture stored = texture cached
       ∧ textureValid stored = textureValid cached
       ∧ live_textures w' = live_textures w
       ∧ Forall is_layout evs)
  ∧ (configHash cached ≠ h →
       texture stored = zero_texture
       ∧ textureValid stored = false
       ∧ (∀ cmd, Clay_PieChart_GetTexture cmd w' = None)
       ∧ (textureValid cached = true → rt_id (texture cached) ≠ 0 →
            head evs = Some (EvUnloadRenderTexture (texture cached))
            ∧ live_textures w'
              = live_textures w ∖ {[ rt_id (texture cached) ]})).
Proof.
  intros Hcfg Hrun.
  destruct (Render_renderable _ _ _ _ _ _ _ Hcfg Hrun)
    as (seed & decls & -> & ->).
  cbv zeta. split; [|split].
  - by destruct (negb (configHash (elementDataStorage w) =? h)).
  - intros Hsame. apply Z.eqb_eq in Hsame. rewrite Hsame. simpl.
    repeat split; try done. apply Forall_is_layout.
  - intros Hdiff. apply Z.eqb_neq in Hdiff. rewrite Hdiff. simpl.
    split; [done|]. split; [done|]. split.
    + intros cmd. unfold Clay_PieChart_GetTexture.
      by destruct (customData cmd).
    + intros Hvalid Hid. apply Z.eqb_neq in Hid. by rewrite Hvalid, Hid.
Qed.

(** A preparation step that regenerates asks for a texture of the size
    computed from the command's bounding box. *)
Lemma PrepareTexture_cases cmd created w w' evs :
  Clay_PieChart_PrepareTexture cmd created w = Some (w', evs) →
  (w' = w ∧ evs = [])
  ∨ ∃ rq,
      pie_element cmd w
      ∧ request cmd w = Some rq
      ∧ stale (elementDataStorage w) rq
      ∧ regenerate_texture created (requestedWidth rq) (requestedHeight rq)
          (fingerprint rq) w = Some (w', evs).
Proof.
  unfold Clay_PieChart_PrepareTexture, request, pie_element.
  destruct (customData cmd) as [| |tag] eqn:Hcmd.
  - intros [= <- <-]. by left.
  - destruct (elementType _ =? _) eqn:Htag; simpl;
      [|intros [= <- <-]; by left].
    destruct (dataCount _ =? 0) eqn:Hn; simpl; [intros [= <- <-]; by left|].
    destruct (data _ =? 0) eqn:Hd; simpl; [intros [= <- <-]; by left|].
    destruct (F32.leb _ _) eqn:Htot; simpl; [intros [= <- <-]; by left|].
    destruct (texture_side (width _)) as [tw|]; [|done].
    destruct (texture_side (height _)) as [th|]; [|done].
    destruct (Clay_PieChart__HashConfig _ _) as [h|]; [|done].
    simpl. destruct (needsRegeneration _ _ _ _) eqn:Hneeds.
    + intros Hregen. right. exists (mkRequest h tw th).
      apply Z.eqb_eq in Htag. apply Z.eqb_neq in Hn, Hd.
      split; [done|]. split; [done|].
      split; [|done].
      by apply (needsRegeneration_stale _ (mkRequest h tw th)).
    + intros [= <- <-]. by left.
  - destruct (tag =? _); [done|]. intros [= <- <-]. by left.
Qed.

(** X6: In any defined sequence of Clay_PieChart_Render calls,
    Clay_PieChart_PrepareTexture calls and writes of the caller to its
    data, every render texture asked of the backend is at least 128 wide
    and 128 high (and below 2^31), however small the bounding box. *)
Theorem textures_are_at_least_128 calls w0 w evs tw th t :
  run calls w0 = Some (w, evs) →
  EvLoadRenderTexture tw th t ∈ evs →
  128 ≤ tw < 2 ^ 31 ∧ 128 ≤ th < 2 ^ 31.
Proof.
  revert w0 evs. induction calls as [|c calls IH]; intros w0 evs; simpl.
  - intros [= <- <-] Hin. by apply elem_of_nil in Hin.
  - destruct (call c w0) as [[w1 evs1]|] eqn:Hcall; [|done]. simpl.
    destruct (run calls w1) as [[w2 evs2]|] eqn:Hrun; [|done]. simpl.
    intros [= <- <-] Hin. apply elem_of_app in Hin as [Hin|Hin];
      [|by eapply IH].
    destruct c as [id cfg|cmd created|m]; simpl in Hcall.
    + apply Clay_PieChart_Render_inv in Hcall
        as [[-> ->]|(total & h & seed & decls & -> & -> & _)].
      * by apply elem_of_nil in Hin.
      * apply elem_of_app in Hin as [Hin|Hin].
        -- destruct (_ && _); [|by apply elem_of_nil in Hin].
           by apply list_elem_of_singleton in Hin.
        -- apply list_elem_of_fmap in Hin as (d & Hd & _). done.
    + apply PrepareTexture_cases in Hcall
        as [[-> ->]|(rq & _ & Hrq & _ & Hregen)].
      * by apply elem_of_nil in Hin.
      * apply regenerate_texture_inv in Hregen as (seed & drawn & -> & ->).
        apply request_range in Hrq.
        apply elem_of_app in Hin as [Hin|Hin].
        { destruct (_ && _); [|by apply elem_of_nil in Hin].
          by apply list_elem_of_singleton in Hin. }
        apply elem_of_cons in Hin as [[= -> -> ->]|Hin]; [done|].
        apply elem_of_cons in Hin as [[=]|Hin].
        apply elem_of_cons in Hin as [[=]|Hin].
        apply elem_of_app in Hin as [Hin|Hin].
        { apply list_elem_of_fmap in Hin as (d & Hd & _). done. }
        by apply list_elem_of_singleton in Hin.
    + injection Hcall as <- <-. by apply elem_of_nil in Hin.
Qed.

(** X7: When Clay_PieChart_PrepareTexture regenerates and the backend
    fails to create the render target (it returns the zeroed struct), the
    element is marked valid all the same and Clay_PieChart_GetTexture
    returns the zeroed texture rather than NULL; every later preparation
    finds the cache stale (its width 0 is never the requested width), so
    creation is tried again. *)
Theorem failed_creation_is_retried cmd w rq w1 evs1 :
  pie_element cmd w →
  request cmd w = Some rq →
  stale (elementDataStorage w) rq →
  Clay_PieChart_PrepareTexture cmd false w = Some (w1, evs1) →
  Clay_PieChart_GetTexture cmd w1 = Some zero_texture
  ∧ textureValid (elementDataStorage w1) = true
  ∧ (∀ cmd' rq', request cmd' w1 = Some rq' →
       stale (elementDataStorage w1) rq').
Proof.
  intros Hel Hrq Hstale Hrun.
  rewrite (prepare_on_pie_element _ _ _ _ Hel Hrq),
    (proj2 (needsRegeneration_stale _ _) Hstale) in Hrun.
  apply regenerate_texture_inv in Hrun as (seed & drawn & -> & _).
  destruct Hel as (Hcmd & Htag & _).
  unfold Clay_PieChart_GetTexture. rewrite Hcmd.
  cbn [elementDataStorage set_color_seed set_storage elementType textureValid
       texture LoadRenderTexture fst snd].
  rewrite Htag, Z.eqb_refl. simpl. split; [done|]. split; [done|].
  intros cmd' rq' Hrq'. apply request_range in Hrq' as [Hw _].
  right; right; left. simpl. lia.
Qed.

Lemma Render_memory id cfg w w' evs :
  Clay_PieChart_Render id cfg w = Some (w', evs) → memory w' = memory w.
Proof.
  intros Hrun. apply Clay_PieChart_Render_inv in Hrun
    as [[-> ->]|(total & h & seed & decls & -> & _)]; [done|].
  cbv zeta. simpl. by destruct (_ && _).
Qed.

Lemma PrepareTexture_request cmd created w w' evs :
  pie_element cmd w →
  Clay_PieChart_PrepareTexture cmd created w = Some (w', evs) →
  ∃ rq, request cmd w = Some rq.
Proof.
  intros (Hcmd & Htag & Hn & Hd & Htot).
  unfold Clay_PieChart_PrepareTexture, request.
  rewrite Hcmd, Htag, Z.eqb_refl. simpl negb. cbv iota.
  apply Z.eqb_neq in Hn, Hd. rewrite Hn, Hd, Htot. simpl orb. cbv iota zeta.
  destruct (texture_side (width _)) as [tw|]; [|done].
  destruct (texture_side (height _)) as [th|]; [|done].
  destruct (Clay_PieChart__HashConfig _ _) as [h|]; [|done].
  intros _. by eexists.
Qed.

(** X8: All pie charts share the one static element storage: when two
    charts with different fingerprints are rendered in a frame, the
    preparation step of that frame regenerates the texture whatever was
    cached before, and the storage ends up holding the config and
    fingerprint of the chart rendered last. *)
Theorem two_charts_defeat_the_cache
    idA idB cfgA cfgB cmd w totalA hA totalB hB w' evs :
  renderable (memory w) cfgA totalA hA →
  renderable (memory w) cfgB totalB hB →
  hA ≠ hB →
  customData cmd = PieStorage →
  run [Render idA cfgA; Render idB cfgB; PrepareTexture cmd true] w
    = Some (w', evs) →
  regenerates evs
  ∧ config (elementDataStorage w') = cfgB
  ∧ configHash (elementDataStorage w') = hB.
Proof.
  intros HA HB Hne Hcmd. simpl.
  destruct (Clay_PieChart_Render idA cfgA w) as [[w1 evs1]|] eqn:H1; [|done].
  simpl.
  destruct (Clay_PieChart_Render idB cfgB w1) as [[w2 evs2]|] eqn:H2; [|done].
  simpl.
  destruct (Clay_PieChart_PrepareTexture cmd true w2) as [[w3 evs3]|] eqn:H3;
    [|done].
  simpl. intros [= <- <-].
  pose proof (Render_memory _ _ _ _ _ H1) as Hm1.
  assert (configHash (elementDataStorage w1) = hA) as Hh1.
  { destruct (Render_renderable _ _ _ _ _ _ _ HA H1) as (s & ds & -> & _).
    cbv zeta. simpl. by destruct (negb _). }
  rewrite <- Hm1 in HB.
  pose proof (Render_memory _ _ _ _ _ H2) as Hm2.
  destruct (Render_renderable _ _ _ _ _ _ _ HB H2) as (s & ds & Hw2 & _).
  cbv zeta in Hw2. rewrite Hh1 in Hw2.
  assert ((hA =? hB) = false) as Hneq by (by apply Z.eqb_neq).
  rewrite Hneq in Hw2. simpl in Hw2.
  destruct HB as (Hn & Hd & _ & Hpos & Hhash).
  assert (pie_element cmd w2) as Hel.
  { subst w2. by repeat split. }
  destruct (PrepareTexture_request _ _ _ _ _ Hel H3) as [rq Hrq].
  assert (fingerprint rq = hB) as Hfp.
  { unfold request in Hrq.
    destruct (texture_side (width _)) as [tw|]; [|done].
    destruct (texture_side (height _)) as [th|]; [|done].
    rewrite Hm2 in Hrq. subst w2. simpl in Hrq.
    rewrite Hhash in Hrq. simpl in Hrq. by injection Hrq as <-. }
  assert (stale (elementDataStorage w2) rq) as Hstale
    by (left; by subst w2).
  rewrite (prepare_on_pie_element _ _ _ _ Hel Hrq),
    (proj2 (needsRegeneration_stale _ _) Hstale) in H3.
  apply regenerate_texture_inv in H3 as (seed & drawn & -> & ->).
  split.
  - eexists _, _, _. apply elem_of_app. right. apply elem_of_app. right.
    rewrite app_nil_r. apply load_in_regeneration.
  - subst w2. simpl. by rewrite Hfp.
Qed.

End CacheLifecycle.

(** The sample chart rendered again while its texture is cached. *)
Lemma Render_keeps_texture_while_fingerprint_unchanged_witness :
  ∃ w' evs,
    PieCustom.Clay_PieChart_Render "pie" Sample.chart Sample.cached_128
    = Some (w', evs)
    ∧ PieCustom.texture (PieCustom.elementDataStorage w')
      = PieCustom.texture (PieCustom.elementDataStorage Sample.cached_128)
    ∧ PieCustom.textureValid (PieCustom.elementDataStorage w')
      = PieCustom.textureValid (PieCustom.elementDataStorage Sample.cached_128)
    ∧ PieCustom.live_textures w' = PieCustom.live_textures Sample.cached_128
    ∧ Forall Lifecycle.is_layout evs.
Proof.
  destruct (PieCustom.Clay_PieChart_Render "pie" Sample.chart Sample.cached_128)
    as [[w' evs]|] eqn:Hrun; [|vm_compute in Hrun; discriminate].
  exists w', evs. split; [reflexivity|].
  destruct (Render_keeps_texture_while_fingerprint_unchanged
              "pie" Sample.chart Sample.cached_128 (F32.of_Z 100) 1928569965
              w' evs) as (_ & Hsame & _).
  - repeat split; by_running.
  - exact Hrun.
  - apply Hsame. by_running.
Defined.

(** A bounding box of 10 x 10: the texture is asked for at 128 x 128. *)
Lemma textures_are_at_least_128_witness :
  Inputs.events Inputs.small_frame (PieCustom.initial_world Sample.mem 0)
    !! 3%nat
  = Some (EvLoadRenderTexture 128 128 (mkRenderTexture 1 (mkTexture 128 128)))
  ∧ 128 ≤ 128 < 2 ^ 31 ∧ 128 ≤ 128 < 2 ^ 31.
Proof.
  assert (Inputs.events Inputs.small_frame (PieCustom.initial_world Sample.mem 0)
            !! 3%nat
          = Some (EvLoadRenderTexture 128 128
                    (mkRenderTexture 1 (mkTexture 128 128)))) as Hload
    by by_running.
  split; [exact Hload|].
  apply (textures_are_at_least_128 (E := sample_externals)
           Inputs.small_frame (PieCustom.initial_world Sample.mem 0)
           (Sample.after Inputs.small_frame (PieCustom.initial_world Sample.mem 0))
           (Inputs.events Inputs.small_frame (PieCustom.initial_world Sample.mem 0))
           128 128 (mkRenderTexture 1 (mkTexture 128 128))).
  - by_running.
  - exact (list_elem_of_lookup_2 _ _ _ Hload).
Defined.

(** The backend fails to create the first texture of the sample chart. *)
Lemma failed_creation_is_retried_witness :
  ∃ w1 evs1,
    PieCustom.Clay_PieChart_PrepareTexture (H := sample_externals)
      (Sample.pie_command 64 64) false Sample.rendered_once = Some (w1, evs1)
    ∧ PieCustom.Clay_PieChart_GetTexture (Sample.pie_command 64 64) w1
      = Some zero_texture
    ∧ PieCustom.textureValid (PieCustom.elementDataStorage w1) = true
    ∧ (∀ cmd' rq', Cache.request cmd' w1 = Some rq' →
         Cache.stale (PieCustom.elementDataStorage w1) rq').
Proof.
  destruct (PieCustom.Clay_PieChart_PrepareTexture (H := sample_externals)
              (Sample.pie_command 64 64) false Sample.rendered_once)
    as [[w1 evs1]|] eqn:Hrun; [|vm_compute in Hrun; discriminate].
  exists w1, evs1. split; [reflexivity|].
  apply (failed_creation_is_retried (E := sample_externals)
           (Sample.pie_command 64 64) Sample.rendered_once
           (Cache.mkRequest 1928569965 128 128) w1 evs1).
  - repeat split; by_running.
  - by_running.
  - left. by_running.
  - exact Hrun.
Defined.

(** A second frame of a layout with two charts: the texture is generated
    again although neither chart changed. *)
Lemma two_charts_defeat_the_cache_witness :
  let w := Sample.after Inputs.two_chart_frame
             (PieCustom.initial_world Sample.mem 0) in
  ∃ w' evs,
    Session.run (H := sample_externals) Inputs.two_chart_frame w = Some (w', evs)
    ∧ Cache.regenerates evs
    ∧ PieCustom.config (PieCustom.elementDataStorage w') = Inputs.lined_chart
    ∧ PieCustom.configHash (PieCustom.elementDataStorage w') = 1911792346.
Proof.
  cbv zeta.
  destruct (Session.run (H := sample_externals) Inputs.two_chart_frame
              (Sample.after Inputs.two_chart_frame
                 (PieCustom.initial_world Sample.mem 0)))
    as [[w' evs]|] eqn:Hrun; [|vm_compute in Hrun; discriminate].
  exists w', evs. split; [reflexivity|].
  apply (two_charts_defeat_the_cache (E := sample_externals)
           "left" "right" Sample.chart Inputs.lined_chart
           (Sample.pie_command 64 64)
           (Sample.after Inputs.two_chart_frame
              (PieCustom.initial_world Sample.mem 0))
           (F32.of_Z 100) 1928569965 (F32.of_Z 100) 1911792346 w' evs).
  - repeat split; by_running.
  - repeat split; by_running.
  - by_running.
  - reflexivity.
  - exact Hrun.
Defined.


Section PrepareLoop.
Import Pie PieCustom MainLoop.
Context {E : Externals}.

(** X9: The main loop's texture preparation gives the same result and the
    same backend calls as it would with every render command removed that
    is not of custom type, has no custom data, or carries custom data
    whose type tag is not the pie chart's. *)
Theorem foreign_commands_are_skipped
    (renderCommands : list (FrameCommand * bool)) (w : World) :
  prepare_textures renderCommands w
  = prepare_textures (filter (λ c, foreign c.1 = false) renderCommands) w.
Proof.
  revert w. induction renderCommands as [|[cmd created] rest IH]; intros w;
    [done|].
  rewrite filter_cons. cbn [fst]. destruct (decide (foreign cmd = false)) as [Hf|Hf].
  - cbn [prepare_textures].
    destruct (if is_custom cmd then _ else _) as [[w1 evs1]|]; [|done].
    simpl. by rewrite IH.
  - apply not_false_is_true in Hf. cbn [prepare_textures].
    assert ((if is_custom cmd
             then Clay_PieChart_PrepareTexture (command cmd) created w
             else Some (w, [])) = Some (w, [])) as ->.
    { unfold foreign in Hf. destruct (is_custom cmd); [|done]. simpl in Hf.
      unfold Clay_PieChart_PrepareTexture.
      destruct (customData (command cmd)) as [| |tag]; try done.
      by destruct (tag =? _). }
    simpl. rewrite IH.
    by destruct (prepare_textures _ w) as [[w2 evs2]|].
Qed.

End PrepareLoop.

(* ===================================================================== *)
(** * One frame; values that are not numbers                             *)
(* ===================================================================== *)

Section FrameRoundTrip.
Import Pie PieCustom Session Cache Lifecycle.
Context {E : Externals}.

(** X10: One frame makes the texture available: after Clay_PieChart_Render
    of a config it does not skip and Clay_PieChart_PrepareTexture (with
    the backend creating the target) on a command with the pie chart's
    custom data, Clay_PieChart_GetTexture returns a texture whose width
    and height are the sizes computed from the command's bounding box, and
    the storage holds the config and its fingerprint. *)
Theorem frame_provides_texture_of_requested_size
    id cfg cmd w total h w1 evs1 w2 evs2 :
  renderable (memory w) cfg total h →
  customData cmd = PieStorage →
  Clay_PieChart_Render id cfg w = Some (w1, evs1) →
  Clay_PieChart_PrepareTexture cmd true w1 = Some (w2, evs2) →
  ∃ t tw th,
    Clay_PieChart_GetTexture cmd w2 = Some t
    ∧ texture_side (width (boundingBox cmd)) = Some tw
    ∧ texture_side (height (boundingBox cmd)) = Some th
    ∧ rt_texture t = mkTexture tw th
    ∧ configHash (elementDataStorage w2) = h
    ∧ config (elementDataStorage w2) = cfg.
Proof.
  intros Hcfg Hcmd Hrender Hprepare.
  pose proof (Render_memory _ _ _ _ _ Hrender) as Hmem.
  destruct (Render_renderable _ _ _ _ _ _ _ Hcfg Hrender)
    as (seed & decls & Hw1 & _). cbv zeta in Hw1.
  destruct Hcfg as (Hn & Hd & _ & Hpos & Hhash).
  assert (elementType (elementDataStorage w1) = CLAY_PIECHART_CUSTOM_ELEMENT_TYPE
          ∧ config (elementDataStorage w1) = cfg
          ∧ totalValue (elementDataStorage w1) = total
          ∧ configHash (elementDataStorage w1) = h) as (Htag & Hc & Ht & Hh).
  { subst w1. simpl. by destruct (negb _). }
  assert (pie_element cmd w1) as Hel.
  { split; [done|]. rewrite Hc, Ht. done. }
  destruct (PrepareTexture_request _ _ _ _ _ Hel Hprepare) as [rq Hrq].
  assert (texture_side (width (boundingBox cmd)) = Some (requestedWidth rq)
          ∧ texture_side (height (boundingBox cmd)) = Some (requestedHeight rq)
          ∧ fingerprint rq = h) as (Htw & Hth & Hfp).
  { unfold request in Hrq.
    destruct (texture_side (width _)) as [tw|]; [|done].
    destruct (texture_side (height _)) as [th|]; [|done].
    rewrite Hc, Hmem, Hhash in Hrq. simpl in Hrq. by injection Hrq as <-. }
  rewrite (prepare_on_pie_element _ _ _ _ Hel Hrq) in Hprepare.
  unfold Clay_PieChart_GetTexture. rewrite Hcmd.
  destruct (needsRegeneration _ _ _ _) eqn:Hneeds.
  - apply regenerate_texture_inv in Hprepare as (s & drawn & -> & _).
    cbn [elementDataStorage set_color_seed set_storage elementType
         textureValid texture configHash config LoadRenderTexture fst snd].
    rewrite Htag, Z.eqb_refl. simpl.
    eexists _, _, _. repeat split; done.
  - injection Hprepare as <- <-.
    apply needsRegeneration_fresh in Hneeds. unfold stale in Hneeds.
    rewrite Htag, Z.eqb_refl. simpl.
    destruct (textureValid (elementDataStorage w1)) eqn:Hvalid; [|tauto].
    simpl. eexists _, _, _. split; [done|]. split; [done|]. split; [done|].
    split; [|done].
    destruct (texture (elementDataStorage w1)) as [tid [tw th]]. simpl in *.
    f_equal; lia.
Qed.

End FrameRoundTrip.

(** The first frame of the sample chart in a bounding box of 64 x 64. *)
Lemma frame_provides_texture_of_requested_size_witness :
  ∃ t tw th,
    PieCustom.Clay_PieChart_GetTexture (Sample.pie_command 64 64)
      Sample.cached_128 = Some t
    ∧ PieCustom.texture_side (F32.of_Z 64) = Some tw
    ∧ PieCustom.texture_side (F32.of_Z 64) = Some th
    ∧ rt_texture t = mkTexture tw th
    ∧ PieCustom.configHash (PieCustom.elementDataStorage Sample.cached_128)
      = 1928569965
    ∧ PieCustom.config (PieCustom.elementDataStorage Sample.cached_128)
      = Sample.chart.
Proof.
  apply (frame_provides_texture_of_requested_size (E := sample_externals)
           "pie" Sample.chart (Sample.pie_command 64 64)
           (PieCustom.initial_world Sample.mem 0) (F32.of_Z 100) 1928569965
           Sample.rendered_once
           (Inputs.events [Session.Render "pie" Sample.chart]
              (PieCustom.initial_world Sample.mem 0))
           Sample.cached_128
           (Inputs.events
              [Session.PrepareTexture (Sample.pie_command 64 64) true]
              Sample.rendered_once)).
  - repeat split; by_running.
  - reflexivity.
  - by_running.
  - by_running.
Defined.


Section NotANumber.
Import Pie PieCustom Sweep Lifecycle.

Lemma add_nan_l x : F32.add S754_nan x = S754_nan.
Proof. done. Qed.

Lemma add_nan_r x : F32.add x S754_nan = S754_nan.
Proof. by destruct x as [[]|[]| |[] ? ?]. Qed.

Lemma fold_add_nan (vs : list float) :
  fold_left F32.add vs S754_nan = S754_nan.
Proof. induction vs as [|v vs IH]; simpl; [done|]. by rewrite add_nan_l. Qed.

Lemma fold_add_with_nan (vs : list float) init :
  S754_nan ∈ vs → fold_left F32.add vs init = S754_nan.
Proof.
  revert init. induction vs as [|v vs IH]; intros init Hin; simpl.
  - by apply elem_of_nil in Hin.
  - apply elem_of_cons in Hin as [<-|Hin]; [|by apply IH].
    by rewrite add_nan_r, fold_add_nan.
Qed.

Lemma CalculateTotalValue_fold m cfg :
  Clay_PieChart__CalculateTotalValue m cfg
  = ds ← read_all (read_data m (data cfg)) 0 (Z.to_nat (dataCount cfg));
    Some (fold_left F32.add (value <$> ds) F32.zero).
Proof.
  unfold Clay_PieChart__CalculateTotalValue.
  rewrite (for_up_fold (read_data m (data cfg)) (λ t d, F32.add t (value d))).
  destruct (read_all _ _ _) as [ds|]; simpl; [|done].
  f_equal. generalize F32.zero. induction ds as [|d ds IH]; intros t; simpl;
    [done|apply IH].
Qed.

(** X11: A data value that is not a number gets past the guard on the
    total: the total is then NaN, the test total <= 0 is false, so
    Clay_PieChart_Render stores the config under the pie-chart tag with
    total NaN, and every sweep angle computed from that total is NaN. *)
Theorem NaN_value_passes_the_total_guard id cfg w ds h w' evs :
  dataCount cfg ≠ 0 → data cfg ≠ 0 →
  read_all (read_data (memory w) (data cfg)) 0 (Z.to_nat (dataCount cfg))
    = Some ds →
  S754_nan ∈ value <$> ds →
  Clay_PieChart__HashConfig (memory w) cfg = Some h →
  Clay_PieChart_Render id cfg w = Some (w', evs) →
  Clay_PieChart__CalculateTotalValue (memory w) cfg = Some S754_nan
  ∧ elementType (elementDataStorage w') = CLAY_PIECHART_CUSTOM_ELEMENT_TYPE
  ∧ config (elementDataStorage w') = cfg
  ∧ totalValue (elementDataStorage w') = S754_nan
  ∧ ∀ v, sweep v (totalValue (elementDataStorage w')) = S754_nan.
Proof.
  intros Hn Hd Hds Hnan Hhash Hrender.
  assert (Clay_PieChart__CalculateTotalValue (memory w) cfg = Some S754_nan)
    as Htotal.
  { rewrite CalculateTotalValue_fold, Hds. simpl.
    by rewrite (fold_add_with_nan _ _ Hnan). }
  split; [done|].
  destruct (Render_renderable id cfg w S754_nan h w' evs) as (s & decls & -> & _);
    [by repeat split|done|].
  cbv zeta. simpl.
  assert (∀ v, sweep v S754_nan = S754_nan) as Hsweep.
  { intros v. unfold sweep. by destruct v as [[]|[]| |[] ? ?]. }
  by destruct (negb _).
Qed.

End NotANumber.

(** A chart of two data points, the second not a number. *)
Lemma NaN_value_passes_the_total_guard_witness :
  let w' := Sample.after [Session.Render "pie" Inputs.nan_chart]
              (PieCustom.initial_world Inputs.nan_mem 0) in
  Pie.Clay_PieChart__CalculateTotalValue Inputs.nan_mem Inputs.nan_chart
  = Some S754_nan
  ∧ PieCustom.elementType (PieCustom.elementDataStorage w')
    = PieCustom.CLAY_PIECHART_CUSTOM_ELEMENT_TYPE
  ∧ PieCustom.config (PieCustom.elementDataStorage w') = Inputs.nan_chart
  ∧ PieCustom.totalValue (PieCustom.elementDataStorage w') = S754_nan
  ∧ ∀ v, Sweep.sweep v (PieCustom.totalValue (PieCustom.elementDataStorage w'))
         = S754_nan.
Proof.
  cbv zeta.
  apply (NaN_value_passes_the_total_guard "pie" Inputs.nan_chart
           (PieCustom.initial_world Inputs.nan_mem 0) Inputs.nan_points
           279015781
           (Sample.after [Session.Render "pie" Inputs.nan_chart]
              (PieCustom.initial_world Inputs.nan_mem 0))
           (Inputs.events [Session.Render "pie" Inputs.nan_chart]
              (PieCustom.initial_world Inputs.nan_mem 0))).
  - by_running.
  - by_running.
  - by_running.
  - apply (list_elem_of_lookup_2 _ 1%nat). reflexivity.
  - by_running.
  - by_running.
Defined.

(* ===================================================================== *)
(** * The layout variant: finding the chart; the legend                  *)
(* ===================================================================== *)

Section DrawLookup.
Import Pie PieLayout Degenerate.
Context {E : Externals}.

Lemma find_none_Forall (eid : Z) (cmds : list Clay_RenderCommand) :
  Forall (λ cmd, id cmd ≠ eid) cmds →
  List.find (λ cmd, id cmd =? eid) cmds = None.
Proof.
  induction 1 as [|cmd cmds Hne _ IH]; simpl; [done|].
  apply Z.eqb_neq in Hne. by rewrite Hne.
Qed.

Lemma find_first_match (eid : Z) (before afterwards : list Clay_RenderCommand) cmd :
  Forall (λ c, id c ≠ eid) before →
  id cmd = eid →
  List.find (λ c, id c =? eid) (before ++ cmd :: afterwards) = Some cmd.
Proof.
  intros Hbefore Hcmd. induction Hbefore as [|c cs Hne _ IH]; simpl.
  - apply Z.eqb_eq in Hcmd. by rewrite Hcmd.
  - apply Z.eqb_neq in Hne. by rewrite Hne.
Qed.

(** X12: When the config has data and a positive total but no render
    command carries the chart's element id, Clay_PieChart_Draw draws
    nothing and leaves the colour seed alone; it writes to stderr the
    not-found line, the heading and the ids of the first five render
    commands at most: 2 + min(5, n) lines for n commands. *)
Theorem Draw_without_chart_element_only_logs
    m clock chartId cfg renderCommands seed total :
  dataCount cfg ≠ 0 → data cfg ≠ 0 →
  Clay_PieChart__CalculateTotalValue m cfg = Some total →
  F32.leb total F32.zero = false →
  Forall (λ cmd, id cmd ≠ Clay_GetElementId chartId) renderCommands →
  ∃ evs,
    Clay_PieChart_Draw m clock chartId cfg renderCommands seed
    = Some (seed, evs)
    ∧ evs = EvStderr <$> not_found_log (Clay_GetElementId chartId) renderCommands
    ∧ (∀ e, e ∈ evs → ¬ drawable e)
    ∧ length evs = (2 + min 5 (length renderCommands))%nat.
Proof.
  intros Hn Hd Htotal Hpos Hmiss. eexists. split; [|split; [reflexivity|]].
  - unfold Clay_PieChart_Draw.
    apply Z.eqb_neq in Hn, Hd. rewrite Hn, Hd, Htotal. simpl.
    rewrite Hpos. cbv zeta. by rewrite find_none_Forall.
  - split.
    + intros e Hin. apply list_elem_of_fmap in Hin as (l & -> & _). simpl. tauto.
    + rewrite length_fmap. unfold not_found_log.
      rewrite length_app, length_imap, length_take. simpl. lia.
Qed.

(** X13: Clay_PieChart_Draw takes the bounding box of the first render
    command that carries the chart's element id: commands with other ids
    before it and any commands after it, also further ones with the same
    id, make no difference to what is drawn. *)
Theorem Draw_uses_first_matching_command
    m clock chartId cfg before cmd afterwards seed :
  Forall (λ c, id c ≠ Clay_GetElementId chartId) before →
  id cmd = Clay_GetElementId chartId →
  Clay_PieChart_Draw m clock chartId cfg (before ++ cmd :: afterwards) seed
  = Clay_PieChart_Draw m clock chartId cfg [cmd] seed.
Proof.
  intros Hbefore Hcmd. unfold Clay_PieChart_Draw.
  rewrite (find_first_match _ _ _ _ Hbefore Hcmd).
  rewrite (find_first_match _ [] [] cmd); done.
Qed.

End DrawLookup.

(** Six render commands, none of them the chart's: seven lines on
    [stderr]. *)
Lemma Draw_without_chart_element_only_logs_witness :
  ∃ evs,
    PieLayout.Clay_PieChart_Draw (H := sample_externals) Sample.mem 0 "pie"
      Sample.chart Inputs.other_elements 0 = Some (0, evs)
    ∧ evs = EvStderr <$> PieLayout.not_found_log 7 Inputs.other_elements
    ∧ (∀ e, e ∈ evs → ¬ Degenerate.drawable e)
    ∧ length evs = 7%nat.
Proof.
  apply (Draw_without_chart_element_only_logs (E := sample_externals)
           Sample.mem 0 "pie" Sample.chart Inputs.other_elements 0
           (F32.of_Z 100)).
  - by_running.
  - by_running.
  - by_running.
  - by_running.
  - repeat (constructor; [by_running|]). constructor.
Defined.

(** Two commands carry the chart's id: the second one is not looked at. *)
Lemma Draw_uses_first_matching_command_witness :
  PieLayout.Clay_PieChart_Draw (H := sample_externals) Sample.mem 0 "pie"
    Sample.chart
    ([Inputs.element 1 800 600]
     ++ Inputs.element 7 400 300 :: [Inputs.element 7 100 20]) 0
  = PieLayout.Clay_PieChart_Draw (H := sample_externals) Sample.mem 0 "pie"
      Sample.chart [Inputs.element 7 400 300] 0.
Proof.
  apply (Draw_uses_first_matching_command (E := sample_externals)
           Sample.mem 0 "pie" Sample.chart [Inputs.element 1 800 600]
           (Inputs.element 7 400 300) [Inputs.element 7 100 20] 0).
  - repeat (constructor; [by_running|]). constructor.
  - reflexivity.
Defined.


Section LegendItems.
Import Pie Legend Lifecycle.

Lemma legend_items_app d1 d2 :
  legend_items (d1 ++ d2) = legend_items d1 ++ legend_items d2.
Proof. apply omap_app. Qed.

(** The legend loop from index [i] on. *)
Lemma legend_loop_items m clock cfg total count i seed acc seed' decls :
  for_up count i
    (λ i '(seed, decls),
       '(boxColor, seed) ← Clay_PieChart__GetSegmentColor m clock cfg i seed;
       d ← read_data m (data cfg) i;
       if 32 <=? i then None
       else
         let percentage :=
           F32.mul (F32.div (value d) total) (F32.of_Z 100) in
         Some (seed,
               decls ++
               [OpenLegendItem i;
                ColorBox boxColor;
                Text (TextLabel (label d)) (labelFontSize cfg)
                     (labelFontId cfg) (labelTextColor cfg);
                Text (TextPercent percentage)
                     (wrap16 (labelFontSize cfg - 2))
                     (labelFontId cfg) (rgba 120 120 120 255);
                CloseElement]))
    (seed, acc) = Some (seed', decls) →
  legend_items decls
  = legend_items acc ++ ((λ k, i + Z.of_nat k) <$> seq 0 count).
Proof.
  revert i seed acc. induction count as [|k IH]; intros i seed acc; cbn [for_up].
  - intros [= <- <-]. simpl. by rewrite app_nil_r.
  - destruct (Clay_PieChart__GetSegmentColor _ _ _ _ _) as [[c s1]|]; [|done].
    cbn [mbind option_bind].
    destruct (read_data m (data cfg) i) as [d|]; [|done].
    cbn [mbind option_bind].
    destruct (32 <=? i); [done|]. cbv zeta. intros Hloop.
    apply IH in Hloop. rewrite Hloop, legend_items_app. simpl.
    rewrite <- app_assoc. simpl. rewrite Z.add_0_r. do 2 f_equal.
    rewrite <- fmap_S_seq, <- list_fmap_compose.
    apply list_fmap_ext. intros _ k' _. simpl. lia.
Qed.

Lemma RenderLegend_items m clock cfg total seed seed' decls :
  Clay_PieChart__RenderLegend m clock cfg total seed = Some (seed', decls) →
  legend_items decls = Z.of_nat <$> seq 0 (Z.to_nat (dataCount cfg)).
Proof.
  unfold Clay_PieChart__RenderLegend.
  destruct (for_up _ _ _ _) as [[s items]|] eqn:Hloop; [|done].
  simpl. intros [= <- <-].
  apply legend_loop_items in Hloop.
  change (legend_items (OpenLegend (backgroundColor cfg) :: items ++ [CloseElement]))
    with (legend_items (items ++ [CloseElement])).
  rewrite legend_items_app, Hloop. simpl.
  rewrite app_nil_r. apply list_fmap_ext. intros _ k _. simpl. lia.
Qed.

Lemma RenderLegend_overflow m clock cfg total seed :
  32 < dataCount cfg →
  Clay_PieChart__RenderLegend m clock cfg total seed = None.
Proof.
  intros Hn. unfold Clay_PieChart__RenderLegend.
  rewrite (for_up_None _ _ 0 32); [done|lia|].
  intros [s decls].
  destruct (Clay_PieChart__GetSegmentColor _ _ _ _ _) as [[c s1]|]; [|done].
  simpl. by destruct (read_data _ _ _).
Qed.

(** X14: The legend has one item per data point, in index order, and room
    for 32: whenever Clay_PieChart__RenderLegend is defined the config has
    at most 32 data points, and with showLegend set and more than 32 data
    points Clay_PieChart_Render of either variant has undefined behaviour
    on a config it does not skip (the percentage of item 32 is written
    past the 32 rows of percentBuffers). *)
Theorem legend_has_room_for_32_items :
  (∀ id cfg w total h,
     renderable (PieCustom.memory w) cfg total h →
     showLegend cfg = true →
     32 < dataCount cfg →
     PieCustom.Clay_PieChart_Render id cfg w = None)
  ∧ (∀ m clock id cfg width height seed total h,
       renderable m cfg total h →
       showLegend cfg = true →
       32 < dataCount cfg →
       PieLayout.Clay_PieChart_Render m clock id cfg width height seed = None)
  ∧ (∀ m clock cfg total seed seed' decls,
       Clay_PieChart__RenderLegend m clock cfg total seed = Some (seed', decls) →
       dataCount cfg ≤ 32
       ∧ legend_items decls = Z.of_nat <$> seq 0 (Z.to_nat (dataCount cfg))).
Proof.
  split; [|split].
  - intros id cfg w total h (Hn & Hd & Htotal & Hpos & Hhash) Hlegend Hmany.
    unfold PieCustom.Clay_PieChart_Render.
    apply Z.eqb_neq in Hn, Hd. rewrite Hn, Hd, Htotal. simpl.
    rewrite Hpos, Hhash. simpl. cbv zeta. rewrite Hlegend.
    by rewrite RenderLegend_overflow.
  - intros m clock id cfg width height seed total h
      (Hn & Hd & Htotal & Hpos & Hhash) Hlegend Hmany.
    unfold PieLayout.Clay_PieChart_Render.
    apply Z.eqb_neq in Hn, Hd. rewrite Hn, Hd, Htotal. simpl.
    rewrite Hpos, Hlegend. unfold PieLayout.Clay_PieChart__RenderLegend.
    rewrite Htotal. simpl. by rewrite RenderLegend_overflow.
  - intros m clock cfg total seed seed' decls Hrun. split.
    + destruct (Z.le_gt_cases (dataCount cfg) 32) as [|Hmany]; [done|].
      by rewrite RenderLegend_overflow in Hrun by lia.
    + by eapply RenderLegend_items.
Qed.

End LegendItems.

(** A legend for 33 data points, and the legend of the sample chart. *)
Lemma legend_has_room_for_32_items_witness :
  PieCustom.Clay_PieChart_Render "pie" Inputs.crowded_chart
    (PieCustom.initial_world Inputs.crowded_mem 0) = None
  ∧ PieLayout.Clay_PieChart_Render Inputs.crowded_mem 0 "pie"
      Inputs.crowded_chart (F32.of_Z 400) (F32.of_Z 300) 0 = None
  ∧ ∃ seed' decls,
      Pie.Clay_PieChart__RenderLegend Sample.mem 0 Inputs.legend_chart
        (F32.of_Z 100) 0 = Some (seed', decls)
      ∧ Pie.dataCount Inputs.legend_chart ≤ 32
      ∧ Legend.legend_items decls = [0; 1; 2].
Proof.
  destruct legend_has_room_for_32_items as (Hcustom & Hlayout & Hitems).
  split; [|split].
  - apply (Hcustom "pie" Inputs.crowded_chart
             (PieCustom.initial_world Inputs.crowded_mem 0)
             (F32.of_Z 33) 938667165).
    + repeat split; by_running.
    + reflexivity.
    + by_running.
  - apply (Hlayout Inputs.crowded_mem 0 "pie" Inputs.crowded_chart
             (F32.of_Z 400) (F32.of_Z 300) 0 (F32.of_Z 33) 938667165).
    + repeat split; by_running.
    + reflexivity.
    + by_running.
  - destruct (Pie.Clay_PieChart__RenderLegend Sample.mem 0 Inputs.legend_chart
                (F32.of_Z 100) 0) as [[seed' decls]|] eqn:Hrun;
      [|vm_compute in Hrun; discriminate].
    exists seed', decls. split; [reflexivity|].
    apply (Hitems Sample.mem 0 Inputs.legend_chart (F32.of_Z 100) 0 seed' decls).
    exact Hrun.
Defined.

(* ===================================================================== *)
(** * The colours of the legend                                          *)
(* ===================================================================== *)

Section LegendColours.
Import Pie Legend Colours.
Context {E : Externals}.

(** Outside random mode the colour of a segment depends neither on the
    generator's state nor on the clock, and leaves the state alone. *)
Lemma GetSegmentColor_plain m clock cfg i seed :
  colorMode cfg ≠ CLAY_PIECHART_COLOR_MODE_RANDOM →
  Clay_PieChart__GetSegmentColor m clock cfg i seed
  = c ← plain_color m cfg i; Some (c, seed).
Proof.
  intros Hmode. unfold plain_color, Clay_PieChart__GetSegmentColor.
  destruct (colorMode cfg =? CLAY_PIECHART_COLOR_MODE_PER_SEGMENT).
  { by destruct (read_data _ _ _). }
  destruct (colorMode cfg =? CLAY_PIECHART_COLOR_MODE_PALETTE).
  { destruct (colorConfig cfg) as [colors count| |]; try done.
    destruct (_ && _).
    - by destruct (read_color _ _ _).
    - by destruct (read_data _ _ _). }
  destruct (colorMode cfg =? CLAY_PIECHART_COLOR_MODE_GRADIENT).
  { by destruct (colorConfig cfg). }
  destruct (Z.eqb_spec (colorMode cfg) CLAY_PIECHART_COLOR_MODE_RANDOM);
    [done|].
  by destruct (read_data _ _ _).
Qed.

Lemma plain_color_same_coloring m c1 c2 i :
  same_coloring c1 c2 → plain_color m c1 i = plain_color m c2 i.
Proof.
  intros (Hd & Hn & Hm & Hc). unfold plain_color, Clay_PieChart__GetSegmentColor.
  by rewrite Hd, Hn, Hm, Hc.
Qed.

Lemma legend_colors_app d1 d2 :
  legend_colors (d1 ++ d2) = legend_colors d1 ++ legend_colors d2.
Proof. apply omap_app. Qed.

Lemma sector_colors_app c1 c2 :
  sector_colors (c1 ++ c2) = sector_colors c1 ++ sector_colors c2.
Proof. apply omap_app. Qed.

Lemma legend_loop_colors m clock cfg total count i seed acc seed' decls :
  colorMode cfg ≠ CLAY_PIECHART_COLOR_MODE_RANDOM →
  for_up count i
    (λ i '(seed, decls),
       '(boxColor, seed) ← Clay_PieChart__GetSegmentColor m clock cfg i seed;
       d ← read_data m (data cfg) i;
       if 32 <=? i then None
       else
         let percentage :=
           F32.mul (F32.div (value d) total) (F32.of_Z 100) in
         Some (seed,
               decls ++
               [OpenLegendItem i;
                ColorBox boxColor;
                Text (TextLabel (label d)) (labelFontSize cfg)
                     (labelFontId cfg) (labelTextColor cfg);
                Text (TextPercent percentage)
                     (wrap16 (labelFontSize cfg - 2))
                     (labelFontId cfg) (rgba 120 120 120 255);
                CloseElement]))
    (seed, acc) = Some (seed', decls) →
  seed' = seed
  ∧ ∃ cs, read_all (plain_color m cfg) i count = Some cs
          ∧ legend_colors decls = legend_colors acc ++ cs.
Proof.
  intros Hmode. revert i seed acc.
  induction count as [|k IH]; intros i seed acc; cbn [for_up read_all].
  - intros [= <- <-]. split; [done|]. exists []. by rewrite app_nil_r.
  - rewrite (GetSegmentColor_plain _ _ _ _ _ Hmode).
    destruct (plain_color m cfg i) as [c|]; [|done].
    cbn [mbind option_bind].
    destruct (read_data m (data cfg) i) as [d|]; [|done].
    cbn [mbind option_bind].
    destruct (32 <=? i); [done|]. cbv zeta. intros Hloop.
    apply IH in Hloop as (-> & cs & -> & Hcs). split; [done|].
    exists (c :: cs). split; [done|].
    rewrite Hcs, legend_colors_app. simpl. by rewrite <- app_assoc.
Qed.

Lemma RenderSegment_color m clock d index cx cy start sw cfg isLast seed
    drawn seed' :
  colorMode cfg ≠ CLAY_PIECHART_COLOR_MODE_RANDOM →
  Clay_PieChart__RenderSegment m clock d index cx cy start sw cfg isLast seed
    = Some (drawn, seed') →
  seed' = seed
  ∧ ∃ c rc, plain_color m cfg index = Some c
            ∧ to_raylib_color c = Some rc
            ∧ sector_colors drawn = [rc].
Proof.
  intros Hmode. unfold Clay_PieChart__RenderSegment.
  destruct (if exploded d then _ else _) as [offsetX offsetY].
  rewrite (GetSegmentColor_plain _ _ _ _ _ Hmode).
  destruct (plain_color m cfg index) as [c|]; [|done].
  simpl. destruct (to_raylib_color c) as [rc|] eqn:Hrc; [|done]. simpl.
  destruct (showSectorLines cfg && negb isLast).
  - destruct (to_raylib_color (sectorLineColor cfg)) as [lc|]; [|done].
    simpl. intros [= <- <-]. split; [done|]. exists c, rc.
    split; [done|]. split; [done|]. by destruct (F32.ltb _ _).
  - intros [= <- <-]. split; [done|]. exists c, rc.
    split; [done|]. split; [done|]. by destruct (F32.ltb _ _).
Qed.

Lemma segment_loop_colors m clock cfg total cx cy count i cur seed acc
    endA seed' cmds :
  colorMode cfg ≠ CLAY_PIECHART_COLOR_MODE_RANDOM →
  for_up count i
    (λ i '(currentAngleDeg, seed, cmds),
       d ← read_data m (data cfg) i;
       let sweepAngleDeg :=
         F32.mul (F32.div (value d) total) (F32.of_Z 360) in
       '(drawn, seed) ← Clay_PieChart__RenderSegment m clock d i
          cx cy currentAngleDeg sweepAngleDeg cfg
          (i =? wrap32 (dataCount cfg - 1)) seed;
       Some (F32.add currentAngleDeg sweepAngleDeg, seed, cmds ++ drawn))
    (cur, seed, acc) = Some (endA, seed', cmds) →
  seed' = seed
  ∧ ∃ cs rcs, read_all (plain_color m cfg) i count = Some cs
              ∧ Forall2 (λ c rc, to_raylib_color c = Some rc) cs rcs
              ∧ sector_colors cmds = sector_colors acc ++ rcs.
Proof.
  intros Hmode. revert i cur seed acc.
  induction count as [|k IH]; intros i cur seed acc; cbn [for_up read_all].
  - intros [= <- <- <-]. split; [done|]. exists [], [].
    split; [done|]. split; [constructor|]. by rewrite app_nil_r.
  - destruct (read_data m (data cfg) i) as [d|]; [|done].
    cbn [mbind option_bind]. cbv zeta.
    destruct (Clay_PieChart__RenderSegment _ _ _ _ _ _ _ _ _ _ _)
      as [[drawn s1]|] eqn:Hseg; [|done].
    cbn [mbind option_bind]. intros Hloop.
    apply (RenderSegment_color _ _ _ _ _ _ _ _ _ _ _ _ _ Hmode) in Hseg
      as (-> & c & rc & Hc & Hrc & Hdrawn).
    apply IH in Hloop as (-> & cs & rcs & Hcs & Hall & Hcolors).
    split; [done|]. exists (c :: cs), (rc :: rcs).
    rewrite Hc, Hcs. split; [done|]. split; [by constructor|].
    rewrite Hcolors, sector_colors_app, Hdrawn. by rewrite <- app_assoc.
Qed.

(** X15: Outside random colour mode the legend shows the colours of the
    segments: for configs with the same data, colour mode and colour
    configuration, the colours of the legend's colour boxes, converted to
    8-bit colours, are the fill colours of the drawn sectors, one for one
    and in order, and neither the legend nor the segment loop changes the
    colour seed. *)
Theorem legend_shows_segment_colors
    m clock cfg drawnCfg total total' cx cy seed seed1 decls
    seed2 endA seed3 cmds :
  colorMode cfg ≠ CLAY_PIECHART_COLOR_MODE_RANDOM →
  same_coloring cfg drawnCfg →
  Clay_PieChart__RenderLegend m clock cfg total seed = Some (seed1, decls) →
  render_segments m clock drawnCfg total' cx cy seed2
    = Some (endA, seed3, cmds) →
  Forall2 (λ c rc, to_raylib_color c = Some rc)
    (legend_colors decls) (sector_colors cmds)
  ∧ seed1 = seed ∧ seed3 = seed2.
Proof.
  intros Hmode Hsame Hlegend Hsegments.
  assert (colorMode drawnCfg ≠ CLAY_PIECHART_COLOR_MODE_RANDOM) as Hmode'
    by (destruct Hsame as (_ & _ & <- & _); done).
  unfold Clay_PieChart__RenderLegend in Hlegend.
  destruct (for_up _ _ _ _) as [[s items]|] eqn:Hloop; [|done].
  simpl in Hlegend. injection Hlegend as <- <-.
  apply (legend_loop_colors _ _ _ _ _ _ _ _ _ _ Hmode) in Hloop
    as (-> & cs & Hcs & Hitems).
  unfold render_segments in Hsegments.
  apply (segment_loop_colors _ _ _ _ _ _ _ _ _ _ _ _ _ _ Hmode') in Hsegments
    as (-> & cs' & rcs & Hcs' & Hall & Hcolors).
  assert (cs' = cs) as ->.
  { pose proof Hsame as (_ & Hn & _). rewrite <- Hn in Hcs'.
    rewrite (read_all_ext _ (plain_color m cfg)) in Hcs'; [congruence|].
    intros j. symmetry. by apply plain_color_same_coloring. }
  split; [|done].
  change (legend_colors (OpenLegend (backgroundColor cfg) :: items ++ [CloseElement]))
    with (legend_colors (items ++ [CloseElement])).
  rewrite legend_colors_app, Hitems, Hcolors. simpl. by rewrite app_nil_r.
Qed.

End LegendColours.

(** The legend of the sample chart next to the segments drawn for it. *)
Lemma legend_shows_segment_colors_witness :
  ∃ seed1 decls endA seed3 cmds,
    Pie.Clay_PieChart__RenderLegend Sample.mem 0 Inputs.legend_chart
      (F32.of_Z 100) 0 = Some (seed1, decls)
    ∧ Pie.render_segments (H := sample_externals) Sample.mem 0 Sample.chart
        (F32.of_Z 100) (F32.of_Z 64) (F32.of_Z 64) 0
      = Some (endA, seed3, cmds)
    ∧ Forall2 (λ c rc, to_raylib_color c = Some rc)
        (Legend.legend_colors decls) (Colours.sector_colors cmds)
    ∧ seed1 = 0 ∧ seed3 = 0.
Proof.
  destruct (Pie.Clay_PieChart__RenderLegend Sample.mem 0 Inputs.legend_chart
              (F32.of_Z 100) 0) as [[seed1 decls]|] eqn:Hlegend;
    [|vm_compute in Hlegend; discriminate].
  destruct (Pie.render_segments (H := sample_externals) Sample.mem 0
              Sample.chart (F32.of_Z 100) (F32.of_Z 64) (F32.of_Z 64) 0)
    as [[[endA seed3] cmds]|] eqn:Hsegments;
    [|vm_compute in Hsegments; discriminate].
  exists seed1, decls, endA, seed3, cmds.
  split; [reflexivity|]. split; [reflexivity|].
  apply (legend_shows_segment_colors (E := sample_externals)
           Sample.mem 0 Inputs.legend_chart Sample.chart (F32.of_Z 100)
           (F32.of_Z 100) (F32.of_Z 64) (F32.of_Z 64) 0 seed1 decls 0 endA
           seed3 cmds).
  - by_running.
  - repeat split; reflexivity.
  - exact Hlegend.
  - exact Hsegments.
Defined.

(* ===================================================================== *)
(** * Bar chart: the scale                                               *)
(* ===================================================================== *)

Section FloatOrder.

(** [<] on floats is irreflexive and transitive (NaN is below and above
    nothing). *)
Lemma SFltb_irrefl (x : spec_float) : F32.ltb x x = false.
Proof.
  unfold F32.ltb, SFltb, SFcompare. destruct x as [[]|[]| |[] m e]; try done;
    rewrite Z.compare_refl;
    change (Pos.compare_cont Eq m m) with (Pos.compare m m);
    by rewrite Pos.compare_refl.
Qed.

Lemma SFltb_trans (x y z : spec_float) :
  F32.ltb x y = true → F32.ltb y z = true → F32.ltb x z = true.
Proof.
  unfold F32.ltb, SFltb, SFcompare.
  destruct x as [[]|[]| |[] mx ex], y as [[]|[]| |[] my ey],
    z as [[]|[]| |[] mz ez]; try done;
    change (Pos.compare_cont Eq ?p ?q) with (Pos.compare p q);
    destruct (Z.compare_spec ex ey), (Z.compare_spec ey ez),
      (Z.compare_spec ex ez); try done; try lia;
    destruct (Pos.compare_spec mx my), (Pos.compare_spec my mz),
      (Pos.compare_spec mx mz); simpl; try done; try lia.
Qed.

(** Where neither [x < y] nor [y < z], and [y] is a number, [x < z] does
    not hold either. *)
Lemma SFltb_neg_trans (x y z : spec_float) :
  y ≠ S754_nan →
  F32.ltb x y = false → F32.ltb y z = false → F32.ltb x z = false.
Proof.
  unfold F32.ltb, SFltb, SFcompare.
  destruct x as [[]|[]| |[] mx ex], y as [[]|[]| |[] my ey],
    z as [[]|[]| |[] mz ez]; try done;
    change (Pos.compare_cont Eq ?p ?q) with (Pos.compare p q);
    destruct (Z.compare_spec ex ey), (Z.compare_spec ey ez),
      (Z.compare_spec ex ez); try done; try lia;
    destruct (Pos.compare_spec mx my), (Pos.compare_spec my mz),
      (Pos.compare_spec mx mz); simpl; try done; try lia.
Qed.

End FloatOrder.

Section BarMaximum.
Import Bar BarRender BarLayout.

Lemma CalculateMaxValue_fold m cfg :
  F32.ltb F32.zero (maxValue cfg) = false →
  Clay_BarChart__CalculateMaxValue m cfg
  = ds ← read_all (read_data m (data cfg)) 0 (Z.to_nat (dataCount cfg));
    Some (F32.mul (fold_left larger ds F32.zero) padding).
Proof.
  intros Hauto. unfold Clay_BarChart__CalculateMaxValue. rewrite Hauto.
  rewrite (for_up_fold (read_data m (data cfg)) larger).
  by destruct (read_all _ _ _).
Qed.

Lemma fold_larger_nan ds : fold_left larger ds S754_nan = S754_nan.
Proof. induction ds as [|d ds IH]; simpl; [done|]. exact IH. Qed.

(** The running maximum dominates its start value and everything seen, and
    is one of them. *)
Lemma running_maximum ds init :
  let mx := fold_left larger ds init in
  F32.ltb mx init = false
  ∧ (∀ d, d ∈ ds → F32.ltb mx (value d) = false)
  ∧ (mx = init ∨ ∃ d, d ∈ ds ∧ mx = value d).
Proof.
  cbv zeta. revert init. induction ds as [|d ds IH]; intros init; simpl.
  - split; [apply SFltb_irrefl|]. split; [|by left].
    intros d Hin. by apply elem_of_nil in Hin.
  - destruct (IH (larger init d)) as (Hinit & Hall & Hmem).
    set (mx := fold_left larger ds (larger init d)) in *.
    split; [|split].
    + unfold larger in Hinit. destruct (F32.ltb init (value d)) eqn:Hd; [|done].
      destruct (F32.ltb mx init) eqn:Hlt; [|done].
      by rewrite (SFltb_trans _ _ _ Hlt Hd) in Hinit.
    + intros d' Hin. apply elem_of_cons in Hin as [->|Hin]; [|by apply Hall].
      unfold larger in Hinit. destruct (F32.ltb init (value d)) eqn:Hd; [done|].
      assert (init = S754_nan ∨ init ≠ S754_nan) as [->|Hnan]
        by (destruct init; auto).
      * subst mx. unfold larger at 2. simpl.
        by rewrite fold_larger_nan.
      * by apply (SFltb_neg_trans _ init).
    + destruct Hmem as [->|(d' & Hin & ->)].
      * unfold larger. destruct (F32.ltb init (value d)); [|by left].
        right. exists d. split; [apply elem_of_cons; by left|done].
      * right. exists d'. split; [apply elem_of_cons; by right|done].
Qed.

(** X16: Clay_BarChart__CalculateMaxValue returns config->maxValue when
    that is greater than 0. Otherwise it returns mx * 1.1f, where mx is 0
    or the value of one of the data points, mx is not negative, and no
    data value is greater than mx. *)
Theorem CalculateMaxValue_is_padded_maximum m cfg :
  (F32.ltb F32.zero (maxValue cfg) = true →
     Clay_BarChart__CalculateMaxValue m cfg = Some (maxValue cfg))
  ∧ (F32.ltb F32.zero (maxValue cfg) = false →
     ∀ ds,
       read_all (read_data m (data cfg)) 0 (Z.to_nat (dataCount cfg)) = Some ds →
       ∃ mx,
         Clay_BarChart__CalculateMaxValue m cfg = Some (F32.mul mx padding)
         ∧ F32.ltb mx F32.zero = false
         ∧ (∀ d, d ∈ ds → F32.ltb mx (value d) = false)
         ∧ (mx = F32.zero ∨ ∃ d, d ∈ ds ∧ mx = value d)).
Proof.
  split.
  - intros Hset. unfold Clay_BarChart__CalculateMaxValue. by rewrite Hset.
  - intros Hauto ds Hds. rewrite (CalculateMaxValue_fold _ _ Hauto), Hds.
    simpl. eexists. split; [reflexivity|]. apply running_maximum.
Qed.

End BarMaximum.

(** The first quarter: the search ends at 50, the scale is 50 times
    [padding]. *)
Lemma CalculateMaxValue_is_padded_maximum_witness :
  ∃ mx,
    BarRender.Clay_BarChart__CalculateMaxValue Inputs.sales_mem
      Inputs.vertical_chart = Some (F32.mul mx BarRender.padding)
    ∧ F32.ltb mx F32.zero = false
    ∧ (∀ d, d ∈ Inputs.first_quarter → F32.ltb mx (Bar.value d) = false)
    ∧ (mx = F32.zero ∨ ∃ d, d ∈ Inputs.first_quarter ∧ mx = Bar.value d).
Proof.
  apply (proj2 (CalculateMaxValue_is_padded_maximum Inputs.sales_mem
                  Inputs.vertical_chart)).
  - by_running.
  - by_running.
Defined.

(* ===================================================================== *)
(** * Bar chart: the elements declared                                   *)
(* ===================================================================== *)

Section BarElements.
Import Bar BarRender BarLayout.

Lemma skeleton_app d1 d2 : skeleton (d1 ++ d2) = skeleton d1 ++ skeleton d2.
Proof. apply omap_app. Qed.
Lemma rows_app d1 d2 : rows (d1 ++ d2) = rows d1 ++ rows d2.
Proof. apply omap_app. Qed.
Lemma bar_boxes_app d1 d2 : bar_boxes (d1 ++ d2) = bar_boxes d1 ++ bar_boxes d2.
Proof. apply omap_app. Qed.
Lemma value_rows_app d1 d2 :
  value_rows (d1 ++ d2) = value_rows d1 ++ value_rows d2.
Proof. apply omap_app. Qed.

(** What one vertical bar declares and writes. *)
Lemma RenderVerticalBar_inv m clock d index h lh cfg st st' bar :
  Clay_BarChart__RenderVerticalBar m clock d index h lh cfg st
    = Some (st', bar) →
  skeleton bar = [inl (index, CLAY_SIZING_FIXED (F32.add h lh))]
  ∧ value_rows bar = (if showValues cfg then [VerticalValue index] else [])
  ∧ horizontal_valueBuffers st' = horizontal_valueBuffers st
  ∧ (if showValues cfg
     then index < 32
          ∧ vertical_valueBuffers st'
            = <[Z.to_nat index := Some (value d)]> (vertical_valueBuffers st)
     else vertical_valueBuffers st' = vertical_valueBuffers st).
Proof.
  unfold Clay_BarChart__RenderVerticalBar, format_value.
  destruct (showValues cfg).
  - destruct (Z.ltb_spec index 32); [|done]. simpl.
    destruct (Clay_BarChart__GetBarColor _ _ _ _ _) as [[c s]|]; [|done].
    simpl. intros [= <- <-]. simpl.
    by destruct (label_shown cfg d).
  - simpl.
    destruct (Clay_BarChart__GetBarColor _ _ _ _ _) as [[c s]|]; [|done].
    simpl. intros [= <- <-]. simpl.
    by destruct (label_shown cfg d).
Qed.

(** What one horizontal bar declares and writes. *)
Lemma RenderHorizontalBar_inv m clock d index barHeight maxWidth cfg st st' bar :
  Clay_BarChart__RenderHorizontalBar m clock d index barHeight maxWidth cfg st
    = Some (st', bar) →
  ∃ mx,
    Clay_BarChart__CalculateMaxValue m cfg = Some mx
    ∧ skeleton bar = [inl (index, CLAY_SIZING_FIXED barHeight)]
    ∧ rows bar = [("BarH"%string, index, CLAY_SIZING_GROW F32.zero,
                   CLAY_SIZING_FIXED barHeight)]
    ∧ bar_boxes bar
      = [(CLAY_SIZING_FIXED (F32.mul (F32.div (value d) mx) maxWidth),
          CLAY_SIZING_FIXED (F32.sub barHeight (F32.of_Z 8)))]
    ∧ value_rows bar = (if showValues cfg then [HorizontalValue index] else [])
    ∧ vertical_valueBuffers st' = vertical_valueBuffers st
    ∧ (if showValues cfg
       then index < 32
            ∧ horizontal_valueBuffers st'
              = <[Z.to_nat index := Some (value d)]> (horizontal_valueBuffers st)
       else horizontal_valueBuffers st' = horizontal_valueBuffers st).
Proof.
  unfold Clay_BarChart__RenderHorizontalBar, format_value.
  destruct (Clay_BarChart__CalculateMaxValue m cfg) as [mx|]; [|done]. simpl.
  destruct (Clay_BarChart__GetBarColor _ _ _ _ _) as [[c s]|]; [|done]. simpl.
  destruct (showValues cfg).
  - destruct (Z.ltb_spec index 32); [|done]. simpl.
    intros [= <- <-]. exists mx. simpl.
    rewrite !skeleton_app, !rows_app, !bar_boxes_app, !value_rows_app.
    by destruct (label_shown cfg d).
  - simpl. intros [= <- <-]. exists mx. simpl.
    rewrite !skeleton_app, !rows_app, !bar_boxes_app, !value_rows_app.
    by destruct (label_shown cfg d).
Qed.

(** The loop over the vertical bars, from index [i] on. *)
Lemma vertical_loop m clock cfg mx lh count i st acc st' decls :
  for_up count i
    (λ i '(st, decls),
       d ← read_data m (data cfg) i;
       let barHeightRatio := F32.div (value d) mx in
       let calculatedBarHeight := F32.mul barHeightRatio (F32.of_Z 350) in
       '(st, bar) ← Clay_BarChart__RenderVerticalBar m clock d i
                      calculatedBarHeight lh cfg st;
       let gap :=
         if i <? wrap32 (dataCount cfg - 1)
         then [Gap i (CLAY_SIZING_GROW F32.one)] else [] in
       Some (st, decls ++ bar ++ gap))
    (st, acc) = Some (st', decls) →
  ∃ ds,
    read_all (read_data m (data cfg)) i count = Some ds
    ∧ skeleton decls
      = skeleton acc
        ++ bars_and_gaps i (wrap32 (dataCount cfg - 1)) mx lh ds
    ∧ value_rows decls
      = value_rows acc
        ++ (if showValues cfg
            then (λ k, VerticalValue (i + Z.of_nat k)) <$> seq 0 count
            else []).
Proof.
  revert i st acc. induction count as [|k IH]; intros i st acc;
    cbn [for_up read_all].
  - intros [= <- <-]. exists []. simpl. rewrite !app_nil_r.
    destruct (showValues cfg); by rewrite app_nil_r.
  - destruct (read_data m (data cfg) i) as [d|]; [|done].
    cbn [mbind option_bind]. cbv zeta.
    destruct (Clay_BarChart__RenderVerticalBar _ _ _ _ _ _ _ _)
      as [[st1 bar]|] eqn:Hbar; [|done].
    cbn [mbind option_bind]. intros Hloop.
    apply RenderVerticalBar_inv in Hbar as (Hsk & Hrows & _).
    apply IH in Hloop as (ds & -> & Hdecls & Hvalues).
    exists (d :: ds). split; [done|]. split.
    + rewrite Hdecls, !skeleton_app, Hsk. cbn [bars_and_gaps].
      rewrite <- !app_assoc. simpl. do 2 f_equal.
      by destruct (i <? wrap32 (dataCount cfg - 1)).
    + rewrite Hvalues, !value_rows_app, Hrows.
      rewrite <- !app_assoc. f_equal.
      assert (value_rows (if i <? wrap32 (dataCount cfg - 1)
                          then [Gap i (CLAY_SIZING_GROW F32.one)] else []) = [])
        as -> by (by destruct (_ <? _)).
      destruct (showValues cfg); [|done]. simpl.
      rewrite Z.add_0_r. f_equal.
      rewrite <- fmap_S_seq, <- list_fmap_compose.
      apply list_fmap_ext. intros _ k' _. simpl. f_equal. lia.
Qed.

(** The loop over the horizontal bars, from index [i] on. *)
Lemma horizontal_loop m clock cfg count i st acc st' decls :
  for_up count i
    (λ i '(st, decls),
       d ← read_data m (data cfg) i;
       '(st, bar) ← Clay_BarChart__RenderHorizontalBar m clock d i
                      (barWidth cfg) (value d) cfg st;
       Some (st, decls ++ bar))
    (st, acc) = Some (st', decls) →
  ∃ ds,
    read_all (read_data m (data cfg)) i count = Some ds
    ∧ (∀ mx, Clay_BarChart__CalculateMaxValue m cfg = Some mx →
         rows decls
         = rows acc
           ++ imap (λ k _, ("BarH"%string, i + Z.of_nat k,
                            CLAY_SIZING_GROW F32.zero,
                            CLAY_SIZING_FIXED (barWidth cfg))) ds
         ∧ bar_boxes decls
           = bar_boxes acc
             ++ ((λ d, (CLAY_SIZING_FIXED (scaled_width mx d),
                        CLAY_SIZING_FIXED (F32.sub (barWidth cfg) (F32.of_Z 8))))
                   <$> ds))
    ∧ skeleton decls
      = skeleton acc
        ++ imap (λ k _, inl (i + Z.of_nat k, CLAY_SIZING_FIXED (barWidth cfg))) ds.
Proof.
  revert i st acc. induction count as [|k IH]; intros i st acc;
    cbn [for_up read_all].
  - intros [= <- <-]. exists []. simpl. rewrite !app_nil_r. done.
  - destruct (read_data m (data cfg) i) as [d|]; [|done].
    cbn [mbind option_bind].
    destruct (Clay_BarChart__RenderHorizontalBar _ _ _ _ _ _ _ _)
      as [[st1 bar]|] eqn:Hbar; [|done].
    cbn [mbind option_bind]. intros Hloop.
    apply RenderHorizontalBar_inv in Hbar
      as (mx0 & Hmx0 & Hsk & Hrows & Hboxes & _).
    apply IH in Hloop as (ds & -> & Hdecls & Hskel).
    exists (d :: ds). split; [done|]. split.
    + intros mx Hmx. rewrite Hmx in Hmx0. injection Hmx0 as <-.
      destruct (Hdecls mx Hmx) as [-> ->].
      rewrite !rows_app, !bar_boxes_app, Hrows, Hboxes.
      rewrite <- !app_assoc. simpl. rewrite Z.add_0_r.
      split; do 2 f_equal.
      apply imap_ext. intros k' d' _. simpl. do 3 f_equal. lia.
    + rewrite Hskel, skeleton_app, Hsk. rewrite <- app_assoc. simpl.
      rewrite Z.add_0_r. do 2 f_equal.
      apply imap_ext. intros k' d' _. simpl. do 2 f_equal. lia.
Qed.

Lemma render_chart_vertical m clock id cfg st st' decls :
  0 < dataCount cfg < 2 ^ 32 → data cfg ≠ 0 →
  orientation cfg = CLAY_BARCHART_ORIENTATION_VERTICAL →
  render_chart m clock id cfg st = Some (st', decls) →
  ∃ mx ds,
    Clay_BarChart__CalculateMaxValue m cfg = Some mx
    ∧ read_all (read_data m (data cfg)) 0 (Z.to_nat (dataCount cfg)) = Some ds
    ∧ skeleton decls
      = bars_and_gaps 0 (dataCount cfg - 1) mx (labelHeight cfg) ds
    ∧ value_rows decls
      = (if showValues cfg
         then VerticalValue <$> (Z.of_nat <$> seq 0 (Z.to_nat (dataCount cfg)))
         else []).
Proof.
  intros Hn Hd Hvert. unfold render_chart.
  assert ((dataCount cfg =? 0) = false) as -> by (apply Z.eqb_neq; lia).
  apply Z.eqb_neq in Hd. rewrite Hd. simpl.
  destruct (Clay_BarChart__CalculateMaxValue m cfg) as [mx|]; [|done].
  simpl. rewrite Hvert, Z.eqb_refl. unfold vertical_bars. cbv zeta.
  fold (labelHeight cfg).
  destruct (for_up _ _ _ _) as [[st1 bars]|] eqn:Hloop; [|done].
  simpl. intros [= <- <-].
  apply vertical_loop in Hloop as (ds & Hds & Hsk & Hvalues).
  exists mx, ds. split; [done|]. split; [done|].
  assert (wrap32 (dataCount cfg - 1) = dataCount cfg - 1) as Hlast
    by (unfold wrap32; apply Z.mod_small; lia).
  rewrite Hlast in Hsk.
  change (OpenChart id true (backgroundColor cfg) :: bars ++ [CloseElement])
    with ([OpenChart id true (backgroundColor cfg)] ++ bars ++ [CloseElement]).
  rewrite !skeleton_app, !value_rows_app, Hsk, Hvalues. simpl.
  rewrite !app_nil_r. split; [done|].
  destruct (showValues cfg); [|done].
  rewrite <- list_fmap_compose. apply list_fmap_ext. intros _ k _. simpl.
  f_equal.
Qed.

(** X17: A vertical bar chart of n data points (0 < n < 2^32) declares one
    bar container per data point, in index order, of fixed height value /
    max * 350 + label height, followed by a gap element after every bar
    but the last. With showValues each bar has one value text, whose
    characters are row i of the static array valueBuffers; without it
    there is none. *)
Theorem vertical_chart_has_a_gap_between_bars
    m clock id cfg st st' decls :
  0 < dataCount cfg < 2 ^ 32 → data cfg ≠ 0 →
  orientation cfg = CLAY_BARCHART_ORIENTATION_VERTICAL →
  render_chart m clock id cfg st = Some (st', decls) →
  ∃ mx ds,
    Clay_BarChart__CalculateMaxValue m cfg = Some mx
    ∧ read_all (read_data m (data cfg)) 0 (Z.to_nat (dataCount cfg)) = Some ds
    ∧ skeleton decls
      = bars_and_gaps 0 (dataCount cfg - 1) mx (labelHeight cfg) ds
    ∧ value_rows decls
      = (if showValues cfg
         then VerticalValue <$> (Z.of_nat <$> seq 0 (Z.to_nat (dataCount cfg)))
         else []).
Proof. apply render_chart_vertical. Qed.

(** X18: In a horizontal bar chart every bar container has growing width
    and fixed height barWidth, and there are no gaps; the coloured bar is
    barWidth - 8 high and (value / max) * value wide, since the renderer
    passes the bar's own value as the maximum width. *)
Theorem horizontal_bar_width_is_share_times_value
    m clock id cfg st st' decls :
  dataCount cfg ≠ 0 → data cfg ≠ 0 →
  orientation cfg ≠ CLAY_BARCHART_ORIENTATION_VERTICAL →
  render_chart m clock id cfg st = Some (st', decls) →
  ∃ mx ds,
    Clay_BarChart__CalculateMaxValue m cfg = Some mx
    ∧ read_all (read_data m (data cfg)) 0 (Z.to_nat (dataCount cfg)) = Some ds
    ∧ rows decls
      = imap (λ k _, ("BarH"%string, Z.of_nat k, CLAY_SIZING_GROW F32.zero,
                      CLAY_SIZING_FIXED (barWidth cfg))) ds
    ∧ bar_boxes decls
      = (λ d, (CLAY_SIZING_FIXED (scaled_width mx d),
               CLAY_SIZING_FIXED (F32.sub (barWidth cfg) (F32.of_Z 8)))) <$> ds
    ∧ skeleton decls
      = imap (λ k _, inl (Z.of_nat k, CLAY_SIZING_FIXED (barWidth cfg))) ds.
Proof.
  intros Hn Hd Hhoriz. unfold render_chart.
  apply Z.eqb_neq in Hn, Hd, Hhoriz. rewrite Hn, Hd. simpl.
  destruct (Clay_BarChart__CalculateMaxValue m cfg) as [mx|] eqn:Hmx; [|done].
  simpl. rewrite Hhoriz. unfold horizontal_bars.
  destruct (for_up _ _ _ _) as [[st1 bars]|] eqn:Hloop; [|done].
  simpl. intros [= <- <-].
  apply horizontal_loop in Hloop as (ds & Hds & Hdecls & Hsk).
  destruct (Hdecls mx Hmx) as [Hrows Hboxes].
  exists mx, ds. split; [done|]. split; [done|].
  change (OpenChart id false (backgroundColor cfg) :: bars ++ [CloseElement])
    with ([OpenChart id false (backgroundColor cfg)] ++ bars ++ [CloseElement]).
  rewrite !rows_app, !bar_boxes_app, !skeleton_app, Hrows, Hboxes, Hsk. simpl.
  by rewrite !app_nil_r.
Qed.

End BarElements.

(** Three vertical bars: two gaps. *)
Lemma vertical_chart_has_a_gap_between_bars_witness :
  let run := Inputs.rendered
               (BarRender.render_chart Inputs.sales_mem 0 (BarRender.CLAY_SID "sales")
                  Inputs.vertical_chart BarRender.initial_statics) in
  ∃ mx ds,
    BarRender.Clay_BarChart__CalculateMaxValue Inputs.sales_mem
      Inputs.vertical_chart = Some mx
    ∧ read_all (Bar.read_data Inputs.sales_mem 4096) 0 3 = Some ds
    ∧ BarLayout.skeleton run.2
      = BarLayout.bars_and_gaps 0 2 mx
          (BarLayout.labelHeight Inputs.vertical_chart) ds
    ∧ BarLayout.value_rows run.2
      = [BarRender.VerticalValue 0; BarRender.VerticalValue 1;
         BarRender.VerticalValue 2].
Proof.
  cbv zeta.
  apply (vertical_chart_has_a_gap_between_bars Inputs.sales_mem 0
           (BarRender.CLAY_SID "sales") Inputs.vertical_chart
           BarRender.initial_statics
           (Inputs.rendered
              (BarRender.render_chart Inputs.sales_mem 0 (BarRender.CLAY_SID "sales")
                 Inputs.vertical_chart BarRender.initial_statics)).1).
  - vm_compute. split; reflexivity.
  - by_running.
  - reflexivity.
  - by_running.
Defined.

(** Three horizontal bars: each is as wide as its value times its share of
    the scale. *)
Lemma horizontal_bar_width_is_share_times_value_witness :
  let run := Inputs.rendered
               (BarRender.render_chart Inputs.sales_mem 0 (BarRender.CLAY_SID "sales")
                  Inputs.horizontal_chart BarRender.initial_statics) in
  ∃ mx ds,
    BarRender.Clay_BarChart__CalculateMaxValue Inputs.sales_mem
      Inputs.horizontal_chart = Some mx
    ∧ read_all (Bar.read_data Inputs.sales_mem 4096) 0 3 = Some ds
    ∧ BarLayout.rows run.2
      = imap (λ k _, ("BarH"%string, Z.of_nat k,
                      BarRender.CLAY_SIZING_GROW F32.zero,
                      BarRender.CLAY_SIZING_FIXED (F32.of_Z 60))) ds
    ∧ BarLayout.bar_boxes run.2
      = (λ d, (BarRender.CLAY_SIZING_FIXED (BarLayout.scaled_width mx d),
               BarRender.CLAY_SIZING_FIXED (F32.sub (F32.of_Z 60) (F32.of_Z 8))))
        <$> ds
    ∧ BarLayout.skeleton run.2
      = imap (λ k _, inl (Z.of_nat k, BarRender.CLAY_SIZING_FIXED (F32.of_Z 60)))
          ds.
Proof.
  cbv zeta.
  apply (horizontal_bar_width_is_share_times_value Inputs.sales_mem 0
           (BarRender.CLAY_SID "sales") Inputs.horizontal_chart
           BarRender.initial_statics
           (Inputs.rendered
              (BarRender.render_chart Inputs.sales_mem 0 (BarRender.CLAY_SID "sales")
                 Inputs.horizontal_chart BarRender.initial_statics)).1).
  - by_running.
  - by_running.
  - by_running.
  - by_running.
Defined.

(* ===================================================================== *)
(** * Bar chart: edge cases                                              *)
(* ===================================================================== *)

Section BarEdges.
Import Bar BarRender BarLayout.

Lemma RenderVerticalBar_overflow m clock d index h lh cfg st :
  showValues cfg = true → 32 ≤ index →
  Clay_BarChart__RenderVerticalBar m clock d index h lh cfg st = None.
Proof.
  intros Hvalues Hindex. unfold Clay_BarChart__RenderVerticalBar, format_value.
  rewrite Hvalues. by destruct (Z.ltb_spec index 32); [lia|].
Qed.

Lemma RenderHorizontalBar_overflow m clock d index bh mw cfg st :
  showValues cfg = true → 32 ≤ index →
  Clay_BarChart__RenderHorizontalBar m clock d index bh mw cfg st = None.
Proof.
  intros Hvalues Hindex. unfold Clay_BarChart__RenderHorizontalBar, format_value.
  rewrite Hvalues.
  destruct (Clay_BarChart__CalculateMaxValue m cfg) as [mx|]; [|done]. simpl.
  destruct (Clay_BarChart__GetBarColor _ _ _ _ _) as [[c s]|]; [|done]. simpl.
  by destruct (Z.ltb_spec index 32); [lia|].
Qed.

(** X19: With showValues set and more than 32 data points, rendering a bar
    chart of either orientation has undefined behaviour: the value of bar
    32 is formatted past the 32 rows of the static array valueBuffers. *)
Theorem value_texts_have_room_for_32_bars m clock id cfg st :
  dataCount cfg ≠ 0 → data cfg ≠ 0 →
  showValues cfg = true →
  32 < dataCount cfg →
  render_chart m clock id cfg st = None.
Proof.
  intros Hn Hd Hvalues Hmany. unfold render_chart.
  apply Z.eqb_neq in Hn, Hd. rewrite Hn, Hd. simpl.
  destruct (Clay_BarChart__CalculateMaxValue m cfg) as [mx|]; [|done]. simpl.
  destruct (orientation cfg =? _).
  - unfold vertical_bars. cbv zeta.
    rewrite (for_up_None _ _ 0 32); [done|lia|].
    intros [st1 decls]. destruct (read_data _ _ _) as [d|]; [|done]. simpl.
    by rewrite RenderVerticalBar_overflow.
  - unfold horizontal_bars.
    rewrite (for_up_None _ _ 0 32); [done|lia|].
    intros [st1 decls]. destruct (read_data _ _ _) as [d|]; [|done]. simpl.
    by rewrite RenderHorizontalBar_overflow.
Qed.

Lemma fold_larger_zeros ds :
  Forall (λ d, is_zero (value d)) ds →
  fold_left larger ds F32.zero = F32.zero.
Proof.
  induction 1 as [|d ds [s Hd] _ IH]; simpl; [done|].
  unfold larger at 2. by rewrite Hd.
Qed.

Lemma bars_and_gaps_zero_max i last lh ds :
  Forall (λ d, is_zero (value d)) ds →
  ∀ j h, inl (j, h) ∈ bars_and_gaps i last F32.zero lh ds →
         h = CLAY_SIZING_FIXED S754_nan.
Proof.
  intros Hzero. revert i. induction Hzero as [|d ds [s Hd] _ IH]; intros i j h;
    simpl.
  - intros Hin. by apply elem_of_nil in Hin.
  - intros Hin. apply elem_of_cons in Hin as [[= -> ->]|Hin].
    + unfold bar_height. by rewrite Hd.
    + apply elem_of_app in Hin as [Hin|Hin]; [|by eapply IH].
      destruct (i <? last); [|by apply elem_of_nil in Hin].
      by apply list_elem_of_singleton in Hin.
Qed.

(** X20: When config->maxValue is not positive and every data value is
    zero, the scale is 0 and a vertical chart still declares its n bars
    and n - 1 gaps, but every bar container gets the height NaN (0 / 0 *
    350 + label height). *)
Theorem zero_maximum_gives_NaN_heights m clock id cfg st st' decls ds :
  0 < dataCount cfg < 2 ^ 32 → data cfg ≠ 0 →
  orientation cfg = CLAY_BARCHART_ORIENTATION_VERTICAL →
  F32.ltb F32.zero (maxValue cfg) = false →
  read_all (read_data m (data cfg)) 0 (Z.to_nat (dataCount cfg)) = Some ds →
  Forall (λ d, is_zero (value d)) ds →
  render_chart m clock id cfg st = Some (st', decls) →
  Clay_BarChart__CalculateMaxValue m cfg = Some F32.zero
  ∧ length (skeleton decls) = (2 * length ds - 1)%nat
  ∧ ∀ i h, inl (i, h) ∈ skeleton decls → h = CLAY_SIZING_FIXED S754_nan.
Proof.
  intros Hn Hd Hvert Hauto Hds Hzero Hrun.
  assert (Clay_BarChart__CalculateMaxValue m cfg = Some F32.zero) as Hmax.
  { rewrite (CalculateMaxValue_fold _ _ Hauto), Hds. simpl.
    by rewrite (fold_larger_zeros _ Hzero). }
  split; [done|].
  destruct (render_chart_vertical _ _ _ _ _ _ _ Hn Hd Hvert Hrun)
    as (mx & ds' & Hmx & Hds' & Hsk & _).
  rewrite Hmax in Hmx. injection Hmx as <-.
  rewrite Hds in Hds'. injection Hds' as <-.
  rewrite Hsk. split; [|by apply bars_and_gaps_zero_max].
  apply read_all_length in Hds.
  assert (∀ i last lh (l : list Clay_BarChart_DataPoint),
            last = i + Z.of_nat (length l) - 1 →
            length (bars_and_gaps i last F32.zero lh l)
            = (2 * length l - 1)%nat) as Hlen; [|apply Hlen; lia].
  intros i last lh l. revert i. induction l as [|d l IH]; intros i Hlast;
    simpl; [done|].
  rewrite length_app, IH by (simpl in Hlast; lia).
  destruct l as [|d' l]; simpl in *.
  - by assert ((i <? last) = false) as -> by (apply Z.ltb_ge; lia).
  - assert ((i <? last) = true) as -> by (apply Z.ltb_lt; lia). simpl. lia.
Qed.

End BarEdges.

(** A chart of 33 bars with value texts. *)
Lemma value_texts_have_room_for_32_bars_witness :
  BarRender.render_chart Inputs.sales_mem 0 (BarRender.CLAY_SID "days")
    Inputs.crowded_bars BarRender.initial_statics = None.
Proof.
  apply (value_texts_have_room_for_32_bars Inputs.sales_mem 0
           (BarRender.CLAY_SID "days") Inputs.crowded_bars
           BarRender.initial_statics).
  - by_running.
  - by_running.
  - reflexivity.
  - by_running.
Defined.

(** Two months without sales. *)
Lemma zero_maximum_gives_NaN_heights_witness :
  let run := Inputs.rendered
               (BarRender.render_chart Inputs.sales_mem 0 (BarRender.CLAY_SID "sales")
                  Inputs.empty_months BarRender.initial_statics) in
  BarRender.Clay_BarChart__CalculateMaxValue Inputs.sales_mem Inputs.empty_months
  = Some F32.zero
  ∧ length (BarLayout.skeleton run.2) = 3%nat
  ∧ ∀ i h, inl (i, h) ∈ BarLayout.skeleton run.2 →
           h = BarRender.CLAY_SIZING_FIXED S754_nan.
Proof.
  cbv zeta.
  apply (zero_maximum_gives_NaN_heights Inputs.sales_mem 0
           (BarRender.CLAY_SID "sales") Inputs.empty_months
           BarRender.initial_statics
           (Inputs.rendered
              (BarRender.render_chart Inputs.sales_mem 0 (BarRender.CLAY_SID "sales")
                 Inputs.empty_months BarRender.initial_statics)).1
           (Inputs.rendered
              (BarRender.render_chart Inputs.sales_mem 0 (BarRender.CLAY_SID "sales")
                 Inputs.empty_months BarRender.initial_statics)).2
           Inputs.no_sales).
  - vm_compute. split; reflexivity.
  - by_running.
  - reflexivity.
  - by_running.
  - by_running.
  - repeat (constructor; [exists false; by_running|]). constructor.
  - by_running.
Defined.

(* ===================================================================== *)
(** * Bar chart: value buffers, defaults and the macro API               *)
(* ===================================================================== *)

Section ValueBuffers.
Import Bar BarRender BarLayout.

(** The rows the loop over the vertical bars writes. *)
Lemma vertical_loop_buffers m clock cfg mx lh count i st acc st' decls ds :
  showValues cfg = true →
  0 ≤ i →
  length (vertical_valueBuffers st) = 32%nat →
  for_up count i
    (λ i '(st, decls),
       d ← read_data m (data cfg) i;
       let barHeightRatio := F32.div (value d) mx in
       let calculatedBarHeight := F32.mul barHeightRatio (F32.of_Z 350) in
       '(st, bar) ← Clay_BarChart__RenderVerticalBar m clock d i
                      calculatedBarHeight lh cfg st;
       let gap :=
         if i <? wrap32 (dataCount cfg - 1)
         then [Gap i (CLAY_SIZING_GROW F32.one)] else [] in
       Some (st, decls ++ bar ++ gap))
    (st, acc) = Some (st', decls) →
  read_all (read_data m (data cfg)) i count = Some ds →
  length (vertical_valueBuffers st') = 32%nat
  ∧ (∀ (k : nat) d, ds !! k = Some d →
       vertical_valueBuffers st' !! (Z.to_nat i + k)%nat = Some (Some (value d)))
  ∧ (∀ j : nat, (j < Z.to_nat i)%nat →
       vertical_valueBuffers st' !! j = vertical_valueBuffers st !! j).
Proof.
  intros Hvalues. revert i st acc ds.
  induction count as [|n IH]; intros i st acc ds Hi Hlen;
    cbn [for_up read_all].
  - intros [= <- <-] [= <-]. split; [done|]. split; [|done].
    intros k d Hk. by rewrite lookup_nil in Hk.
  - destruct (read_data m (data cfg) i) as [d|]; [|done].
    cbn [mbind option_bind]. cbv zeta.
    destruct (Clay_BarChart__RenderVerticalBar _ _ _ _ _ _ _ _)
      as [[st1 bar]|] eqn:Hbar; [|done].
    cbn [mbind option_bind]. intros Hloop.
    destruct (read_all _ (i + 1) n) as [ds'|] eqn:Hds; [|done].
    simpl. intros [= <-].
    apply RenderVerticalBar_inv in Hbar as (_ & _ & _ & Hwritten).
    rewrite Hvalues in Hwritten. destruct Hwritten as [Hrow Hst1].
    assert (length (vertical_valueBuffers st1) = 32%nat) as Hlen1
      by (by rewrite Hst1, length_insert).
    destruct (IH (i + 1) st1 _ ds' ltac:(lia) Hlen1 Hloop Hds)
      as (Hlen' & Hrows & Hkeep).
    split; [done|]. split.
    + intros [|k] d' Hk; simpl in Hk.
      * injection Hk as <-. rewrite Nat.add_0_r, Hkeep by lia.
        rewrite Hst1. apply list_lookup_insert_eq. lia.
      * replace (Z.to_nat i + S k)%nat with (Z.to_nat (i + 1) + k)%nat by lia.
        by apply Hrows.
    + intros j Hj. rewrite Hkeep by lia. rewrite Hst1.
      apply list_lookup_insert_ne. lia.
Qed.

Lemma render_chart_vertical_buffers m clock id cfg st st' decls ds :
  0 < dataCount cfg < 2 ^ 32 → data cfg ≠ 0 →
  orientation cfg = CLAY_BARCHART_ORIENTATION_VERTICAL →
  showValues cfg = true →
  length (vertical_valueBuffers st) = 32%nat →
  render_chart m clock id cfg st = Some (st', decls) →
  read_all (read_data m (data cfg)) 0 (Z.to_nat (dataCount cfg)) = Some ds →
  length (vertical_valueBuffers st') = 32%nat
  ∧ ∀ (k : nat) d, ds !! k = Some d →
      vertical_valueBuffers st' !! k = Some (Some (value d)).
Proof.
  intros Hn Hd Hvert Hvalues Hlen. unfold render_chart.
  assert ((dataCount cfg =? 0) = false) as -> by (apply Z.eqb_neq; lia).
  apply Z.eqb_neq in Hd. rewrite Hd. simpl.
  destruct (Clay_BarChart__CalculateMaxValue m cfg) as [mx|]; [|done].
  simpl. rewrite Hvert, Z.eqb_refl. unfold vertical_bars. cbv zeta.
  destruct (for_up _ _ _ _) as [[st1 bars]|] eqn:Hloop; [|done].
  simpl. intros [= <- <-] Hds.
  destruct (vertical_loop_buffers _ _ _ _ _ _ 0 _ _ _ _ _ Hvalues
              ltac:(lia) Hlen Hloop Hds) as (Hlen' & Hrows & _).
  split; [done|]. intros k d Hk. by apply (Hrows k).
Qed.

(** X21: The value texts of all vertical charts point into the one static
    array valueBuffers: when two charts with value texts are declared one
    after the other, the texts of both point to rows 0, 1, ... and after
    the second chart row k holds the second chart's value k, also where a
    text of the first chart points to it. *)
Theorem value_texts_share_one_buffer
    m clock idA cfgA idB cfgB st0 st1 st2 declsA declsB dsB :
  length (vertical_valueBuffers st0) = 32%nat →
  0 < dataCount cfgA < 2 ^ 32 → data cfgA ≠ 0 →
  orientation cfgA = CLAY_BARCHART_ORIENTATION_VERTICAL →
  showValues cfgA = true →
  0 < dataCount cfgB < 2 ^ 32 → data cfgB ≠ 0 →
  orientation cfgB = CLAY_BARCHART_ORIENTATION_VERTICAL →
  showValues cfgB = true →
  render_chart m clock idA cfgA st0 = Some (st1, declsA) →
  render_chart m clock idB cfgB st1 = Some (st2, declsB) →
  read_all (read_data m (data cfgB)) 0 (Z.to_nat (dataCount cfgB)) = Some dsB →
  value_rows declsA
  = VerticalValue <$> (Z.of_nat <$> seq 0 (Z.to_nat (dataCount cfgA)))
  ∧ value_rows declsB
    = VerticalValue <$> (Z.of_nat <$> seq 0 (Z.to_nat (dataCount cfgB)))
  ∧ ∀ (k : nat) d, dsB !! k = Some d →
      vertical_valueBuffers st2 !! k = Some (Some (value d)).
Proof.
  intros Hlen HnA HdA HvA HsA HnB HdB HvB HsB HA HB Hds.
  destruct (render_chart_vertical _ _ _ _ _ _ _ HnA HdA HvA HA)
    as (mxA & dsA & _ & HdsA & _ & HrowsA).
  destruct (render_chart_vertical _ _ _ _ _ _ _ HnB HdB HvB HB)
    as (mxB & dsB' & _ & _ & _ & HrowsB).
  rewrite HsA in HrowsA. rewrite HsB in HrowsB.
  split; [done|]. split; [done|].
  destruct (render_chart_vertical_buffers _ _ _ _ _ _ _ _
              HnA HdA HvA HsA Hlen HA HdsA) as [Hlen1 _].
  by destruct (render_chart_vertical_buffers _ _ _ _ _ _ _ _
                 HnB HdB HvB HsB Hlen1 HB Hds) as [_ Hrows].
Qed.

End ValueBuffers.

(** Two charts in one layout: after the second is declared, the rows the
    first chart's texts point to hold the second chart's values. *)
Lemma value_texts_share_one_buffer_witness :
  let first := Inputs.rendered
                 (BarRender.render_chart Inputs.sales_mem 0
                    (BarRender.CLAY_SID "first") Inputs.vertical_chart
                    BarRender.initial_statics) in
  let second := Inputs.rendered
                  (BarRender.render_chart Inputs.sales_mem 0
                     (BarRender.CLAY_SID "second") Inputs.second_chart first.1) in
  BarLayout.value_rows first.2
  = [BarRender.VerticalValue 0; BarRender.VerticalValue 1;
     BarRender.VerticalValue 2]
  ∧ BarLayout.value_rows second.2
    = [BarRender.VerticalValue 0; BarRender.VerticalValue 1]
  ∧ ∀ (k : nat) d, Inputs.second_quarter !! k = Some d →
      BarRender.vertical_valueBuffers second.1 !! k = Some (Some (Bar.value d)).
Proof.
  cbv zeta.
  apply (value_texts_share_one_buffer Inputs.sales_mem 0
           (BarRender.CLAY_SID "first") Inputs.vertical_chart
           (BarRender.CLAY_SID "second") Inputs.second_chart
           BarRender.initial_statics
           (Inputs.rendered
              (BarRender.render_chart Inputs.sales_mem 0
                 (BarRender.CLAY_SID "first") Inputs.vertical_chart
                 BarRender.initial_statics)).1
           (Inputs.rendered
              (BarRender.render_chart Inputs.sales_mem 0
                 (BarRender.CLAY_SID "second") Inputs.second_chart
                 (Inputs.rendered
                    (BarRender.render_chart Inputs.sales_mem 0
                       (BarRender.CLAY_SID "first") Inputs.vertical_chart
                       BarRender.initial_statics)).1)).1
           (Inputs.rendered
              (BarRender.render_chart Inputs.sales_mem 0
                 (BarRender.CLAY_SID "first") Inputs.vertical_chart
                 BarRender.initial_statics)).2
           (Inputs.rendered
              (BarRender.render_chart Inputs.sales_mem 0
                 (BarRender.CLAY_SID "second") Inputs.second_chart
                 (Inputs.rendered
                    (BarRender.render_chart Inputs.sales_mem 0
                       (BarRender.CLAY_SID "first") Inputs.vertical_chart
                       BarRender.initial_statics)).1)).2
           Inputs.second_quarter).
  - reflexivity.
  - vm_compute. split; reflexivity.
  - by_running.
  - reflexivity.
  - reflexivity.
  - vm_compute. split; reflexivity.
  - by_running.
  - reflexivity.
  - reflexivity.
  - by_running.
  - by_running.
  - by_running.
Defined.


Section ConfigDefaults.
Import Bar BarRender ConfigBuffer.

Lemma default_if_zero_idem (x d : float) :
  F32.eqb d F32.zero = false →
  let y := if F32.eqb x F32.zero then d else x in
  (if F32.eqb y F32.zero then d else y) = y.
Proof.
  intros Hd. cbv zeta. destruct (F32.eqb x F32.zero) eqn:Hx.
  - by rewrite Hd.
  - by rewrite Hx.
Qed.

Lemma default_color_idem (c d : Clay_Color) :
  all_zero d = false →
  let y := if all_zero c then d else c in
  (if all_zero y then d else y) = y.
Proof.
  intros Hd. cbv zeta. destruct (all_zero c) eqn:Hc.
  - by rewrite Hd.
  - by rewrite Hc.
Qed.

(** X22: The defaults Clay__StoreBarChartConfig fills in (font size 16,
    background, label colour, bar width 60, bar gap 8 for fields left
    zero) are stable: a config that has been through them comes out of
    them unchanged. *)
Theorem apply_defaults_idempotent (config : Clay_BarChart_Config) :
  apply_defaults (apply_defaults config) = apply_defaults config.
Proof.
  unfold apply_defaults. cbn [data dataCount orientation barWidth barGap
    maxValue backgroundColor gridColor labelTextColor labelFontSize
    labelFontId showGrid showLabels showValues colorMode colorConfig].
  rewrite (default_if_zero_idem (barWidth config) (F32.of_Z 60)) by by_running.
  rewrite (default_if_zero_idem (barGap config) (F32.of_Z 8)) by by_running.
  rewrite (default_color_idem (backgroundColor config) (rgba 245 245 245 255))
    by by_running.
  rewrite (default_color_idem (labelTextColor config) (rgba 60 60 60 255))
    by by_running.
  f_equal. destruct (labelFontSize config =? 0) eqn:Hsize; [done|].
  by rewrite Hsize.
Qed.

(** The state a run of stores leaves behind. *)
Lemma store_all_state config rest st :
  (store_all (config :: rest) st).2
  = (store_all rest (Clay__StoreBarChartConfig config st).2).2.
Proof.
  cbn [store_all].
  destruct (Clay__StoreBarChartConfig config st) as [slot st1]. cbn [snd].
  by destruct (store_all rest st1).
Qed.

Lemma store_buffer_length config st :
  length (Clay__BarChartConfigBuffer (Clay__StoreBarChartConfig config st).2)
  = length (Clay__BarChartConfigBuffer st).
Proof. unfold Clay__StoreBarChartConfig. simpl. by rewrite length_insert. Qed.

Lemma store_index_nonneg config st :
  0 ≤ Clay__BarChartConfigIndex st →
  0 ≤ Clay__BarChartConfigIndex (Clay__StoreBarChartConfig config st).2.
Proof.
  intros Hidx. rewrite store_index by done.
  pose proof (next_slot_range st Hidx). lia.
Qed.

Lemma mod_32_shift (a d : Z) :
  0 ≤ a ≤ 31 → 1 ≤ d ≤ 31 → (a + d) mod 32 ≠ a.
Proof.
  intros Ha Hd. destruct (Z.lt_ge_cases (a + d) 32).
  - rewrite Z.mod_small by lia. lia.
  - replace (a + d) with (a + d - 32 + 1 * 32) by lia.
    rewrite Z.mod_add, Z.mod_small by lia. lia.
Qed.

(** A run of stores leaves alone every slot it does not come by. *)
Lemma store_all_keeps_previous_slot configs st :
  0 ≤ Clay__BarChartConfigIndex st →
  (length configs ≤ 31)%nat →
  ∀ s : Z, 0 ≤ s ≤ 31 →
    (∀ j : nat, (j < length configs)%nat →
       (next_slot st + Z.of_nat j) mod 32 ≠ s) →
    Clay__BarChartConfigBuffer (store_all configs st).2 !! Z.to_nat s
    = Clay__BarChartConfigBuffer st !! Z.to_nat s.
Proof.
  revert st. induction configs as [|config rest IH]; intros st Hidx Hlen s Hs Hfree;
    [done|].
  simpl in Hlen. rewrite store_all_state.
  pose proof (next_slot_range st Hidx) as Hslot.
  pose proof (store_index config st Hidx) as Hnext.
  rewrite IH; [| by apply store_index_nonneg | lia | done |].
  - unfold Clay__StoreBarChartConfig. simpl. fold (next_slot st).
    apply list_lookup_insert_ne.
    specialize (Hfree 0%nat ltac:(simpl; lia)). simpl in Hfree.
    rewrite Z.add_0_r, Z.mod_small in Hfree by lia. lia.
  - intros j Hj. specialize (Hfree (S j) ltac:(simpl; lia)).
    unfold next_slot at 1. rewrite Hnext.
    destruct (Z.leb_spec 32 (next_slot st + 1)).
    + replace (next_slot st) with 31 in Hfree by lia.
      replace (31 + Z.of_nat (S j)) with (0 + Z.of_nat j + 1 * 32) in Hfree by lia.
      by rewrite Z.mod_add in Hfree by lia.
    + by replace (next_slot st + 1 + Z.of_nat j)
        with (next_slot st + Z.of_nat (S j)) by lia.
Qed.

(** X23: A config stored by Clay__StoreBarChartConfig is found in the slot
    returned, with the defaults filled in, for as long as at most 31
    further configs have been stored after it. *)
Theorem stored_config_outlives_31_stores
    (configs : list Clay_BarChart_Config) (st : ConfigStore) (k : nat)
    (config : Clay_BarChart_Config) :
  length (Clay__BarChartConfigBuffer st) = 32%nat →
  0 ≤ Clay__BarChartConfigIndex st →
  configs !! k = Some config →
  (length configs ≤ k + 32)%nat →
  ∃ slot,
    (store_all configs st).1 !! k = Some slot
    ∧ 0 ≤ slot ≤ 31
    ∧ Clay__BarChartConfigBuffer (store_all configs st).2 !! Z.to_nat slot
      = Some (apply_defaults config).
Proof.
  revert st k. induction configs as [|c rest IH]; intros st k Hlen Hidx Hk Hwin;
    [done|].
  pose proof (next_slot_range st Hidx) as Hslot.
  pose proof (store_index c st Hidx) as Hnext.
  rewrite store_all_cons, store_all_state.
  destruct k as [|k]; simpl in Hk, Hwin.
  - injection Hk as ->. exists (next_slot st). split; [done|]. split; [done|].
    rewrite store_all_keeps_previous_slot;
      [| by apply store_index_nonneg | lia | done |].
    + unfold Clay__StoreBarChartConfig. simpl. fold (next_slot st).
      apply list_lookup_insert_eq. lia.
    + intros j Hj. unfold next_slot at 1. rewrite Hnext.
      destruct (Z.leb_spec 32 (next_slot st + 1)).
      * rewrite Z.add_0_l, Z.mod_small by lia. lia.
      * rewrite <- Z.add_assoc. apply mod_32_shift; lia.
  - apply IH; [by rewrite store_buffer_length | by apply store_index_nonneg
               | done | lia].
Qed.

(** X24: CLAY_BARCHART(id, CLAY_BARCHART_CONFIG(config)) declares exactly
    what the renderer declares for the config with the defaults filled in,
    under the given element id, and leaves the config buffer as the store
    left it. *)
Theorem CLAY_BARCHART_renders_stored_defaults
    m clock id (config : Clay_BarChart_Config) (store : ConfigStore) st :
  length (Clay__BarChartConfigBuffer store) = 32%nat →
  0 ≤ Clay__BarChartConfigIndex store →
  CLAY_BARCHART m clock id config store st
  = '(st', decls) ← render_chart m clock (ElementId id) (apply_defaults config) st;
    Some ((Clay__StoreBarChartConfig config store).2, st', decls).
Proof.
  intros Hlen Hidx. unfold CLAY_BARCHART, Clay__StoreBarChartConfig.
  fold (next_slot store). pose proof (next_slot_range store Hidx).
  cbn [Clay__BarChartConfigBuffer].
  rewrite list_lookup_insert_eq by lia. simpl.
  unfold Clay_BarChart__RenderWithId, Clay_BarChart__RenderInternal.
  by destruct (render_chart _ _ _ _ _) as [[st' decls]|].
Qed.

End ConfigDefaults.

(** The first of 32 configs stored in a frame is still in its slot after
    the last. *)
Lemma stored_config_outlives_31_stores_witness :
  let configs := Inputs.data_only :: replicate 31 Sample.zero_bars in
  ∃ slot,
    (ConfigBuffer.store_all configs Sample.empty_store).1 !! 0%nat = Some slot
    ∧ 0 ≤ slot ≤ 31
    ∧ Bar.Clay__BarChartConfigBuffer
        (ConfigBuffer.store_all configs Sample.empty_store).2 !! Z.to_nat slot
      = Some (Bar.apply_defaults Inputs.data_only).
Proof.
  cbv zeta.
  apply (stored_config_outlives_31_stores
           (Inputs.data_only :: replicate 31 Sample.zero_bars)
           Sample.empty_store 0 Inputs.data_only).
  - reflexivity.
  - by_running.
  - reflexivity.
  - vm_compute. lia.
Defined.

(** The macro on a config that gives only the data. *)
Lemma CLAY_BARCHART_renders_stored_defaults_witness :
  BarRender.CLAY_BARCHART Inputs.sales_mem 0 7 Inputs.data_only
    Sample.empty_store BarRender.initial_statics
  = '(st', decls) ← BarRender.render_chart Inputs.sales_mem 0
                      (BarRender.ElementId 7)
                      (Bar.apply_defaults Inputs.data_only)
                      BarRender.initial_statics;
    Some ((Bar.Clay__StoreBarChartConfig Inputs.data_only Sample.empty_store).2,
          st', decls).
Proof.
  apply (CLAY_BARCHART_renders_stored_defaults Inputs.sales_mem 0 7
           Inputs.data_only Sample.empty_store BarRender.initial_statics).
  - reflexivity.
  - by_running.
Defined.

(* ===================================================================== *)
(** * The demo programs                                                  *)
(* ===================================================================== *)

Section DemoDataFacts.
Import DemoData DemoFacts.

(** A list of twelve elements, spelled out. *)
Lemma twelve {A} (l : list A) :
  length l = 12%nat →
  ∃ a0 a1 a2 a3 a4 a5 a6 a7 a8 a9 a10 a11,
    l = [a0; a1; a2; a3; a4; a5; a6; a7; a8; a9; a10; a11].
Proof.
  intros Hlen.
  do 12 (destruct l as [|? l]; [discriminate Hlen|]).
  destruct l; [|discriminate Hlen].
  by eexists _, _, _, _, _, _, _, _, _, _, _, _.
Qed.

Lemma copy_to_pie_spec sales pie :
  length sales = 12%nat → length pie = 12%nat →
  copy_to_pie sales pie
  = Some (zip_with (λ s p, Pie.mkDataPoint (Bar.value s) (Bar.label s)
                             (Bar.color s) (Pie.exploded p)) sales pie).
Proof.
  intros Hs Hp.
  destruct (twelve _ Hs) as (s0&s1&s2&s3&s4&s5&s6&s7&s8&s9&s10&s11&->).
  destruct (twelve _ Hp) as (p0&p1&p2&p3&p4&p5&p6&p7&p8&p9&p10&p11&->).
  reflexivity.
Qed.

Lemma zip_mirrors sales pie :
  length sales = length pie →
  Forall2 (λ s p, Pie.value p = Bar.value s
                  ∧ Pie.label p = Bar.label s
                  ∧ Pie.color p = Bar.color s)
    sales
    (zip_with (λ s p, Pie.mkDataPoint (Bar.value s) (Bar.label s)
                        (Bar.color s) (Pie.exploded p)) sales pie).
Proof.
  revert pie. induction sales as [|s sales IH]; intros [|p pie] Hlen;
    simpl in *; try done; constructor; auto.
Qed.

(** Adding a whole number up to 150 to [100.0f] is exact: all 151 sums,
    by computation. *)
Lemma all_small_sums_exact :
  forallb (λ k, Colours.same_float (F32.add (F32.of_Z 100) (F32.of_Z k))
                  (F32.of_Z (100 + k))) small_numbers = true.
Proof. by_running. Qed.

Lemma new_value_exact (rnd n : Z) :
  0 ≤ rnd → 0 < n ≤ 151 →
  F32.add (F32.of_Z 100) (F32.of_Z (Z.rem rnd n)) = F32.of_Z (100 + rnd mod n).
Proof.
  intros Hrnd Hn. rewrite Z.rem_mod_nonneg by lia.
  pose proof (Z.mod_pos_bound rnd n ltac:(lia)) as Hk.
  pose proof all_small_sums_exact as Hall.
  rewrite forallb_forall in Hall.
  apply same_float_eq, Hall. unfold small_numbers.
  replace (rnd mod n) with (Z.of_nat (Z.to_nat (rnd mod n))) by lia.
  apply in_map, in_seq. lia.
Qed.

Lemma array_set_length {A} (arr arr' : list A) i v :
  array_set arr i v = Some arr' → length arr' = length arr.
Proof.
  unfold array_set. destruct (_ && _); [|done].
  intros [= <-]. by rewrite length_insert.
Qed.

(** A property every round of a loop keeps holds when the loop is done. *)
Lemma for_up_keeps {S} (P : S → Prop) (body : Z → S → option S) count i s s' :
  (∀ j s s', P s → body j s = Some s' → P s') →
  P s → for_up count i body s = Some s' → P s'.
Proof.
  intros Hbody. revert i s. induction count as [|k IH]; intros i s Hs; simpl.
  - by intros [= <-].
  - destruct (body i s) as [s1|] eqn:Hstep; [|done]. simpl.
    apply IH. by eapply Hbody.
Qed.

Lemma copy_to_pie_mirrors sales pie pie' g' :
  length sales = 12%nat → length pie = 12%nat →
  copy_to_pie sales pie = Some pie' →
  salesData g' = sales → pieData g' = pie' →
  mirrors g'.
Proof.
  intros Hs Hp Hcopy Hsales Hpie. rewrite copy_to_pie_spec in Hcopy by done.
  injection Hcopy as <-. unfold mirrors. rewrite Hsales, Hpie.
  split; [done|]. split.
  - rewrite length_zip_with. lia.
  - apply zip_mirrors. lia.
Qed.

(** X25: The demo's pie data mirrors its sales data: after
    InitializeSalesData every pie segment has the value, label and colour
    of the bar of the same index and none is exploded, and every call of
    UpdateSalesData, in either demo program, keeps value, label and colour
    of the pie segments equal to those of the bars. *)
Theorem pie_data_mirrors_sales_data :
  (∀ now g,
     length (salesData g) = 12%nat → length (pieData g) = 12%nat →
     ∃ g', InitializeSalesData now g = Some g'
           ∧ mirrors g'
           ∧ Forall (λ p, Pie.exploded p = false) (pieData g'))
  ∧ (∀ now rnd g g',
       mirrors g → DemoLayout.UpdateSalesData now rnd g = Some g' → mirrors g')
  ∧ (∀ now rnd g g',
       mirrors g → DemoCustom.UpdateSalesData now rnd g = Some g' → mirrors g').
Proof.
  split; [|split].
  - intros now g Hs Hp. destruct g as [sales pie cmi last idx].
    simpl in Hs, Hp.
    destruct (twelve _ Hs) as (s0&s1&s2&s3&s4&s5&s6&s7&s8&s9&s10&s11&->).
    destruct (twelve _ Hp) as (p0&p1&p2&p3&p4&p5&p6&p7&p8&p9&p10&p11&->).
    eexists. split; [reflexivity|]. simpl.
    split; [|repeat constructor].
    repeat split; repeat constructor.
  - intros now rnd g g' (Hs & Hp & Hmirror).
    unfold DemoLayout.UpdateSalesData. cbv zeta.
    destruct (double_leb _ _); [|by intros [= <-]].
    destruct (for_up _ 0 _ (salesData g)) as [sales1|] eqn:Hshift; [|done].
    cbn [mbind option_bind].
    destruct (array_get sales1 _) as [lastPoint|]; [|done].
    cbn [mbind option_bind].
    destruct (array_set sales1 _ _) as [sales2|] eqn:Hset; [|done].
    cbn [mbind option_bind].
    destruct (for_up _ 0 _ sales2) as [sales3|] eqn:Hlabel; [|done].
    cbn [mbind option_bind].
    destruct (copy_to_pie sales3 (pieData g)) as [pie'|] eqn:Hcopy; [|done].
    cbn [mbind option_bind]. intros [= <-].
    assert (length sales1 = 12%nat) as H1.
    { eapply (for_up_keeps (λ l, length l = 12%nat)); [|exact Hs|exact Hshift].
      intros j l l' Hl. cbv beta. destruct (array_get l (j + 1)); [|done]. simpl.
      destruct (array_get l j); [|done]. simpl.
      intros Hstep. apply array_set_length in Hstep. lia. }
    assert (length sales2 = 12%nat) as H2
      by (apply array_set_length in Hset; lia).
    assert (length sales3 = 12%nat) as H3.
    { eapply (for_up_keeps (λ l, length l = 12%nat)); [|exact H2|exact Hlabel].
      intros j l l' Hl. cbv beta. destruct (array_get monthNames _); [|done]. simpl.
      destruct (array_get l j); [|done]. simpl.
      intros Hstep. apply array_set_length in Hstep. lia. }
    by eapply copy_to_pie_mirrors.
  - intros now rnd g g' (Hs & Hp & Hmirror).
    unfold DemoCustom.UpdateSalesData. cbv zeta.
    destruct (double_leb _ _); [|by intros [= <-]].
    destruct (array_get (salesData g) _) as [cur|]; [|done]. simpl.
    destruct (array_set (salesData g) _ _) as [sales1|] eqn:Hset; [|done].
    simpl.
    destruct (copy_to_pie sales1 (pieData g)) as [pie'|] eqn:Hcopy; [|done].
    simpl. destruct (update_index g <? _); [|done]. intros [= <-].
    assert (length sales1 = 12%nat) as H1
      by (apply array_set_length in Hset; lia).
    by eapply copy_to_pie_mirrors.
Qed.

Lemma month_cases (month : Z) :
  0 ≤ month < 12 →
  month = 0 ∨ month = 1 ∨ month = 2 ∨ month = 3 ∨ month = 4 ∨ month = 5
  ∨ month = 6 ∨ month = 7 ∨ month = 8 ∨ month = 9 ∨ month = 10 ∨ month = 11.
Proof. lia. Qed.

(** X26: UpdateSalesData of the first demo does nothing until a second has
    passed since the last update. Then the values move one place to the
    left and 100 + rand() % 151 is appended, exactly; the month index
    advances by one modulo 12, the labels are the month names rotated to
    the new index, the colours go by position, the exploded flags of the
    pie data are kept, and the timer is set to the current time. *)
Theorem window_moves_on_by_one_month now rnd g :
  length (salesData g) = 12%nat → length (pieData g) = 12%nat →
  0 ≤ currentMonthIndex g < 12 →
  0 ≤ rnd →
  if second_passed now g then
    ∃ g',
      DemoLayout.UpdateSalesData now rnd g = Some g'
      ∧ Bar.value <$> salesData g'
        = drop 1 (Bar.value <$> salesData g) ++ [F32.of_Z (100 + rnd mod 151)]
      ∧ currentMonthIndex g' = (currentMonthIndex g + 1) mod 12
      ∧ Bar.label <$> salesData g'
        = rotate (Z.to_nat (currentMonthIndex g')) monthNames
      ∧ Bar.color <$> salesData g'
        = DemoLayout.position_color <$> (Z.of_nat <$> seq 0 12)
      ∧ mirrors g'
      ∧ Pie.exploded <$> pieData g' = Pie.exploded <$> pieData g
      ∧ lastUpdateTime g' = now
  else DemoLayout.UpdateSalesData now rnd g = Some g.
Proof.
  intros Hs Hp Hmonth Hrnd. unfold second_passed, DemoLayout.UpdateSalesData.
  cbv zeta. destruct (double_leb _ _); [|done].
  rewrite (new_value_exact rnd 151) by lia.
  destruct g as [sales pie cmi last idx]. simpl in Hs, Hp, Hmonth.
  destruct (twelve _ Hs) as (s0&s1&s2&s3&s4&s5&s6&s7&s8&s9&s10&s11&->).
  destruct (twelve _ Hp) as (p0&p1&p2&p3&p4&p5&p6&p7&p8&p9&p10&p11&->).
  cbn [salesData pieData currentMonthIndex lastUpdateTime update_index].
  destruct (month_cases cmi Hmonth)
    as [->|[->|[->|[->|[->|[->|[->|[->|[->|[->|[->| ->]]]]]]]]]]];
    (eexists; split; [reflexivity|]; simpl;
     repeat split; try reflexivity; repeat constructor).
Qed.

(** X27: UpdateSalesData of the second demo does nothing until two seconds
    have passed since the last update. Then it replaces exactly one sales
    value, that of position index mod 12, by 100 + rand() % 150,
    increments the index, copies the sales data to the pie data keeping
    the exploded flags, and sets the timer to the current time. *)
Theorem one_figure_is_replaced_in_turn now rnd g :
  length (salesData g) = 12%nat → length (pieData g) = 12%nat →
  0 ≤ update_index g < 2 ^ 31 - 1 →
  0 ≤ rnd →
  if two_seconds_passed now g then
    ∃ g' old,
      DemoCustom.UpdateSalesData now rnd g = Some g'
      ∧ salesData g !! Z.to_nat (update_index g mod 12) = Some old
      ∧ salesData g'
        = <[Z.to_nat (update_index g mod 12)
            := with_value old (F32.of_Z (100 + rnd mod 150))]> (salesData g)
      ∧ update_index g' = update_index g + 1
      ∧ mirrors g'
      ∧ Pie.exploded <$> pieData g' = Pie.exploded <$> pieData g
      ∧ lastUpdateTime g' = now
  else DemoCustom.UpdateSalesData now rnd g = Some g.
Proof.
  intros Hs Hp Hidx Hrnd. unfold two_seconds_passed, DemoCustom.UpdateSalesData.
  cbv zeta. destruct (double_leb _ _); [|done].
  rewrite (new_value_exact rnd 150) by lia.
  unfold SALES_DATA_COUNT. rewrite Z.rem_mod_nonneg by lia.
  pose proof (Z.mod_pos_bound (update_index g) 12 ltac:(lia)) as Hslot.
  assert ((update_index g <? 2 ^ 31 - 1) = true) as -> by (apply Z.ltb_lt; lia).
  destruct g as [sales pie cmi last idx].
  cbn [salesData pieData currentMonthIndex lastUpdateTime update_index] in *.
  destruct (twelve _ Hs) as (s0&s1&s2&s3&s4&s5&s6&s7&s8&s9&s10&s11&->).
  destruct (twelve _ Hp) as (p0&p1&p2&p3&p4&p5&p6&p7&p8&p9&p10&p11&->).
  destruct (month_cases (idx mod 12) Hslot)
    as [->|[->|[->|[->|[->|[->|[->|[->|[->|[->|[->| ->]]]]]]]]]]];
    (eexists _, _; split; [reflexivity|]; simpl;
     repeat split; try reflexivity; repeat constructor).
Qed.

End DemoDataFacts.

(** The demo's data at its start and after one update of either demo. *)
Lemma pie_data_mirrors_sales_data_witness :
  DemoFacts.mirrors Inputs.demo_start
  ∧ DemoFacts.mirrors Inputs.window_moved
  ∧ DemoFacts.mirrors Inputs.figure_replaced.
Proof.
  destruct pie_data_mirrors_sales_data as (Hinit & Hlayout & Hcustom).
  assert (DemoFacts.mirrors Inputs.demo_start) as Hstart.
  { destruct (Hinit (DemoData.double_of_Z 0) DemoData.initial_globals)
      as (g' & Hrun & Hmirrors & _); [reflexivity|reflexivity|].
    assert (DemoData.InitializeSalesData (DemoData.double_of_Z 0)
              DemoData.initial_globals = Some Inputs.demo_start) as Hrun'
      by by_running.
    rewrite Hrun' in Hrun. injection Hrun as <-. exact Hmirrors. }
  split; [exact Hstart|]. split.
  - apply (Hlayout (DemoData.double_of_Z 3) 1000 Inputs.demo_start
             Inputs.window_moved Hstart). by_running.
  - apply (Hcustom (DemoData.double_of_Z 3) 1000 Inputs.demo_start
             Inputs.figure_replaced Hstart). by_running.
Defined.

(** Three seconds after the start, [rand()] returning 1000: the window
    runs from February to January, the new figure is 194. *)
Lemma window_moves_on_by_one_month_witness :
  ∃ g',
    DemoLayout.UpdateSalesData (DemoData.double_of_Z 3) 1000 Inputs.demo_start
    = Some g'
    ∧ Bar.value <$> DemoData.salesData g'
      = drop 1 (Bar.value <$> DemoData.salesData Inputs.demo_start)
        ++ [F32.of_Z (100 + 1000 mod 151)]
    ∧ DemoData.currentMonthIndex g'
      = (DemoData.currentMonthIndex Inputs.demo_start + 1) mod 12
    ∧ Bar.label <$> DemoData.salesData g'
      = rotate (Z.to_nat (DemoData.currentMonthIndex g')) DemoData.monthNames
    ∧ Bar.color <$> DemoData.salesData g'
      = DemoLayout.position_color <$> (Z.of_nat <$> seq 0 12)
    ∧ DemoFacts.mirrors g'
    ∧ Pie.exploded <$> DemoData.pieData g'
      = Pie.exploded <$> DemoData.pieData Inputs.demo_start
    ∧ DemoData.lastUpdateTime g' = DemoData.double_of_Z 3.
Proof.
  pose proof (window_moves_on_by_one_month (DemoData.double_of_Z 3) 1000
                Inputs.demo_start) as Hstep.
  assert (DemoFacts.second_passed (DemoData.double_of_Z 3) Inputs.demo_start
          = true) as Hpassed by by_running.
  rewrite Hpassed in Hstep. apply Hstep.
  - by_running.
  - by_running.
  - vm_compute. split; [discriminate|reflexivity].
  - lia.
Defined.

(** Three seconds after the start, [rand()] returning 1000: the figure of
    January becomes 200. *)
Lemma one_figure_is_replaced_in_turn_witness :
  ∃ g' old,
    DemoCustom.UpdateSalesData (DemoData.double_of_Z 3) 1000 Inputs.demo_start
    = Some g'
    ∧ DemoData.salesData Inputs.demo_start
        !! Z.to_nat (DemoData.update_index Inputs.demo_start mod 12) = Some old
    ∧ DemoData.salesData g'
      = <[Z.to_nat (DemoData.update_index Inputs.demo_start mod 12)
          := DemoData.with_value old (F32.of_Z (100 + 1000 mod 150))]>
          (DemoData.salesData Inputs.demo_start)
    ∧ DemoData.update_index g' = DemoData.update_index Inputs.demo_start + 1
    ∧ DemoFacts.mirrors g'
    ∧ Pie.exploded <$> DemoData.pieData g'
      = Pie.exploded <$> DemoData.pieData Inputs.demo_start
    ∧ DemoData.lastUpdateTime g' = DemoData.double_of_Z 3.
Proof.
  pose proof (one_figure_is_replaced_in_turn (DemoData.double_of_Z 3) 1000
                Inputs.demo_start) as Hstep.
  assert (DemoFacts.two_seconds_passed (DemoData.double_of_Z 3)
            Inputs.demo_start = true) as Hpassed by by_running.
  rewrite Hpassed in Hstep. apply Hstep.
  - by_running.
  - by_running.
  - vm_compute. split; [discriminate|reflexivity].
  - lia.
Defined.

